(** * Flood Hapi: the extraction pipeline of [app.py]

    A shallow embedding of the flood-risk extraction pipeline:
    [create_buffer_bbox], [download_ea_layer], [clip_to_buffer],
    [_process_single_layer] and [process_postcode], with the postcode
    lookup [geocode_postcode] and the download route [api_download].

    Conventions of the embedding.
    - Python floats are exact rationals ([Q]).
    - A raised exception is [inl msg]; a returned value is [inr v].
    - The geometry library (shapely / GEOS / geopandas / pyproj) is not part
      of the repository: its operations are the fields of an [Engine]
      record, and every general theorem holds for every engine.
    - The outside world (postcode lookup, the Defra query API, the clock) is
      an [Env] record; HTTP answers are indexed by the attempt number. *)

From Stdlib Require Import List String Ascii Bool Arith ZArith QArith Lia Lqa.
From Stdlib Require Import Numbers.DecimalString QArith.Qabs Sorting.Permutation.
Import ListNotations.

Close Scope Q_scope.
Open Scope string_scope.
Open Scope list_scope.
Open Scope nat_scope.

Set Implicit Arguments.
Set Warnings "-register-all".

(* ------------------------------------------------------------------ *)
(** ** Python strings *)

Module Py.

Infix "+s+" := String.append (at level 60, right associativity).

(** [str.upper] on the ASCII range. *)
Definition upper_ascii (c : ascii) : ascii :=
  let n := nat_of_ascii c in
  if andb (97 <=? n) (n <=? 122) then ascii_of_nat (n - 32) else c.

Fixpoint upper (s : string) : string :=
  match s with
  | EmptyString => EmptyString
  | String c s' => String (upper_ascii c) (upper s')
  end.

Definition is_space (c : ascii) : bool :=
  let n := nat_of_ascii c in
  orb (n =? 32) (andb (9 <=? n) (n <=? 13)).

Fixpoint lstrip (s : string) : string :=
  match s with
  | EmptyString => EmptyString
  | String c s' => if is_space c then lstrip s' else s
  end.

Fixpoint rev_string (s acc : string) : string :=
  match s with
  | EmptyString => acc
  | String c s' => rev_string s' (String c acc)
  end.

(** [str.strip()] *)
Definition strip (s : string) : string :=
  rev_string (lstrip (rev_string (lstrip s) EmptyString)) EmptyString.

(** [s.replace(" ", "")] *)
Fixpoint remove_spaces (s : string) : string :=
  match s with
  | EmptyString => EmptyString
  | String c s' =>
      if (nat_of_ascii c =? 32) then remove_spaces s'
      else String c (remove_spaces s')
  end.

(** [str(int)] *)
Definition str_of_Z (z : Z) : string := NilZero.string_of_int (Z.to_int z).

(** [int(x)] on a float: truncation towards zero. *)
Definition int_of_Q (x : Q) : Z := Z.quot (Qnum x) (Zpos (Qden x)).

(** [s.startswith(p)] *)
Definition startswith (s p : string) : bool := String.prefix p s.

Definition in_list (s : string) (l : list string) : bool :=
  existsb (String.eqb s) l.

End Py.
Import Py.

(* ------------------------------------------------------------------ *)
(** ** Exceptions *)

Definition exn := string.
Definition result (A : Type) : Type := (exn + A)%type.

Definition raise {A : Type} (e : exn) : result A := inl e.
Definition ret {A : Type} (a : A) : result A := inr a.

Definition bind {A B : Type} (c : result A) (k : A -> result B) : result B :=
  match c with
  | inl e => inl e
  | inr a => k a
  end.

Notation "x <- c ;; k" := (bind c (fun x => k))
  (at level 61, c at next level, right associativity).

(** [[f(x) for x in l]] where [f] may raise: the first exception wins. *)
Fixpoint mapM {A B : Type} (f : A -> result B) (l : list A) : result (list B) :=
  match l with
  | [] => ret []
  | x :: l' => y <- f x ;; ys <- mapM f l' ;; ret (y :: ys)
  end.

(* ------------------------------------------------------------------ *)
(** ** Configuration (module level constants of [app.py]) *)

Definition EA_QUERY_API : string :=
  "https://environment.data.gov.uk/backend/catalog/api/geospatial/query".
Definition CRS_WGS84 : string := "EPSG:4326".
Definition CRS_BNG : string := "EPSG:27700".
Definition DEFAULT_RADIUS : Q := 500%Q.

Definition EA_LAYER_IDS : list (string * string) :=
  [ ("rofsw",            "7a7d1570-dd33-4edc-9a19-fde1b9fcaadb");
    ("rofsw_0_2m_depth", "8aa5d9cb-2a54-4480-b7d6-0aaef9efa576");
    ("rofsw_0_3m_depth", "c36f87b8-100f-4162-bab1-7b3d0fb20c62");
    ("rofsw_0_6m_depth", "212ee02f-9a47-4c55-a4e0-2c7c6e8d35d2");
    ("rofsw_0_9m_depth", "5b3f81a3-f6c7-4637-8b1e-4cf5ef83259e");
    ("rofsw_1_2m_depth", "52819ecb-130c-4a4d-a406-6f003af69988") ].

Record LayerConfig : Type := mkLayerConfig {
  ea_layer : string;
  filter_field : option string;
  filter_value : option string;
  description : string;
  filename : string
}.

Definition ROFSW_LAYERS : list (string * LayerConfig) :=
  [ ("risk_band_High",
      mkLayerConfig "rofsw" (Some "risk_band") (Some "High")
        "High risk - >=3.3% (1 in 30) chance per year" "risk_band_High");
    ("risk_band_Medium",
      mkLayerConfig "rofsw" (Some "risk_band") (Some "Medium")
        "Medium risk - <3.3% but >=1% (1 in 100) chance per year"
        "risk_band_Medium");
    ("risk_band_Low",
      mkLayerConfig "rofsw" (Some "risk_band") (Some "Low")
        "Low risk - <1% but >=0.1% (1 in 1000) chance per year"
        "risk_band_Low");
    ("depth_0.2m",
      mkLayerConfig "rofsw_0_2m_depth" None None
        "Flooding depth >= 0.2m" "depth_0_2m");
    ("depth_0.3m",
      mkLayerConfig "rofsw_0_3m_depth" None None
        "Flooding depth >= 0.3m" "depth_0_3m");
    ("depth_0.6m",
      mkLayerConfig "rofsw_0_6m_depth" None None
        "Flooding depth >= 0.6m" "depth_0_6m");
    ("depth_0.9m",
      mkLayerConfig "rofsw_0_9m_depth" None None
        "Flooding depth >= 0.9m" "depth_0_9m");
    ("depth_1.2m",
      mkLayerConfig "rofsw_1_2m_depth" None None
        "Flooding depth >= 1.2m" "depth_1_2m") ].

(** A Python [dict] with string keys, in insertion order. *)
Section Dict.
Variable V : Type.

Fixpoint dict_get (d : list (string * V)) (k : string) : option V :=
  match d with
  | [] => None
  | (k', v) :: d' => if String.eqb k k' then Some v else dict_get d' k
  end.

(** [d[k] = v]: overwrite in place, or append a new key. *)
Fixpoint dict_set (d : list (string * V)) (k : string) (v : V)
  : list (string * V) :=
  match d with
  | [] => [(k, v)]
  | (k', v') :: d' =>
      if String.eqb k k' then (k', v) :: d' else (k', v') :: dict_set d' k v
  end.

Definition dict_values (d : list (string * V)) : list V := map snd d.
End Dict.

(* ------------------------------------------------------------------ *)
(** ** Geometries and feature collections *)

Definition coord : Type := (Q * Q)%type.

(** A polygon is its exterior ring, without the repeated closing vertex;
    interior rings are left out. *)
Definition polygon : Type := list coord.

(** The geometry kinds the program tells apart: polygonal ones, geometry
    collections, and the lower-dimensional rest. *)

Inductive geometry : Type :=
| Point (p : coord)
| LineString (cs : list coord)
| Polygon (shell : polygon)
| MultiPolygon (polys : list polygon)
| GeometryCollection (geoms : list geometry).

(** [isinstance(g, (Polygon, MultiPolygon))] *)
Definition is_polygonal (g : geometry) : bool :=
  match g with
  | Polygon _ | MultiPolygon _ => true
  | _ => false
  end.

Definition is_polygon (g : geometry) : bool :=
  match g with
  | Polygon _ => true
  | _ => false
  end.

Definition is_point (g : geometry) : bool :=
  match g with
  | Point _ => true
  | _ => false
  end.

(** All vertices of a geometry. *)
Fixpoint coords (g : geometry) : list coord :=
  match g with
  | Point p => [p]
  | LineString cs => cs
  | Polygon shell => shell
  | MultiPolygon polys => List.concat polys
  | GeometryCollection geoms => flat_map coords geoms
  end.

(** An attribute value: text or a number. *)
Inductive value : Type :=
| VStr (s : string)
| VNum (q : Q).

(** One record of a [GeoDataFrame]: the attribute cells, positionally under
    the frame's columns ([None] is a null cell), and the geometry. *)
Record Row : Type := mkRow {
  values : list (option value);
  geom : geometry
}.

Record GeoDataFrame : Type := mkGDF {
  columns : list string;       (* attribute columns; "geometry" is implicit *)
  crs : option string;
  rows : list Row
}.

(** [gpd.GeoDataFrame()] *)
Definition GeoDataFrame_new : GeoDataFrame := mkGDF [] None [].

(** [gdf.empty] *)
Definition empty (gdf : GeoDataFrame) : bool :=
  match rows gdf with
  | [] => true
  | _ => false
  end.

(** [len(gdf)] *)
Definition len (gdf : GeoDataFrame) : nat := List.length (rows gdf).

Definition with_rows (gdf : GeoDataFrame) (rs : list Row) : GeoDataFrame :=
  mkGDF (columns gdf) (crs gdf) rs.

Definition set_geom (r : Row) (g : geometry) : Row := mkRow (values r) g.

(** [field in gdf.columns] *)
Definition has_column (gdf : GeoDataFrame) (field : string) : bool :=
  orb (String.eqb field "geometry") (in_list field (columns gdf)).

Fixpoint index_of (field : string) (cols : list string) : option nat :=
  match cols with
  | [] => None
  | c :: cols' =>
      if String.eqb field c then Some 0
      else option_map S (index_of field cols')
  end.

(** The cell of row [r] under attribute column [field]. *)
Definition cell (gdf : GeoDataFrame) (field : string) (r : Row) : option value :=
  match index_of field (columns gdf) with
  | Some i => nth i (values r) None
  | None => None
  end.

Definition is_str_cell (v : option value) : bool :=
  match v with
  | Some (VStr _) => true
  | _ => false
  end.

Definition is_num_cell (v : option value) : bool :=
  match v with
  | Some (VNum _) => true
  | _ => false
  end.

(** Whether [gdf[field].str] is available: pandas refuses the accessor on
    the geometry column and on a column that holds numbers and no string. *)
Definition str_accessor_ok (gdf : GeoDataFrame) (field : string) : bool :=
  andb (negb (String.eqb field "geometry"))
       (orb (existsb (fun r => is_str_cell (cell gdf field r)) (rows gdf))
            (negb (existsb (fun r => is_num_cell (cell gdf field r)) (rows gdf)))).

(** One entry of [gdf[field].str.upper() == value.upper()]; an entry that
    is not a string compares unequal. *)
Definition matches (gdf : GeoDataFrame) (field value : string) (r : Row) : bool :=
  match cell gdf field r with
  | Some (VStr s) => String.eqb (upper s) (upper value)
  | _ => false
  end.

(** [gdf[gdf[field].str.upper() == value.upper()]] *)
Definition filter_by (gdf : GeoDataFrame) (field : string) (value : option string)
  : result GeoDataFrame :=
  if negb (str_accessor_ok gdf field)
  then raise "AttributeError: Can only use .str accessor with string values!"
  else match value with
       | None => raise "AttributeError: 'NoneType' object has no attribute 'upper'"
       | Some v => ret (with_rows gdf (filter (matches gdf field v) (rows gdf)))
       end.

(* ------------------------------------------------------------------ *)
(** ** The geometry engine *)

Record Engine : Type := mkEngine {
  (** [geom.centroid]; [None] for the empty point *)
  centroid : geometry -> option coord;
  (** [prep(poly).contains(Point(c))]: [c] lies in the interior *)
  contains : polygon -> coord -> bool;
  (** [prep(poly).intersects(g)] *)
  intersects : polygon -> geometry -> bool;
  (** [g.is_valid] *)
  is_valid : geometry -> bool;
  (** [shapely.validation.make_valid] *)
  make_valid : geometry -> geometry;
  (** [g.intersection(mask)]; GEOS may raise *)
  intersection : geometry -> polygon -> result geometry;
  (** [shapely.ops.unary_union]; GEOS may raise *)
  unary_union : list geometry -> result geometry;
  (** [Point(c).buffer(r)] *)
  buffer : coord -> Q -> polygon;
  (** [Transformer.from_crs(src, dst, always_xy=True).transform] *)
  transform : string -> string -> coord -> coord
}.

(* ------------------------------------------------------------------ *)
(** ** GeometryBuffer *)

Section GeometryBuffer.
Variable E : Engine.

Definition bbox : Type := (Q * Q * Q * Q)%type.

Definition create_buffer_bbox (easting northing radius : Q) : bbox * bbox :=
  let bbox_bng :=
    (easting - radius, northing - radius,
     easting + radius, northing + radius)%Q in
  let '(x0, y0, x1, y1) := bbox_bng in
  let '(min_lng, min_lat) := transform E CRS_BNG CRS_WGS84 (x0, y0) in
  let '(max_lng, max_lat) := transform E CRS_BNG CRS_WGS84 (x1, y1) in
  let bbox_wgs84 := (min_lng, min_lat, max_lng, max_lat) in
  (bbox_bng, bbox_wgs84).

Definition create_buffer_polygon (easting northing radius : Q) : polygon :=
  buffer E (easting, northing) radius.
End GeometryBuffer.

(* ------------------------------------------------------------------ *)
(** ** SpatialClipper *)

Fixpoint dropna (l : list (option Row)) : list Row :=
  match l with
  | [] => []
  | Some r :: l' => r :: dropna l'
  | None :: l' => dropna l'
  end.

Section SpatialClipper.
Variable E : Engine.

(** [shapely.prepared.prep]: a prepared polygon answers the same
    predicates as the polygon it was built from. *)
Definition prep (b : polygon) : polygon := b.

(** [geopandas.clip(gdf, mask)] for a polygon mask: the rows meeting the
    mask, every geometry that is not a point replaced by its intersection
    with the mask. The rows are kept in the order of the frame here;
    geopandas lists them as its spatial index finds them. (The bounding
    box test geopandas starts with only spares work: rows of a frame
    whose box misses the box of the mask do not meet the mask.) *)
Definition gpd_clip (gdf : GeoDataFrame) (mask : polygon) : result GeoDataFrame :=
  let gdf_sub := filter (fun r => intersects E mask (geom r)) (rows gdf) in
  if forallb (fun r => is_point (geom r)) gdf_sub
  then ret (with_rows gdf gdf_sub)
  else
    clipped <- mapM (fun r =>
                       if is_point (geom r) then ret r
                       else g <- intersection E (geom r) mask ;;
                            ret (set_geom r g)) gdf_sub ;;
    ret (with_rows gdf clipped).

(** The local function [extract_polygons] of [clip_to_buffer]. *)
Definition extract_polygons (g : geometry) : result (option geometry) :=
  match g with
  | Polygon _ | MultiPolygon _ => ret (Some g)
  | GeometryCollection geoms =>
      let polys := filter is_polygonal geoms in
      match polys with
      | [] => ret None
      | [p] => ret (Some p)
      | _ => u <- unary_union E polys ;; ret (Some u)
      end
  | _ => ret None
  end.

(** One entry of [inside_mask]. *)
Definition centroid_inside (prepared_buffer : polygon) (r : Row) : bool :=
  match centroid E (geom r) with
  | Some c => contains E prepared_buffer c
  | None => false
  end.

(** [make_valid] on the invalid entries only. *)
Definition repair (r : Row) : Row :=
  if is_valid E (geom r) then r else set_geom r (make_valid E (geom r)).

Definition extract_row (r : Row) : result (option Row) :=
  g <- extract_polygons (geom r) ;; ret (option_map (set_geom r) g).

Definition clip_to_buffer (gdf : GeoDataFrame) (buffer_polygon : polygon)
           (prepared_buffer : option polygon) : result GeoDataFrame :=
  if empty gdf then ret gdf
  else
    let prepared_buffer :=
      match prepared_buffer with
      | None => prep buffer_polygon
      | Some p => p
      end in
    let inside_mask := centroid_inside prepared_buffer in
    let fully_inside := filter inside_mask (rows gdf) in
    let edge_candidates := filter (fun r => negb (inside_mask r)) (rows gdf) in
    match edge_candidates with
    | [] => ret (with_rows gdf fully_inside)
    | _ =>
        let edge_intersects :=
          filter (fun r => intersects E prepared_buffer (geom r)) edge_candidates in
        match edge_intersects with
        | [] => ret (with_rows gdf fully_inside)
        | _ =>
            let edge_intersects :=
              if existsb (fun r => negb (is_valid E (geom r))) edge_intersects
              then map repair edge_intersects
              else edge_intersects in
            clipped_edges <- gpd_clip (with_rows gdf edge_intersects) buffer_polygon ;;
            clipped_edges <-
              (if negb (empty clipped_edges)
               then extracted <- mapM extract_row (rows clipped_edges) ;;
                    ret (with_rows clipped_edges (dropna extracted))
               else ret clipped_edges) ;;
            ret (mkGDF (columns gdf) (crs gdf)
                       (fully_inside ++ rows clipped_edges))
        end
    end.
End SpatialClipper.

(* ------------------------------------------------------------------ *)
(** ** LayerSource *)

(** What one HTTP answer of the query API holds, as far as the program
    looks at it: the status line, [len(resp.content)], the member names of
    the zip archive (or the exception [zipfile.ZipFile] raises on it), and
    what [gpd.read_file] loads from a member once extracted. *)
Record Response : Type := mkResponse {
  status_code : nat;
  content_len : nat;
  zip_namelist : result (list string);
  read_file : string -> result GeoDataFrame
}.

(** What a fetch does to the outside world, in order: a request
    ([_http.post]) and a pause ([time.sleep]). *)
Inductive event : Type :=
| EvPost (url : string) (attempt : nat)
| EvSleep (seconds : nat).

(** The dictionary [geocode_postcode] returns. *)
Record Location : Type := mkLocation {
  loc_postcode : string;
  loc_lat : Q;
  loc_lng : Q;
  loc_easting : Q;
  loc_northing : Q;
  loc_admin_district : string;
  loc_region : string
}.

(** The outside world of one job. *)
Record Env : Type := mkEnv {
  (** [geocode_postcode] *)
  geocode_postcode : string -> result Location;
  (** [_http.post(url, json=query_polygon, ...)] at the n-th attempt *)
  http_post : string -> list coord -> nat -> result Response;
  (** [datetime.now().strftime("%Y%m%d_%H%M%S")] *)
  timestamp : string;
  (** [str(OUTPUT_DIR)] with its trailing separator *)
  OUTPUT_DIR : string
}.

(** [resp.raise_for_status()] *)
Definition raise_for_status (resp : Response) : result Response :=
  if andb (400 <=? status_code resp) (status_code resp <? 600)
  then raise ("HTTPError: " +s+ str_of_Z (Z.of_nat (status_code resp)))
  else ret resp.

(** [n.endswith(suffix)] *)
Definition endswith (n suffix : string) : bool :=
  String.prefix (rev_string suffix EmptyString) (rev_string n EmptyString).

Fixpoint map_coords (f : coord -> coord) (g : geometry) : geometry :=
  match g with
  | Point p => Point (f p)
  | LineString cs => LineString (map f cs)
  | Polygon shell => Polygon (map f shell)
  | MultiPolygon polys => MultiPolygon (map (map f) polys)
  | GeometryCollection geoms => GeometryCollection (map (map_coords f) geoms)
  end.

(** [shapely.get_parts]: the parts of a multi-part geometry, one level
    down; a single-part geometry is its own only part. *)
Definition get_parts (g : geometry) : list geometry :=
  match g with
  | MultiPolygon polys => map Polygon polys
  | GeometryCollection geoms => geoms
  | _ => [g]
  end.

(** [gdf.explode(index_parts=False).reset_index(drop=True)] *)
Definition explode (gdf : GeoDataFrame) : GeoDataFrame :=
  with_rows gdf
    (flat_map (fun r => map (set_geom r) (get_parts (geom r))) (rows gdf)).

Section LayerSource.
Variable E : Engine.
Variable W : Env.

(** [gdf.to_crs(dst)] *)
Definition to_crs (gdf : GeoDataFrame) (src dst : string) : GeoDataFrame :=
  mkGDF (columns gdf) (Some dst)
        (map (fun r => set_geom r (map_coords (transform E src dst) (geom r)))
             (rows gdf)).

(** The body of the [try]: one request and its status check. *)
Definition try_post (url : string) (query_polygon : list coord) (attempt : nat)
  : result Response :=
  resp <- http_post W url query_polygon attempt ;; raise_for_status resp.

(** The retry loop: [remaining] iterations are left, the next one is
    number [attempt]. With no iteration at all [resp] is never bound. *)
Fixpoint post_loop (url : string) (query_polygon : list coord)
         (max_retries remaining attempt : nat) : result Response * list event :=
  match remaining with
  | 0 => (raise "UnboundLocalError: resp", [])
  | S remaining' =>
      match try_post url query_polygon attempt with
      | inr resp => (ret resp, [EvPost url attempt])
      | inl e =>
          if attempt <? max_retries
          then
            let wait := attempt * 3 in
            let (res, evs) :=
              post_loop url query_polygon max_retries remaining' (S attempt) in
            (res, EvPost url attempt :: EvSleep wait :: evs)
          else (raise e, [EvPost url attempt])
      end
  end.

Definition parse_response (resp : Response) : result GeoDataFrame :=
  if content_len resp <? 100 then ret GeoDataFrame_new
  else
    names <- zip_namelist resp ;;
    let shp_names := filter (fun n => endswith n ".shp") names in
    match shp_names with
    | [] => ret GeoDataFrame_new
    | shp :: _ =>
        gdf <- read_file resp shp ;;
        if empty gdf then ret gdf
        else
          let gdf := explode gdf in
          let gdf :=
            match crs gdf with
            | Some c =>
                if andb (negb (String.eqb c "")) (negb (String.eqb c CRS_BNG))
                then to_crs gdf c CRS_BNG
                else gdf
            | None => gdf
            end in
          ret gdf
    end.

Definition query_polygon (bbox_wgs84 : bbox) : list coord :=
  let '(min_lng, min_lat, max_lng, max_lat) := bbox_wgs84 in
  [ (min_lng, min_lat); (min_lng, max_lat); (max_lng, max_lat);
    (max_lng, min_lat); (min_lng, min_lat) ].

Definition layer_url (layer_id : string) : string :=
  EA_QUERY_API +s+ "?layer=" +s+ layer_id.

Definition download_ea_layer (layer_name : string) (bbox_wgs84 : bbox)
           (max_retries : nat) : result GeoDataFrame * list event :=
  match dict_get EA_LAYER_IDS layer_name with
  | None => (raise ("KeyError: " +s+ layer_name), [])
  | Some layer_id =>
      let (res, evs) :=
        post_loop (layer_url layer_id) (query_polygon bbox_wgs84)
                  max_retries max_retries 1 in
      (resp <- res ;; parse_response resp, evs)
  end.
End LayerSource.

(* ------------------------------------------------------------------ *)
(** ** ResultPackager *)

Inductive Status : Type := ok | empty_after_clip | no_data | error.

(** One value of [results["layers"]]. An absent key and a [None] value of
    ["filename"] and ["error"] are both [None]. *)
Record LayerResult : Type := mkLayerResult {
  lr_features : nat;
  lr_status : Status;
  lr_description : string;
  lr_filename : option string;
  lr_error : option string
}.

Record Metadata : Type := mkMetadata {
  md_postcode : string;
  md_easting : Q;
  md_northing : Q;
  md_lat : Q;
  md_lng : Q;
  md_radius_m : Q;
  md_crs : string;
  md_generated : string
}.

Inductive File : Type :=
| Shapefile (gdf : GeoDataFrame)
| MetadataJson (md : Metadata).

(** The files under the job directory, by path relative to it. A shapefile
    data set stands under the path of its [.shp] member. *)
Definition FS : Type := list (string * File).

Definition save_as_shapefile (gdf : GeoDataFrame) (output_path layer_name : string)
           (fs : FS) : bool * FS :=
  if empty gdf then (false, fs)
  else
    let filepath := output_path +s+ "/" +s+ layer_name +s+ ".shp" in
    (true, dict_set fs filepath (Shapefile gdf)).

(** [create_zip]: every file under the job directory, by relative path.
    The archive is read as a map from paths to files: the list keeps the
    order the files were written in, which is not the order of the members
    of the zip ([rglob] walks the directory in the order of the file
    system). *)
Definition create_zip (fs : FS) : FS := fs.

(* ------------------------------------------------------------------ *)
(** ** LayerOrchestrator and FlowController *)

Record JobResult : Type := mkJobResult {
  postcode : string;
  easting : Q;
  northing : Q;
  lat : Q;
  lng : Q;
  admin_district : string;
  radius : Q;
  bbox_bng : bbox;
  bbox_wgs84 : bbox;
  layers : list (string * LayerResult);
  job_name : string;
  errors : list string;
  zip_file : string;
  zip_filename : string;
  total_features : nat
}.

(** [f"search_buffer_{int(radius)}m"] *)
Definition buffer_filename (radius : Q) : string :=
  "search_buffer_" +s+ str_of_Z (int_of_Q radius) +s+ "m".

Definition no_data_result (cfg : LayerConfig) : LayerResult :=
  mkLayerResult 0 no_data (description cfg) None None.

Definition saved_result (cfg : LayerConfig) (n : nat) (saved : bool) : LayerResult :=
  mkLayerResult n (if saved then ok else empty_after_clip) (description cfg)
                (if saved then Some (filename cfg +s+ ".shp") else None) None.

Definition error_result (cfg : LayerConfig) (e : exn) : LayerResult :=
  mkLayerResult 0 error (description cfg) None (Some e).

(** The raw collections by remote layer name ([raw_data]). *)
Definition RawData : Type := list (string * GeoDataFrame).

(** [raw_data.get(name, gpd.GeoDataFrame())] *)
Definition raw_get (raw_data : RawData) (name : string) : GeoDataFrame :=
  match dict_get raw_data name with
  | Some g => g
  | None => GeoDataFrame_new
  end.

Section Orchestrator.
Variable E : Engine.
Variable W : Env.

Definition _process_single_layer (layer_key : string) (layer_config : LayerConfig)
           (raw_gdf : GeoDataFrame) (buffer_poly prepared_buffer : polygon)
           (shp_dir : string) (fs : FS) : (string * LayerResult) * FS :=
  let try : result (LayerResult * FS) :=
    if empty raw_gdf then ret (no_data_result layer_config, fs)
    else
      gdf <- match filter_field layer_config with
             | Some field =>
                 if String.eqb field "" then ret raw_gdf
                 else if has_column raw_gdf field
                      then filter_by raw_gdf field (filter_value layer_config)
                      else ret raw_gdf
             | None => ret raw_gdf
             end ;;
      if empty gdf then ret (no_data_result layer_config, fs)
      else
        gdf_clipped <- clip_to_buffer E gdf buffer_poly (Some prepared_buffer) ;;
        let (saved, fs') :=
          save_as_shapefile gdf_clipped shp_dir (filename layer_config) fs in
        ret (saved_result layer_config (len gdf_clipped) saved, fs')
  in
  match try with
  | inr (res, fs') => ((layer_key, res), fs')
  | inl e => ((layer_key, error_result layer_config e), fs)
  end.

(** The distinct remote layers of the table, in declaration order. *)
Definition unique_layers : list string :=
  nodup string_dec (map (fun kv => ea_layer (snd kv)) ROFSW_LAYERS).

(** What one future leaves in [raw_data]: the collection fetched, or
    an empty one when the fetch raised (the failure is only logged). *)
Definition fetch_one (bbox_wgs84 : bbox) (name : string) : GeoDataFrame :=
  match fst (download_ea_layer E W name bbox_wgs84 3) with
  | inr gdf => gdf
  | inl _ => GeoDataFrame_new
  end.

(** Step 4: every distinct remote layer is fetched. The futures write
    under distinct keys, so the order they complete in does not show. *)
Definition fetch_all (bbox_wgs84 : bbox) : RawData :=
  fold_left
    (fun raw_data name => dict_set raw_data name (fetch_one bbox_wgs84 name))
    unique_layers [].

(** One round of the risk band loop of step 5. *)
Definition risk_band_layer (rofsw_clipped : option GeoDataFrame) (shp_dir : string)
           (layer_key : string) (st : list (string * LayerResult) * FS)
  : result (list (string * LayerResult) * FS) :=
  let (layers, fs) := st in
  match dict_get ROFSW_LAYERS layer_key with
  | None => raise ("KeyError: " +s+ layer_key)
  | Some cfg =>
      match rofsw_clipped with
      | Some c =>
          if empty c then ret (dict_set layers layer_key (no_data_result cfg), fs)
          else
            filtered <-
              match filter_field cfg with
              | Some field =>
                  if has_column c field
                  then filter_by c field (filter_value cfg)
                  else ret c
              | None => ret c
              end ;;
            let (saved, fs') := save_as_shapefile filtered shp_dir (filename cfg) fs in
            ret (dict_set layers layer_key (saved_result cfg (len filtered) saved), fs')
      | None => ret (dict_set layers layer_key (no_data_result cfg), fs)
      end
  end.

Definition risk_band_keys : list string :=
  ["risk_band_High"; "risk_band_Medium"; "risk_band_Low"].

Definition derive_risk_bands (rofsw_clipped : option GeoDataFrame) (shp_dir : string)
           (st : list (string * LayerResult) * FS)
  : result (list (string * LayerResult) * FS) :=
  fold_left (fun acc layer_key =>
               st <- acc ;; risk_band_layer rofsw_clipped shp_dir layer_key st)
            risk_band_keys (ret st).

Definition depth_layers : list (string * LayerConfig) :=
  filter (fun kv => startswith (fst kv) "depth_") ROFSW_LAYERS.

(** What [results["errors"]] gains from one layer result. *)
Definition error_entry (layer_key : string) (layer_result : LayerResult)
  : list string :=
  match lr_error layer_result with
  | Some msg =>
      if String.eqb msg "" then [] else [layer_key +s+ ": " +s+ msg]
  | None => []
  end.

(** One round of the depth layer loop of step 6. *)
Definition depth_layer (raw_data : RawData) (buffer_poly prepared_buffer : polygon)
           (shp_dir : string)
           (st : list (string * LayerResult) * list string * FS)
           (kv : string * LayerConfig)
  : list (string * LayerResult) * list string * FS :=
  let '(layers, errors, fs) := st in
  let '(lk, lc) := kv in
  let '((layer_key, layer_result), fs') :=
    _process_single_layer lk lc (raw_get raw_data (ea_layer lc))
                          buffer_poly prepared_buffer shp_dir fs in
  (dict_set layers layer_key layer_result,
   errors ++ error_entry layer_key layer_result, fs').

(** Step 6, one depth layer after the other, in the order of the table. *)
Definition derive_depth_layers (raw_data : RawData) (buffer_poly prepared_buffer : polygon)
           (shp_dir : string)
           (st : list (string * LayerResult) * list string * FS)
  : list (string * LayerResult) * list string * FS :=
  fold_left (depth_layer raw_data buffer_poly prepared_buffer shp_dir)
            depth_layers st.

(** Step 5: clip rofsw once, then split by risk band. *)
Definition risk_phase (rofsw_gdf : GeoDataFrame) (buffer_poly prepared_buffer : polygon)
           (shp_dir : string) (fs : FS)
  : result (list (string * LayerResult) * FS) :=
  rofsw_clipped <-
    (if negb (empty rofsw_gdf)
     then c <- clip_to_buffer E rofsw_gdf buffer_poly (Some prepared_buffer) ;;
          ret (Some c)
     else ret None) ;;
  derive_risk_bands rofsw_clipped shp_dir ([], fs).

(** Steps 6 to 9: the depth layers, the buffer polygon, the metadata
    document, the archive and the totals. *)
Definition package (location : Location) (radius : Q) (bbox_bng bbox_wgs84 : bbox)
           (buffer_poly prepared_buffer : polygon) (job_name shp_dir : string)
           (raw_data : RawData) (st : list (string * LayerResult) * FS)
  : JobResult * FS :=
  let (layers, fs) := st in
  (* Step 6: depth layers *)
  let '(layers, errors, fs) :=
    derive_depth_layers raw_data buffer_poly prepared_buffer shp_dir
                        (layers, [], fs) in
  (* Step 7: the buffer polygon *)
  let buffer_gdf :=
    mkGDF ["postcode"; "radius_m"] (Some CRS_BNG)
          [mkRow [Some (VStr (loc_postcode location)); Some (VNum radius)]
                 (Polygon buffer_poly)] in
  let buffer_filename := buffer_filename radius in
  let (_, fs) := save_as_shapefile buffer_gdf shp_dir buffer_filename fs in
  let layers :=
    dict_set layers "search_buffer"
      (mkLayerResult 1 ok
         (str_of_Z (int_of_Q radius) +s+ "m buffer around " +s+ loc_postcode location)
         (Some (buffer_filename +s+ ".shp")) None) in
  (* Step 8: metadata *)
  let fs :=
    dict_set fs "metadata.json"
      (MetadataJson
         (mkMetadata (loc_postcode location) (loc_easting location)
                     (loc_northing location) (loc_lat location) (loc_lng location)
                     radius CRS_BNG (timestamp W))) in
  (* Step 9: zip *)
  let archive := create_zip fs in
  let total_features := list_sum (map (@lr_features) (dict_values layers)) in
  (mkJobResult (loc_postcode location) (loc_easting location)
               (loc_northing location) (loc_lat location) (loc_lng location)
               (loc_admin_district location) radius bbox_bng bbox_wgs84
               layers job_name errors
               (OUTPUT_DIR W +s+ job_name +s+ ".zip")
               (job_name +s+ ".zip") total_features,
   archive).

Definition process_postcode (postcode : string) (radius : Q)
  : result (JobResult * FS) :=
  (* Step 1: geocode *)
  location <- geocode_postcode W postcode ;;
  (* Step 2: buffer *)
  let (bbox_bng, bbox_wgs84) :=
    create_buffer_bbox E (loc_easting location) (loc_northing location) radius in
  let buffer_poly :=
    create_buffer_polygon E (loc_easting location) (loc_northing location) radius in
  let prepared_buffer := prep buffer_poly in
  (* Step 3: output directory *)
  let clean_postcode := remove_spaces (upper (strip postcode)) in
  let job_name := "RoFSW_" +s+ clean_postcode +s+ "_" +s+ timestamp W in
  let shp_dir := "shapefiles" in
  let fs : FS := [] in
  (* Step 4: downloads *)
  let raw_data := fetch_all bbox_wgs84 in
  (* Step 5: clip rofsw once, then split by risk band *)
  let rofsw_gdf := raw_get raw_data "rofsw" in
  st <- risk_phase rofsw_gdf buffer_poly prepared_buffer shp_dir fs ;;
  (* Steps 6 to 9 *)
  ret (package location radius bbox_bng bbox_wgs84 buffer_poly prepared_buffer
               job_name shp_dir raw_data st).
End Orchestrator.

(* ------------------------------------------------------------------ *)
(** ** The vocabulary of the properties *)

(** The boundary a call tests centroids against. *)
Definition resolve (buffer_polygon : polygon) (prepared_buffer : option polygon)
  : polygon :=
  match prepared_buffer with
  | None => prep buffer_polygon
  | Some p => p
  end.

(** The prepared boundary, when given, was prepared from the boundary. *)
Definition prepared_for (buffer_polygon : polygon) (prepared_buffer : option polygon)
  : Prop :=
  prepared_buffer = None \/ prepared_buffer = Some (prep buffer_polygon).

(** What the slow path does to one boundary-crossing record: repair,
    exact intersection, polygonal part. *)
Definition clip_row (E : Engine) (b : polygon) (r : Row) : result (option Row) :=
  let r1 := repair E r in
  if is_point (geom r1) then extract_row E r1
  else g <- intersection E (geom r1) b ;; extract_row E (set_geom r1 g).

(** No vertex of [g] lies strictly outside [b], where [outside b v] says
    that the vertex [v] lies strictly outside [b]. *)
Definition within (outside : polygon -> coord -> bool) (b : polygon) (g : geometry)
  : bool :=
  forallb (fun v => negb (outside b v)) (coords g).

(** The data set behind every answer of the query API holds polygons
    and multi-polygons only (a polygon shapefile). *)
Definition serves_polygons (W : Env) : Prop :=
  forall url q k resp shp gdf,
    http_post W url q k = inr resp ->
    read_file resp shp = inr gdf ->
    forall r, In r (rows gdf) -> is_polygonal (geom r) = true.

(** The result entry of one depth layer; the files written so far do not
    bear on it. *)
Definition layer_outcome (E : Engine) (raw_data : RawData)
           (buffer_poly prepared_buffer : polygon) (shp_dir : string)
           (kv : string * LayerConfig) : LayerResult :=
  snd (fst (_process_single_layer E (fst kv) (snd kv)
                                  (raw_get raw_data (ea_layer (snd kv)))
                                  buffer_poly prepared_buffer shp_dir [])).

(** The entry of the buffer polygon in [results["layers"]]. *)
Definition search_buffer_result (location : Location) (radius : Q) : LayerResult :=
  mkLayerResult 1 ok
    (str_of_Z (int_of_Q radius) +s+ "m buffer around " +s+ loc_postcode location)
    (Some (buffer_filename radius +s+ ".shp")) None.

(** The raw data of a job none of whose fetches brought anything. *)
Definition no_raw_data : RawData :=
  map (fun name => (name, GeoDataFrame_new)) unique_layers.

(** The output layer [kv] of the table is fed by the remote layer [L]. *)
Definition fed_by (L : string) (kv : string * LayerConfig) : bool :=
  String.eqb (ea_layer (snd kv)) L.

(** [rofsw_clipped[rofsw_clipped[field].str.upper() == value.upper()]] *)
Definition band (c : GeoDataFrame) (value : string) : GeoDataFrame :=
  with_rows c (filter (matches c "risk_band" value) (rows c)).

(** Where a categorical layer is written, and what is written there. *)
Definition band_file (c : GeoDataFrame) (value : string) : option File :=
  if empty (band c value) then None else Some (Shapefile (band c value)).

(** [cfg] without its attribute filter. *)
Definition unfiltered (cfg : LayerConfig) : LayerConfig :=
  mkLayerConfig (ea_layer cfg) None None (description cfg) (filename cfg).

(* ------------------------------------------------------------------ *)
(** ** An executable engine for convex rings

    [Planar] evaluates the engine operations exactly, over the rationals,
    on convex counter-clockwise boundaries and convex rings: half-plane
    tests for containment, Sutherland-Hodgman clipping for intersection,
    the shoelace formula for centroids. Outside that fragment
    [intersection] and [unary_union] raise, and [centroid] has no answer.
    [buffer] is the 12-gon inscribed in the circle through the rational
    points of the (3,4,5) triangle; [transform] is a linear stand-in for
    the projection. The general theorems do not depend on [Planar]; it
    serves to run the pipeline on concrete inputs. *)

Module Planar.
Local Open Scope Q_scope.

Definition Qltb (x y : Q) : bool := negb (Qle_bool y x).

(** Twice the signed area of the triangle [a b p]: positive when [p] is
    to the left of the edge from [a] to [b]. *)
Definition side (e : coord * coord) (p : coord) : Q :=
  let (a, b) := e in
  (fst b - fst a) * (snd p - snd a) - (snd b - snd a) * (fst p - fst a).

(** The edges of a ring, the closing one included. *)
Definition edges (ring : polygon) : list (coord * coord) :=
  match ring with
  | [] => []
  | v :: vs => combine ring (vs ++ [v])
  end.

Definition contains (b : polygon) (p : coord) : bool :=
  match b with
  | [] => false
  | _ => forallb (fun e => Qltb 0 (side e p)) (edges b)
  end.

(** [p] lies strictly outside the boundary. *)
Definition outside (b : polygon) (p : coord) : bool :=
  match b with
  | [] => true
  | _ => existsb (fun e => Qltb (side e p) 0) (edges b)
  end.

(** The point where the segment [p q] crosses the line of [e]. *)
Definition cut (e : coord * coord) (p q : coord) : coord :=
  let t := side e p / (side e p - side e q) in
  (fst p + t * (fst q - fst p), snd p + t * (snd q - snd p)).

Definition clip_edge (e : coord * coord) (ring : polygon) : polygon :=
  flat_map
    (fun pq : coord * coord =>
       let (p, q) := pq in
       if Qle_bool 0 (side e q)
       then (if Qle_bool 0 (side e p) then [q] else [cut e p q; q])
       else (if Qle_bool 0 (side e p) then [cut e p q] else []))
    (edges ring).

Definition clip_ring (b ring : polygon) : polygon :=
  fold_left (fun r e => clip_edge e r) (edges b) ring.

Definition Qred_coord (p : coord) : coord := (Qred (fst p), Qred (snd p)).

Definition coord_eqb (p q : coord) : bool :=
  andb (Qeq_bool (fst p) (fst q)) (Qeq_bool (snd p) (snd q)).

(** Drop a vertex that repeats its predecessor. *)
Fixpoint dedup (prev : coord) (ring : polygon) : polygon :=
  match ring with
  | [] => []
  | p :: ring' => if coord_eqb p prev then dedup prev ring' else p :: dedup p ring'
  end.

(** Reduced fractions, no vertex repeated along the ring, the closing
    edge included. *)
Definition normalise (ring : polygon) : polygon :=
  match map Qred_coord ring with
  | [] => []
  | p :: ring' =>
      match dedup p ring' with
      | [] => [p]
      | q :: ring'' =>
          if coord_eqb (last (q :: ring'') q) p
          then removelast (q :: ring'') ++ [p]
          else p :: q :: ring''
      end
  end.

Definition cross (pq : coord * coord) : Q :=
  let (p, q) := pq in fst p * snd q - fst q * snd p.

Definition Qsum (l : list Q) : Q := fold_right Qplus 0 l.

(** Twice the signed area of a ring. *)
Definition area2 (ring : polygon) : Q := Qsum (map cross (edges ring)).

Definition lex_le (p q : coord) : bool :=
  orb (Qltb (fst p) (fst q))
      (andb (Qeq_bool (fst p) (fst q)) (Qle_bool (snd p) (snd q))).

Definition lex_min (p : coord) (l : list coord) : coord :=
  fold_left (fun m q => if lex_le q m then q else m) l p.

Definition lex_max (p : coord) (l : list coord) : coord :=
  fold_left (fun m q => if lex_le m q then q else m) l p.

(** The geometry a clipped ring stands for, by its dimension. *)
Definition classify (ring : polygon) : geometry :=
  match normalise ring with
  | [] => GeometryCollection []
  | [p] => Point p
  | p :: rest =>
      if Qeq_bool (area2 (p :: rest)) 0
      then LineString [lex_min p rest; lex_max p rest]
      else Polygon (p :: rest)
  end.

Fixpoint triples (l : list coord) : list (coord * coord * coord) :=
  match l with
  | a :: ((b :: c :: _) as l') => (a, b, c) :: triples l'
  | _ => []
  end.

Definition turns (ring : polygon) : list Q :=
  match ring with
  | a :: b :: _ => map (fun t : coord * coord * coord =>
                          let '(p, q, r) := t in side (p, q) r)
                       (triples (ring ++ [a; b]))
  | _ => []
  end.

(** A ring that turns one way only and encloses some area. *)
Definition convex (ring : polygon) : bool :=
  andb (negb (Qeq_bool (area2 ring) 0))
       (orb (forallb (Qle_bool 0) (turns ring))
            (forallb (fun t => Qle_bool t 0) (turns ring))).

Definition convex_ccw (ring : polygon) : bool :=
  andb (Qltb 0 (area2 ring)) (forallb (Qle_bool 0) (turns ring)).

Definition ring_centroid (ring : polygon) : option coord :=
  let a2 := area2 ring in
  if Qeq_bool a2 0 then None
  else
    let cx := Qsum (map (fun pq : coord * coord =>
                           (fst (fst pq) + fst (snd pq)) * cross pq) (edges ring)) in
    let cy := Qsum (map (fun pq : coord * coord =>
                           (snd (fst pq) + snd (snd pq)) * cross pq) (edges ring)) in
    Some (Qred (cx / (3 * a2)), Qred (cy / (3 * a2))).

(** The area-weighted mean of the centroids of the parts. *)
Definition multi_centroid (polys : list polygon) : option coord :=
  let total := Qsum (map (fun r => Qabs (area2 r)) polys) in
  if Qeq_bool total 0 then None
  else
    let weighted (proj : coord -> Q) :=
      Qsum (map (fun r => match ring_centroid r with
                          | Some c => Qabs (area2 r) * proj c
                          | None => 0
                          end) polys) in
    Some (Qred (weighted fst / total), Qred (weighted snd / total)).

Definition centroid (g : geometry) : option coord :=
  match g with
  | Point p => Some p
  | LineString [p; q] => Some (Qred ((fst p + fst q) / 2), Qred ((snd p + snd q) / 2))
  | Polygon shell => ring_centroid shell
  | MultiPolygon polys => multi_centroid polys
  | _ => None
  end.

Fixpoint segments (cs : list coord) : list polygon :=
  match cs with
  | p :: ((q :: _) as cs') => [p; q] :: segments cs'
  | _ => []
  end.

Definition meets (b ring : polygon) : bool :=
  match clip_ring b ring with
  | [] => false
  | _ => true
  end.

Fixpoint intersects (b : polygon) (g : geometry) : bool :=
  match g with
  | Point p => negb (outside b p)
  | LineString cs => existsb (meets b) (segments cs)
  | Polygon shell => meets b shell
  | MultiPolygon polys => existsb (meets b) polys
  | GeometryCollection geoms => existsb (intersects b) geoms
  end.

Definition is_valid (g : geometry) : bool :=
  match g with
  | Point _ => true
  | LineString cs => (2 <=? List.length cs)%nat
  | Polygon shell => convex shell
  | MultiPolygon polys => forallb convex polys
  | GeometryCollection _ => false
  end.

(** A ring without area is repaired to the segment or point it covers;
    other rings are left as they are. *)
Definition make_valid (g : geometry) : geometry :=
  match g with
  | Polygon shell => if Qeq_bool (area2 shell) 0 then classify shell else g
  | _ => g
  end.

Definition unsupported {A : Type} : result A :=
  raise "GEOSException: outside the convex fragment".

Definition intersection (g : geometry) (b : polygon) : result geometry :=
  if negb (convex_ccw b) then unsupported
  else
    match g with
    | Point p => ret (if outside b p then GeometryCollection [] else Point p)
    | Polygon shell =>
        if convex shell then ret (classify (clip_ring b shell)) else unsupported
    | MultiPolygon polys =>
        if forallb convex polys
        then
          let parts := map (fun r => classify (clip_ring b r)) polys in
          let shells := flat_map (fun g => match g with
                                           | Polygon s => [s]
                                           | _ => []
                                           end) parts in
          let others := filter (fun g => match g with
                                         | Polygon _ | GeometryCollection [] => false
                                         | _ => true
                                         end) parts in
          match others, shells with
          | [], [] => ret (GeometryCollection [])
          | [], [s] => ret (Polygon s)
          | [], _ => ret (MultiPolygon shells)
          | _, _ => ret (GeometryCollection (map Polygon shells ++ others))
          end
        else unsupported
    | _ => unsupported
    end.

Fixpoint pairwise_apart (polys : list polygon) : bool :=
  match polys with
  | [] => true
  | r :: polys' => andb (forallb (fun r' => negb (meets r r')) polys')
                        (pairwise_apart polys')
  end.

(** The union of convex counter-clockwise rings that do not meet is the
    multi-polygon of them. *)
Definition unary_union (gs : list geometry) : result geometry :=
  let shells := flat_map (fun g => match g with
                                   | Polygon s => [s]
                                   | MultiPolygon ps => ps
                                   | _ => []
                                   end) gs in
  if andb (forallb is_polygonal gs)
          (andb (forallb convex_ccw shells) (pairwise_apart shells))
  then ret (MultiPolygon shells)
  else unsupported.

Definition circle12 : list (Q * Q) :=
  [ (5, 0); (4, 3); (3, 4); (0, 5); (-3, 4); (-4, 3);
    (-5, 0); (-4, -3); (-3, -4); (0, -5); (3, -4); (4, -3) ].

Definition buffer (c : coord) (r : Q) : polygon :=
  map (fun u : Q * Q =>
         (Qred (fst c + r * fst u / 5), Qred (snd c + r * snd u / 5))) circle12.

Definition transform (src dst : string) (c : coord) : coord :=
  if andb (String.eqb src CRS_BNG) (String.eqb dst CRS_WGS84)
  then (Qred ((fst c - 400000) / 70000 - 2), Qred (snd c / 111000 + 49 + 3 / 4))
  else if andb (String.eqb src CRS_WGS84) (String.eqb dst CRS_BNG)
  then (Qred ((fst c + 2) * 70000 + 400000), Qred ((snd c - 49 - 3 / 4) * 111000))
  else c.

Definition engine : Engine :=
  mkEngine centroid contains intersects is_valid make_valid
           intersection unary_union buffer transform.
End Planar.

(* ------------------------------------------------------------------ *)
(** ** An executable engine for boundaries that are not convex

    [Concave] answers the questions of the engine for a boundary that is
    any simple ring, convex or not, and for points and geometries made of
    convex counter-clockwise rings: containment by the crossing number of
    a ray, intersection by clipping the boundary to each ring, centroids
    by the shoelace formula as in [Planar]. The intersection is exact
    when the common region of a ring and the boundary is one piece. Other
    geometries are outside the fragment: [intersects] has no answer but
    [false] for them and [intersection] raises. *)

Module Concave.
Local Open Scope Q_scope.

(** [z] lies between [x] and [y], ends included. *)
Definition between (x y z : Q) : bool :=
  orb (andb (Qle_bool x z) (Qle_bool z y)) (andb (Qle_bool y z) (Qle_bool z x)).

(** [p] lies on the edge [e]. *)
Definition on_edge (p : coord) (e : coord * coord) : bool :=
  let (a, b) := e in
  andb (Qeq_bool (Planar.side e p) 0)
       (andb (between (fst a) (fst b) (fst p)) (between (snd a) (snd b) (snd p))).

(** The ray from [p] to the right crosses the edge [e]: one end of the
    edge is above [p], the other is not, and the edge passes to the right
    of [p] at the height of [p]. *)
Definition ray_crosses (p : coord) (e : coord * coord) : bool :=
  let (a, b) := e in
  andb (xorb (Planar.Qltb (snd p) (snd a)) (Planar.Qltb (snd p) (snd b)))
       (Planar.Qltb (fst p)
                    (fst a + (snd p - snd a) * (fst b - fst a) / (snd b - snd a))).

Definition on_boundary (b : polygon) (p : coord) : bool :=
  existsb (on_edge p) (Planar.edges b).

(** [p] lies in the interior of [b]. *)
Definition contains (b : polygon) (p : coord) : bool :=
  andb (negb (on_boundary b p))
       (Nat.odd (List.length (filter (ray_crosses p) (Planar.edges b)))).

(** What the boundary [b] leaves inside the convex ring [ring]. *)
Definition clip_part (b ring : polygon) : polygon := Planar.clip_ring ring b.

Definition part_meets (b ring : polygon) : bool :=
  andb (Planar.convex_ccw ring)
       (match clip_part b ring with
        | [] => false
        | _ => true
        end).

Definition intersects (b : polygon) (g : geometry) : bool :=
  match g with
  | Point p => orb (contains b p) (on_boundary b p)
  | Polygon shell => part_meets b shell
  | MultiPolygon polys => existsb (part_meets b) polys
  | _ => false
  end.

(** One geometry for the pieces of a multi-part intersection. *)
Definition assemble (parts : list geometry) : geometry :=
  let shells := flat_map (fun g => match g with
                                   | Polygon s => [s]
                                   | _ => []
                                   end) parts in
  let others := filter (fun g => match g with
                                 | Polygon _ | GeometryCollection [] => false
                                 | _ => true
                                 end) parts in
  match others, shells with
  | [], [] => GeometryCollection []
  | [], [s] => Polygon s
  | [], _ => MultiPolygon shells
  | _, _ => GeometryCollection (map Polygon shells ++ others)
  end.

Definition intersection (g : geometry) (b : polygon) : result geometry :=
  match g with
  | Point p => ret (if intersects b (Point p) then Point p else GeometryCollection [])
  | Polygon shell =>
      if Planar.convex_ccw shell
      then ret (Planar.classify (clip_part b shell))
      else Planar.unsupported
  | MultiPolygon polys =>
      if forallb Planar.convex_ccw polys
      then ret (assemble (map (fun r => Planar.classify (clip_part b r)) polys))
      else Planar.unsupported
  | _ => Planar.unsupported
  end.

Definition engine : Engine :=
  mkEngine Planar.centroid contains intersects Planar.is_valid Planar.make_valid
           intersection Planar.unary_union Planar.buffer Planar.transform.
End Concave.

(* ------------------------------------------------------------------ *)
(** ** A search circle and four grid cells *)

Module Scenario.
Local Open Scope Q_scope.

(** The search circle of radius 500 m around (530000, 180000). *)
Definition boundary : polygon :=
  create_buffer_polygon Planar.engine 530000 180000 500.

(** A 2 m cell at the centre. *)
Definition cell_centre : polygon :=
  [(530000, 180000); (530002, 180000); (530002, 180002); (530000, 180002)].

(** A 2 m cell at the rim: its centroid (530499, 180001) is inside the
    circle, its corner (530500, 180002) is not. *)
Definition cell_rim : polygon :=
  [(530498, 180000); (530500, 180000); (530500, 180002); (530498, 180002)].

(** A 2 m cell across the rim, with its centroid outside. *)
Definition cell_across : polygon :=
  [(530499, 180000); (530501, 180000); (530501, 180002); (530499, 180002)].

(** A 2 m cell away from the circle. *)
Definition cell_far : polygon :=
  [(530600, 180000); (530602, 180000); (530602, 180002); (530600, 180002)].

Definition row_rim : Row := mkRow [Some (VStr "High")] (Polygon cell_rim).
Definition row_centre : Row := mkRow [Some (VStr "High")] (Polygon cell_centre).
Definition row_across : Row := mkRow [Some (VStr "low")] (Polygon cell_across).
Definition row_far : Row := mkRow [Some (VStr "Medium")] (Polygon cell_far).

Definition rim_only : GeoDataFrame :=
  mkGDF ["risk_band"] (Some CRS_BNG) [row_rim].

(** The data set the API holds: one multi-polygon of two cells and two
    polygons. *)
Definition dataset : GeoDataFrame :=
  mkGDF ["risk_band"] (Some CRS_BNG)
        [ mkRow [Some (VStr "High")] (MultiPolygon [cell_rim; cell_centre]);
          row_across; row_far ].

(** The same cells, one record each. *)
Definition cells : GeoDataFrame :=
  mkGDF ["risk_band"] (Some CRS_BNG) [row_rim; row_centre; row_across; row_far].

(** What is left of [cell_across] inside the circle. *)
Definition row_across_clipped : Row :=
  mkRow [Some (VStr "low")]
        (Polygon [(530499, 180000); (530500, 180000);
                  (1591498 # 3, 180002); (530499, 180002)]).

Definition cells_clipped : GeoDataFrame :=
  mkGDF ["risk_band"] (Some CRS_BNG) [row_rim; row_centre; row_across_clipped].

(** A depth layer: two cells and a numeric attribute. *)
Definition depth_dataset : GeoDataFrame :=
  mkGDF ["depth"] (Some CRS_BNG)
        [ mkRow [Some (VNum (1 # 5))] (Polygon cell_centre);
          mkRow [Some (VNum (3 # 10))] (Polygon cell_far) ].

Definition location : Location :=
  mkLocation "SW1A 1AA" (51501 # 1000) (-141 # 1000) 530000 180000
             "Westminster" "London".

Definition geocoder (postcode : string) : result Location :=
  if String.eqb (remove_spaces (upper (strip postcode))) "SW1A1AA"
  then ret location
  else raise "ValueError: Postcode not found. Please check and try again.".

(** An answer with an empty body. *)
Definition tiny : Response :=
  mkResponse 200 0 (raise "BadZipFile: File is not a zip file")
             (fun _ => raise "DataSourceError").

(** An answer holding a zipped shapefile. *)
Definition zipped (gdf : GeoDataFrame) : Response :=
  mkResponse 200 4096 (ret ["data.cpg"; "data.dbf"; "data.prj"; "data.shp"; "data.shx"])
             (fun _ => ret gdf).

Definition url_of (layer_name : string) : string :=
  match dict_get EA_LAYER_IDS layer_name with
  | Some layer_id => layer_url layer_id
  | None => ""
  end.

(** The API answers every request with an empty body. *)
Definition env_tiny : Env :=
  mkEnv geocoder (fun _ _ _ => ret tiny) "20250101_120000" "output/".

(** The API is unreachable. *)
Definition env_down : Env :=
  mkEnv geocoder (fun _ _ _ => raise "ConnectionError") "20250101_120000" "output/".

(** The API fails twice, then answers with an empty body. *)
Definition env_flaky : Env :=
  mkEnv geocoder
        (fun _ _ attempt => if (attempt <? 3)%nat then raise "ConnectionError" else ret tiny)
        "20250101_120000" "output/".

(** The API serves every layer. *)
Definition env_up : Env :=
  mkEnv geocoder
        (fun url _ _ =>
           if String.eqb url (url_of "rofsw") then ret (zipped dataset)
           else ret (zipped depth_dataset))
        "20250101_120000" "output/".

(** The API serves five layers; every request for the 0.3 m depth layer
    fails. *)
Definition env_one_down : Env :=
  mkEnv geocoder
        (fun url _ _ =>
           if String.eqb url (url_of "rofsw_0_3m_depth") then raise "ConnectionError"
           else if String.eqb url (url_of "rofsw") then ret (zipped dataset)
           else ret (zipped depth_dataset))
        "20250101_120000" "output/".

Definition bbox_wgs84 : bbox :=
  snd (create_buffer_bbox Planar.engine 530000 180000 500).

Definition no_job : JobResult * FS :=
  (mkJobResult "" 0 0 0 0 "" 0 (0, 0, 0, 0) (0, 0, 0, 0) [] "" [] "" "" 0, []).

(** The job for SW1A 1AA with radius 500 in the world [W]. *)
Definition run (W : Env) : JobResult * FS :=
  match process_postcode Planar.engine W "SW1A 1AA" 500 with
  | inr job => job
  | inl _ => no_job
  end.

(** What step 5 leaves when the rofsw layer is served. *)
Definition risk_up : list (string * LayerResult) * FS :=
  Eval vm_compute in
    match risk_phase Planar.engine cells boundary boundary "shapefiles" [] with
    | inr st => st
    | inl _ => ([], [])
    end.

Definition job_tiny : JobResult * FS := Eval vm_compute in run env_tiny.
Definition job_up : JobResult * FS := Eval vm_compute in run env_up.
Definition job_one_down : JobResult * FS := Eval vm_compute in run env_one_down.
End Scenario.

(* ------------------------------------------------------------------ *)
(** ** Further vocabulary *)

(** The record [r] goes to the slow path of [clip_to_buffer]: its centroid
    is not inside the boundary and its geometry meets the boundary. *)
Definition crosses (E : Engine) (p : polygon) (r : Row) : bool :=
  andb (negb (centroid_inside E p r)) (intersects E p (geom r)).

(** What the last step of [download_ea_layer] makes of a geometry of a
    data set whose reference system is [crs]: projected to the British
    National Grid when the data set names another system, left as it is
    otherwise. *)
Definition to_bng (E : Engine) (crs : option string) (g : geometry) : geometry :=
  match crs with
  | Some c =>
      if andb (negb (String.eqb c "")) (negb (String.eqb c CRS_BNG))
      then map_coords (transform E c CRS_BNG) g
      else g
  | None => g
  end.

(* ------------------------------------------------------------------ *)
(** ** Further cases *)

Module Cases.

(** Two cells with their centroids inside the circle. *)
Definition inside_cells : GeoDataFrame :=
  mkGDF ["risk_band"] (Some CRS_BNG) [Scenario.row_rim; Scenario.row_centre].

(** A cell away from the circle. *)
Definition far_cells : GeoDataFrame :=
  mkGDF ["risk_band"] (Some CRS_BNG) [Scenario.row_far].

(** A data set in geographic coordinates. *)
Definition wgs84_dataset : GeoDataFrame :=
  mkGDF ["risk_band"] (Some CRS_WGS84)
        [ mkRow [Some (VStr "High")]
                (Polygon [ (-1 # 7, 103 # 2); (-9 # 70, 103 # 2);
                           (-9 # 70, 1031 # 20); (-1 # 7, 1031 # 20) ]%Q) ].

(** The API serves geographic coordinates. *)
Definition env_wgs84 : Env :=
  mkEnv Scenario.geocoder (fun _ _ _ => ret (Scenario.zipped wgs84_dataset))
        "20250101_120000" "output/".

(** A bow-tie across the rim: a ring that crosses itself. *)
Definition bow_tie : polygon :=
  [(530499, 180000); (530501, 180002); (530501, 180000); (530499, 180002)]%Q.

(** A depth layer with a record the engine cannot clip. *)
Definition bad_depth_dataset : GeoDataFrame :=
  mkGDF ["depth"] (Some CRS_BNG)
        [ mkRow [Some (VNum (3 # 5))] (Polygon Scenario.cell_centre);
          mkRow [Some (VNum (3 # 5))] (Polygon bow_tie) ].

(** A risk layer with a record the engine cannot clip. *)
Definition bad_risk_dataset : GeoDataFrame :=
  mkGDF ["risk_band"] (Some CRS_BNG)
        [ Scenario.row_centre; mkRow [Some (VStr "Low")] (Polygon bow_tie) ].

(** The API serves every layer; the 0.6 m depth layer holds the bow-tie. *)
Definition env_bad_depth : Env :=
  mkEnv Scenario.geocoder
        (fun url _ _ =>
           if String.eqb url (Scenario.url_of "rofsw_0_6m_depth")
           then ret (Scenario.zipped bad_depth_dataset)
           else if String.eqb url (Scenario.url_of "rofsw")
                then ret (Scenario.zipped Scenario.dataset)
                else ret (Scenario.zipped Scenario.depth_dataset))
        "20250101_120000" "output/".

(** The API serves every layer; the risk layer holds the bow-tie. *)
Definition env_bad_risk : Env :=
  mkEnv Scenario.geocoder
        (fun url _ _ =>
           if String.eqb url (Scenario.url_of "rofsw")
           then ret (Scenario.zipped bad_risk_dataset)
           else ret (Scenario.zipped Scenario.depth_dataset))
        "20250101_120000" "output/".

Definition job_bad_depth : JobResult * FS :=
  Eval vm_compute in Scenario.run env_bad_depth.












End Cases.

(** What [k] attempts leave in the outside world when the first [k - 1]
    of them failed: every failed attempt [j] is followed by a pause of
    [3 j] seconds, the last attempt by none. *)
Definition retry_trace (url : string) (k : nat) : list event :=
  flat_map (fun j => [EvPost url j; EvSleep (j * 3)]) (seq 1 (k - 1))
  ++ [EvPost url k].

(** The number of requests in a trace. *)
Definition requests (evs : list event) : nat :=
  List.length (filter (fun ev => match ev with
                                 | EvPost _ _ => true
                                 | EvSleep _ => false
                                 end) evs).

(** The seconds slept in a trace. *)
Definition slept (evs : list event) : nat :=
  list_sum (map (fun ev => match ev with
                           | EvPost _ _ => 0
                           | EvSleep s => s
                           end) evs).

(** Where [save_as_shapefile] writes the layer [name]. *)
Definition shp_path (shp_dir name : string) : string :=
  shp_dir +s+ "/" +s+ name +s+ ".shp".

(** One layer is accounted for: its entry reports no file and no feature
    and nothing was written, or it reports the shapefile of [name] and the
    features of the collection written there. *)
Definition accounted (shp_dir name : string) (lr : LayerResult) (fs fs' : FS) : Prop :=
  (lr_filename lr = None /\ lr_features lr = 0 /\ fs' = fs)
  \/ (exists g, lr_filename lr = Some (name +s+ ".shp")
                /\ lr_features lr = len g
                /\ fs' = dict_set fs (shp_path shp_dir name) (Shapefile g)).

(** The paths the entries of a layers map say their shapefiles are under. *)
Definition reported_files (shp_dir : string) (layers : list (string * LayerResult))
  : list string :=
  flat_map (fun kv => match lr_filename (snd kv) with
                      | Some f => [shp_dir +s+ "/" +s+ f]
                      | None => []
                      end) layers.

(** The records a file holds. *)
Definition records (f : File) : nat :=
  match f with
  | Shapefile g => len g
  | MetadataJson _ => 0
  end.

(** The layers map and the files agree: the keys are [ks], the files are
    among [ps], the files, in the order they were written in, are those
    the entries report, the features the entries report are the records
    of the files, and no path is there twice. *)
Definition tracked (shp_dir : string) (ks ps : list string)
           (layers : list (string * LayerResult)) (fs : FS) : Prop :=
  map fst layers = ks
  /\ incl (map fst fs) ps
  /\ map fst fs = reported_files shp_dir layers
  /\ list_sum (map (@lr_features) (dict_values layers))
     = list_sum (map records (dict_values fs))
  /\ NoDup (map fst fs).

(** The keys of the layers map of a completed job. *)
Definition layer_keys : list string :=
  [ "risk_band_High"; "risk_band_Medium"; "risk_band_Low";
    "depth_0.2m"; "depth_0.3m"; "depth_0.6m"; "depth_0.9m"; "depth_1.2m";
    "search_buffer" ].

(** Step 4 with the futures completing in the order [order]. *)
Definition fetch_in (E : Engine) (W : Env) (bbox_wgs84 : bbox) (order : list string)
  : RawData :=
  fold_left
    (fun raw_data name => dict_set raw_data name (fetch_one E W bbox_wgs84 name))
    order [].

(* ------------------------------------------------------------------ *)
(** ** The download route *)

(** What a route answers: an error document with its status, or a file
    sent as an attachment. *)
Inductive Answer : Type :=
| JsonError (message : string) (status : nat)
| SendFile (filepath download_name : string).

(** [api_download]; [exists_ p] tells whether the path [p] exists. The
    route's converter passes a [filename] without a separator, which
    [OUTPUT_DIR / filename] appends to the directory. *)
Definition api_download (W : Env) (exists_ : string -> bool) (filename : string)
  : Answer :=
  let filepath := OUTPUT_DIR W +s+ filename in
  if orb (negb (exists_ filepath)) (negb (endswith filename ".zip"))
  then JsonError "File not found" 404
  else SendFile filepath filename.

(* ------------------------------------------------------------------ *)
(** ** The postcode lookup

    [geocode_postcode] as [app.py] has it, over the answers of
    [_http.get]. The record it returns holds the values of the JSON
    document as they come. *)

Module Geocoder.

(** A JSON value as [resp.json()] returns it. *)
Inductive json : Type :=
| JNull
| JBool (b : bool)
| JNum (q : Q)
| JStr (s : string)
| JArr (items : list json)
| JObj (fields : list (string * json)).

(** The answer of [_http.get]: the status and what [resp.json()] gives. *)
Record GetResponse : Type := mkGetResponse {
  get_status_code : nat;
  get_json : result json
}.

Record Geocoded : Type := mkGeocoded {
  g_postcode : json;
  g_lat : json;
  g_lng : json;
  g_easting : json;
  g_northing : json;
  g_admin_district : json;
  g_region : json
}.

Definition POSTCODES_API : string := "https://api.postcodes.io/postcodes/".

(** [s[:n]] *)
Fixpoint take (n : nat) (s : string) : string :=
  match n, s with
  | S n', String c s' => String c (take n' s')
  | _, _ => EmptyString
  end.

(** [s[n:]] *)
Fixpoint drop (n : nat) (s : string) : string :=
  match n, s with
  | S n', String c s' => drop n' s'
  | _, _ => s
  end.

(** [s.replace(" ", "%20")] *)
Fixpoint encode_spaces (s : string) : string :=
  match s with
  | EmptyString => EmptyString
  | String c s' =>
      if (nat_of_ascii c =? 32) then "%20" +s+ encode_spaces s'
      else String c (encode_spaces s')
  end.

(** The postcode as it is looked up: upper case, one space before the
    last three characters. *)
Definition format_postcode (postcode : string) : string :=
  let clean := remove_spaces (upper (strip postcode)) in
  if 4 <? String.length clean
  then take (String.length clean - 3) clean +s+ " "
       +s+ drop (String.length clean - 3) clean
  else clean.

Definition geocode_url (postcode : string) : string :=
  POSTCODES_API +s+ encode_spaces (format_postcode postcode).

Definition not_found (formatted : string) : exn :=
  "ValueError: Postcode '" +s+ formatted
  +s+ "' not found. Please check and try again.".

(** [resp.raise_for_status()] *)
Definition check_status (resp : GetResponse) : result GetResponse :=
  if andb (400 <=? get_status_code resp) (get_status_code resp <? 600)
  then raise ("HTTPError: " +s+ str_of_Z (Z.of_nat (get_status_code resp)))
  else ret resp.

(** [data.get(key)] *)
Definition json_get (data : json) (key : string) : result (option json) :=
  match data with
  | JObj fields => ret (dict_get fields key)
  | _ => raise "AttributeError: object has no attribute 'get'"
  end.

(** [r[key]] *)
Definition json_item (r : json) (key : string) : result json :=
  match r with
  | JObj fields =>
      match dict_get fields key with
      | Some v => ret v
      | None => raise ("KeyError: " +s+ key)
      end
  | _ => raise "TypeError: not subscriptable by a string"
  end.

(** [r.get(key, "")] *)
Definition json_get_default (r : json) (key : string) : result json :=
  o <- json_get r key ;;
  ret (match o with
       | Some v => v
       | None => JStr ""
       end).

(** [v != 200] *)
Definition differs_from_200 (v : option json) : bool :=
  match v with
  | Some (JNum q) => negb (Qeq_bool q 200)
  | _ => true
  end.

(** [not v] *)
Definition falsy (v : option json) : bool :=
  match v with
  | None | Some JNull => true
  | Some (JBool b) => negb b
  | Some (JNum q) => Qeq_bool q 0
  | Some (JStr s) => String.eqb s ""
  | Some (JArr items) => match items with [] => true | _ => false end
  | Some (JObj fields) => match fields with [] => true | _ => false end
  end.

Definition geocode_postcode (http_get : string -> result GetResponse)
           (postcode : string) : result Geocoded :=
  let formatted := format_postcode postcode in
  let url := POSTCODES_API +s+ encode_spaces formatted in
  resp <- http_get url ;;
  if get_status_code resp =? 404 then raise (not_found formatted)
  else
    _ <- check_status resp ;;
    data <- get_json resp ;;
    status <- json_get data "status" ;;
    if differs_from_200 status then raise (not_found formatted)
    else
      result_ <- json_get data "result" ;;
      if falsy result_ then raise (not_found formatted)
      else
        r <- json_item data "result" ;;
        p <- json_item r "postcode" ;;
        la <- json_item r "latitude" ;;
        lo <- json_item r "longitude" ;;
        ea <- json_item r "eastings" ;;
        no <- json_item r "northings" ;;
        ad <- json_get_default r "admin_district" ;;
        re <- json_get_default r "region" ;;
        ret (mkGeocoded p la lo ea no ad re).

End Geocoder.

(** Answers of the lookup service. *)
Module Lookups.

(** The answer for a postcode the service does not know. *)
Definition unknown : Geocoder.GetResponse :=
  Geocoder.mkGetResponse
    404 (ret (Geocoder.JObj [ ("status", Geocoder.JNum 404%Q);
                              ("error", Geocoder.JStr "Postcode not found") ])).

(** A service that knows no postcode. *)
Definition knows_none (url : string) : result Geocoder.GetResponse := ret unknown.

End Lookups.

(* ================================================================== *)
(** * Properties *)

(** ** Lists, dictionaries and the exception monad *)

Lemma mapM_In (A B : Type) (f : A -> result B) (l : list A) (ys : list B) :
  mapM f l = inr ys ->
  forall y, In y ys -> exists x, In x l /\ f x = inr y.
Proof.
  revert ys; induction l as [|a l IH]; intros ys H y Hy; simpl in H.
  - inversion H; subst; contradiction.
  - destruct (f a) as [e|b] eqn:Hfa; simpl in H; [discriminate|].
    destruct (mapM f l) as [e|bs] eqn:Hl; simpl in H; [discriminate|].
    inversion H; subst; clear H.
    destruct Hy as [<-|Hy].
    + exists a; split; [now left|assumption].
    + destruct (IH bs eq_refl y Hy) as (x & Hx & Hfx).
      exists x; split; [now right|assumption].
Qed.

Lemma In_dropna (l : list (option Row)) (r : Row) :
  In r (dropna l) <-> In (Some r) l.
Proof.
  induction l as [|[a|] l IH]; simpl.
  - tauto.
  - rewrite IH; split; intros [H|H]; auto; left; congruence.
  - rewrite IH; split; [auto|intros [H|H]; [discriminate|assumption]].
Qed.

Lemma filter_all (A : Type) (f : A -> bool) (l : list A) :
  (forall x, In x l -> f x = true) -> filter f l = l.
Proof.
  induction l as [|a l IH]; intros H; simpl; [reflexivity|].
  rewrite (H a (or_introl eq_refl)), IH; [reflexivity|].
  intros x Hx; apply H; now right.
Qed.

Lemma filter_none (A : Type) (f : A -> bool) (l : list A) :
  (forall x, In x l -> f x = false) -> filter f l = [].
Proof.
  induction l as [|a l IH]; intros H; simpl; [reflexivity|].
  rewrite (H a (or_introl eq_refl)); apply IH.
  intros x Hx; apply H; now right.
Qed.

Lemma with_rows_same (gdf : GeoDataFrame) : with_rows gdf (rows gdf) = gdf.
Proof. destruct gdf; reflexivity. Qed.

Lemma dict_get_set_same (V : Type) (d : list (string * V)) (k : string) (v : V) :
  dict_get (dict_set d k v) k = Some v.
Proof.
  induction d as [|[k' v'] d IH]; simpl.
  - now rewrite String.eqb_refl.
  - destruct (String.eqb k k') eqn:Hk; simpl; rewrite Hk; auto.
Qed.

Lemma dict_get_set_other (V : Type) (d : list (string * V)) (k k' : string) (v : V) :
  k' <> k -> dict_get (dict_set d k v) k' = dict_get d k'.
Proof.
  intros Hne; induction d as [|[k0 v0] d IH]; simpl.
  - destruct (String.eqb_spec k' k); [contradiction|reflexivity].
  - destruct (String.eqb_spec k k0) as [->|Hk]; simpl.
    + destruct (String.eqb_spec k' k0); [contradiction|reflexivity].
    + destruct (String.eqb k' k0); [reflexivity|exact IH].
Qed.

(* ------------------------------------------------------------------ *)
(** ** GeometryBuffer *)

(** C8. For every centre and radius (so for every radius r > 0) the
    projected rectangle of [create_buffer_bbox] is
    [easting - r, northing - r, easting + r, northing + r]; the centre
    (530000, 180000) with radius 500 gives (529500, 179500, 530500, 180500). *)
Theorem create_buffer_bbox_rectangle :
  (forall (E : Engine) (easting northing r : Q),
      fst (create_buffer_bbox E easting northing r)
      = (easting - r, northing - r, easting + r, northing + r)%Q)
  /\ (forall E : Engine,
         fst (create_buffer_bbox E 530000 180000 500)
         = (529500, 179500, 530500, 180500)%Q).
Proof.
  assert (H : forall (E : Engine) (easting northing r : Q),
             fst (create_buffer_bbox E easting northing r)
             = (easting - r, northing - r, easting + r, northing + r)%Q).
  { intros E easting northing r; unfold create_buffer_bbox.
    destruct (transform E CRS_BNG CRS_WGS84 _) as [min_lng min_lat].
    destruct (transform E CRS_BNG CRS_WGS84 _) as [max_lng max_lat].
    reflexivity. }
  split; [exact H|].
  intros E; rewrite H; reflexivity.
Qed.

(* ------------------------------------------------------------------ *)
(** ** SpatialClipper *)

Section ClipFacts.
Variable E : Engine.

Lemma resolve_prepared_for b pb : prepared_for b pb -> resolve b pb = b.
Proof. intros [->| ->]; reflexivity. Qed.

Lemma repair_all (l : list Row) :
  (if existsb (fun r => negb (is_valid E (geom r))) l then map (repair E) l else l)
  = map (repair E) l.
Proof.
  destruct (existsb _ l) eqn:Hex; [reflexivity|].
  rewrite <- (map_id l) at 1. apply map_ext_in; intros r Hr.
  unfold repair.
  destruct (is_valid E (geom r)) eqn:Hv; [reflexivity|].
  assert (Ht : existsb (fun r => negb (is_valid E (geom r))) l = true).
  { apply existsb_exists; exists r; split; [assumption|now rewrite Hv]. }
  congruence.
Qed.

Lemma gpd_clip_rows (gdf : GeoDataFrame) (l : list Row) (b : polygon)
      (out : GeoDataFrame) :
  gpd_clip E (with_rows gdf (map (repair E) l)) b = inr out ->
  columns out = columns gdf /\ crs out = crs gdf /\
  forall r, In r (rows out) ->
    exists r0, In r0 l /\
      (if is_point (geom (repair E r0)) then r = repair E r0
       else exists g, intersection E (geom (repair E r0)) b = inr g
                      /\ r = set_geom (repair E r0) g).
Proof.
  unfold gpd_clip; simpl rows.
  set (sub := filter _ (map (repair E) l)).
  assert (Hsub : forall r, In r sub -> exists r0, In r0 l /\ r = repair E r0).
  { intros r Hr; apply filter_In in Hr; destruct Hr as [Hr _].
    apply in_map_iff in Hr; destruct Hr as (r0 & <- & Hr0); eauto. }
  destruct (forallb _ sub) eqn:Hall.
  - intros H; inversion H; subst; clear H; simpl.
    repeat split; intros r Hr.
    destruct (Hsub r Hr) as (r0 & Hr0 & ->).
    exists r0; split; [assumption|].
    rewrite forallb_forall in Hall. now rewrite (Hall _ Hr).
  - destruct (mapM _ sub) as [e|clipped] eqn:Hm; simpl; [discriminate|].
    intros H; inversion H; subst; clear H; simpl.
    repeat split; intros r Hr.
    destruct (mapM_In _ _ Hm r Hr) as (r1 & Hr1 & Hf).
    destruct (Hsub r1 Hr1) as (r0 & Hr0 & ->).
    exists r0; split; [assumption|].
    destruct (is_point (geom (repair E r0))).
    + now inversion Hf.
    + destruct (intersection E _ b) as [e|g]; simpl in Hf; [discriminate|].
      inversion Hf; eauto.
Qed.

(** Every returned record is either an input record whose centroid the
    boundary contains, passed through as it is, or what the slow path
    makes of an input record whose centroid is not contained. *)
Lemma clip_to_buffer_rows (gdf : GeoDataFrame) (b : polygon) (pb : option polygon)
      (out : GeoDataFrame) :
  clip_to_buffer E gdf b pb = inr out ->
  columns out = columns gdf /\ crs out = crs gdf /\
  forall r, In r (rows out) ->
    (In r (rows gdf) /\ centroid_inside E (resolve b pb) r = true)
    \/ (exists r0, In r0 (rows gdf)
                   /\ centroid_inside E (resolve b pb) r0 = false
                   /\ intersects E (resolve b pb) (geom r0) = true
                   /\ clip_row E b r0 = inr (Some r)).
Proof.
  unfold clip_to_buffer. fold (resolve b pb).
  destruct (empty gdf) eqn:Hempty.
  { intros H; inversion H; subst; clear H. repeat split.
    intros r Hr; unfold empty in Hempty.
    destruct (rows out); [contradiction|discriminate]. }
  set (p := resolve b pb).
  set (fully_inside := filter (centroid_inside E p) (rows gdf)).
  set (edge_candidates := filter (fun r => negb (centroid_inside E p r)) (rows gdf)).
  set (edge_intersects := filter (fun r => intersects E p (geom r)) edge_candidates).
  assert (Hfast : forall r, In r fully_inside ->
                            In r (rows gdf) /\ centroid_inside E p r = true).
  { intros r Hr; now apply filter_In in Hr. }
  assert (Hedge : forall r0, In r0 edge_intersects ->
                             In r0 (rows gdf) /\ centroid_inside E p r0 = false
                             /\ intersects E p (geom r0) = true).
  { intros r0 Hr0; apply filter_In in Hr0; destruct Hr0 as [Hr0 Hi].
    apply filter_In in Hr0; destruct Hr0 as [Hr0 Hc].
    repeat split; try assumption. now apply negb_true_iff in Hc. }
  assert (Hstop : forall out', @ret GeoDataFrame (with_rows gdf fully_inside) = inr out' ->
            columns out' = columns gdf /\ crs out' = crs gdf /\
            forall r, In r (rows out') ->
              (In r (rows gdf) /\ centroid_inside E p r = true)
              \/ (exists r0, In r0 (rows gdf)
                             /\ centroid_inside E p r0 = false
                             /\ intersects E p (geom r0) = true
                             /\ clip_row E b r0 = inr (Some r))).
  { intros out' H; inversion H; subst; clear H; simpl.
    repeat split; intros r Hr; left; now apply Hfast. }
  destruct edge_candidates as [|c0 cs] eqn:Hcand; [apply Hstop|].
  destruct edge_intersects as [|e0 es] eqn:Hint; [apply Hstop|].
  rewrite repair_all.
  destruct (gpd_clip E _ b) as [e|clipped] eqn:Hclip; simpl; [discriminate|].
  destruct (gpd_clip_rows _ _ _ Hclip) as (Hcols & Hcrs & Hrows).
  assert (Hfinal : forall rs,
             (forall r, In r rs -> exists r1, In r1 (rows clipped)
                                              /\ extract_row E r1 = inr (Some r)) ->
             forall r, In r (fully_inside ++ rs) ->
               (In r (rows gdf) /\ centroid_inside E p r = true)
               \/ (exists r0, In r0 (rows gdf)
                              /\ centroid_inside E p r0 = false
                              /\ intersects E p (geom r0) = true
                              /\ clip_row E b r0 = inr (Some r))).
  { intros rs Hrs r Hr; apply in_app_or in Hr; destruct Hr as [Hr|Hr].
    - left; now apply Hfast.
    - right. destruct (Hrs r Hr) as (r1 & Hr1 & Hex).
      destruct (Hrows r1 Hr1) as (r0 & Hr0 & Hshape).
      destruct (Hedge r0 Hr0) as (Hin & Hc & Hi).
      exists r0; repeat split; try assumption.
      unfold clip_row.
      destruct (is_point (geom (repair E r0))).
      + now subst r1.
      + destruct Hshape as (g & Hg & ->). now rewrite Hg. }
  destruct (negb (empty clipped)) eqn:Hne.
  - destruct (mapM (extract_row E) (rows clipped)) as [e|extracted] eqn:Hm;
      simpl; [discriminate|].
    intros H; inversion H; subst; clear H; simpl.
    repeat split. apply Hfinal.
    intros r Hr; apply In_dropna in Hr.
    destruct (mapM_In _ _ Hm _ Hr) as (r1 & Hr1 & Hex); eauto.
  - simpl. intros H; inversion H; subst; clear H; simpl.
    repeat split. apply Hfinal.
    intros r Hr. apply negb_false_iff in Hne. unfold empty in Hne.
    destruct (rows clipped); [contradiction|discriminate].
Qed.
End ClipFacts.

Section ClipContainment.
Variable E : Engine.

(** [outside b v]: the vertex [v] lies strictly outside the boundary. *)
Variable outside : polygon -> coord -> bool.

(** The contract of the engine: an intersection with the boundary, and
    a union of geometries within the boundary, stay within it. *)
Hypothesis intersection_within :
  forall g b g', intersection E g b = inr g' -> within outside b g' = true.
Hypothesis unary_union_within :
  forall gs b u, (forall g, In g gs -> within outside b g = true) ->
                 unary_union E gs = inr u -> within outside b u = true.

Lemma within_collection (b : polygon) (geoms : list geometry) (g : geometry) :
  within outside b (GeometryCollection geoms) = true -> In g geoms -> within outside b g = true.
Proof.
  unfold within; simpl; rewrite !forallb_forall; intros H Hg v Hv.
  apply H, in_flat_map; eauto.
Qed.

Lemma extract_polygons_within (b : polygon) (g x : geometry) :
  within outside b g = true -> extract_polygons E g = inr (Some x) -> within outside b x = true.
Proof.
  intros Hw Hx; destruct g as [p|cs|shell|polys|geoms]; simpl in Hx;
    try discriminate; try (inversion Hx; subst; assumption).
  assert (Hp : forall q, In q (filter is_polygonal geoms) -> within outside b q = true).
  { intros q Hq; apply filter_In in Hq; destruct Hq as [Hq _].
    eapply within_collection; eassumption. }
  destruct (filter is_polygonal geoms) as [|p1 [|p2 ps]] eqn:Hf.
  - discriminate.
  - inversion Hx; subst; apply Hp; now left.
  - destruct (unary_union E (p1 :: p2 :: ps)) as [e|u] eqn:Hu; simpl in Hx;
      [discriminate|].
    inversion Hx; subst. eapply unary_union_within; eassumption.
Qed.

Lemma clip_row_within (b : polygon) (r0 r : Row) :
  clip_row E b r0 = inr (Some r) ->
  within outside b (geom r) = true /\ values r = values r0.
Proof.
  unfold clip_row, extract_row.
  assert (Hv : values (repair E r0) = values r0).
  { unfold repair; destruct (is_valid E (geom r0)); reflexivity. }
  destruct (is_point (geom (repair E r0))) eqn:Hpt.
  - destruct (geom (repair E r0)); simpl in *; discriminate.
  - destruct (intersection E (geom (repair E r0)) b) as [e|g] eqn:Hg; simpl;
      [discriminate|].
    destruct (extract_polygons E g) as [e|[x|]] eqn:Hx; simpl; try discriminate.
    intros H; inversion H; subst; clear H; simpl. split; [|assumption].
    eapply extract_polygons_within; [|eassumption].
    eapply intersection_within; eassumption.
Qed.

(** With an engine that keeps this contract, every geometry that went
    through the exact clip has no vertex strictly outside the boundary.
    (An engine over floating-point numbers keeps it up to rounding
    only.) *)
Lemma exact_clip_within (gdf : GeoDataFrame) (b : polygon)
        (pb : option polygon) (out : GeoDataFrame) :
  prepared_for b pb ->
  clip_to_buffer E gdf b pb = inr out ->
  forall r, In r (rows out) ->
    (In r (rows gdf) /\ centroid_inside E b r = true)
    \/ (within outside b (geom r) = true
        /\ exists r0, In r0 (rows gdf) /\ centroid_inside E b r0 = false
                      /\ values r = values r0).
Proof.
  intros Hpb Hclip r Hr.
  destruct (clip_to_buffer_rows _ _ _ _ Hclip) as (_ & _ & Hrows).
  rewrite (resolve_prepared_for Hpb) in Hrows.
  destruct (Hrows r Hr) as [Hfast|(r0 & Hin & Hc & _ & Hrow)]; [now left|right].
  destruct (clip_row_within _ _ Hrow) as [Hw Hv].
  split; [assumption|]. exists r0; auto.
Qed.
End ClipContainment.

(** C1 (as amended). Every record [clip_to_buffer] returns is either an
    input record whose centroid is inside the boundary, returned as it
    is, whatever its vertices; or, with the attributes of an input record
    that crosses the boundary, the polygonal part of what the geometry
    library returned as the intersection of that record with the
    boundary. The program checks no vertex itself. *)
Theorem clip_to_buffer_sources (E : Engine) (gdf : GeoDataFrame) (b : polygon)
        (pb : option polygon) (out : GeoDataFrame) :
  prepared_for b pb ->
  clip_to_buffer E gdf b pb = inr out ->
  forall r, In r (rows out) ->
    (In r (rows gdf) /\ centroid_inside E b r = true)
    \/ (exists r0 g,
           In r0 (rows gdf)
           /\ crosses E b r0 = true
           /\ intersection E (geom (repair E r0)) b = inr g
           /\ extract_polygons E g = inr (Some (geom r))
           /\ values r = values r0).
Proof.
  intros Hpb Hclip r Hr.
  destruct (clip_to_buffer_rows _ _ _ _ Hclip) as (_ & _ & Hrows).
  rewrite (resolve_prepared_for Hpb) in Hrows.
  destruct (Hrows r Hr) as [Hfast|(r0 & Hin & Hc & Hi & Hrow)]; [now left|right].
  assert (Hv : values (repair E r0) = values r0).
  { unfold repair; destruct (is_valid E (geom r0)); reflexivity. }
  revert Hrow; unfold clip_row, extract_row.
  destruct (is_point (geom (repair E r0))) eqn:Hpt.
  - destruct (geom (repair E r0)); simpl in *; discriminate.
  - destruct (intersection E (geom (repair E r0)) b) as [e|g] eqn:Hg; simpl;
      [discriminate|].
    destruct (extract_polygons E g) as [e|[x|]] eqn:Hx; simpl; try discriminate.
    intros H; inversion H; subst; clear H; simpl.
    exists r0, g. unfold crosses. rewrite Hc, Hi. auto.
Qed.


(* ------------------------------------------------------------------ *)
(** ** The executable engine keeps the engine contract *)

Module PlanarFacts.
Import Planar.
Local Open Scope Q_scope.

Lemma side_affine (e : coord * coord) (p q : coord) (t : Q) :
  side e (fst p + t * (fst q - fst p), snd p + t * (snd q - snd p))
  == side e p + t * (side e q - side e p).
Proof.
  destruct e as [[ax ay] [bx by']], p as [px py], q as [qx qy].
  unfold side; simpl; ring.
Qed.

Lemma side_Qred (e : coord * coord) (v : coord) :
  side e (Qred_coord v) == side e v.
Proof.
  destruct e as [[ax ay] [bx by']], v as [vx vy].
  unfold side, Qred_coord; simpl. now rewrite !Qred_correct.
Qed.

(** The crossing point divides the segment in a ratio between 0 and 1. *)
Lemma cut_ratio (sp sq : Q) :
  (0 <= sp /\ sq < 0) \/ (sp < 0 /\ 0 <= sq) ->
  let t := sp / (sp - sq) in
  0 <= t /\ t <= 1 /\ t * (sp - sq) == sp.
Proof.
  intros Hs t.
  assert (Hd : ~ sp - sq == 0) by (destruct Hs; lra).
  assert (Ht : t * (sp - sq) == sp) by (unfold t; field; exact Hd).
  repeat split; [| |exact Ht]; destruct Hs as [[H1 H2]|[H1 H2]]; nra.
Qed.

Lemma cut_on_line (e : coord * coord) (p q : coord) :
  (0 <= side e p /\ side e q < 0) \/ (side e p < 0 /\ 0 <= side e q) ->
  side e (cut e p q) == 0.
Proof.
  intros Hs; unfold cut; rewrite side_affine.
  destruct (cut_ratio Hs) as (_ & _ & Ht). simpl in Ht. lra.
Qed.

Lemma cut_convex (e e' : coord * coord) (p q : coord) :
  (0 <= side e p /\ side e q < 0) \/ (side e p < 0 /\ 0 <= side e q) ->
  0 <= side e' p -> 0 <= side e' q -> 0 <= side e' (cut e p q).
Proof.
  intros Hs Hp Hq; unfold cut; rewrite side_affine.
  destruct (cut_ratio Hs) as (H0 & H1 & _). simpl in H0, H1.
  set (t := side e p / (side e p - side e q)) in *. nra.
Qed.

Lemma edges_In (ring : polygon) (p q : coord) :
  In (p, q) (edges ring) -> In p ring /\ In q ring.
Proof.
  destruct ring as [|v vs]; [contradiction|].
  unfold edges; intros H; split.
  - eapply in_combine_l; eassumption.
  - apply in_combine_r in H. apply in_app_or in H.
    destruct H as [H|[<-|[]]]; [now right|now left].
Qed.

Lemma Qle_bool_false (x y : Q) : Qle_bool x y = false -> y < x.
Proof.
  intros H; apply Qnot_le_lt; intros Hle.
  apply Qle_bool_iff in Hle; congruence.
Qed.

(** Clipping against [e] keeps the ring on the inner side of any line
    it already was on the inner side of. *)
Lemma clip_edge_keeps (e e' : coord * coord) (ring : polygon) :
  (forall v, In v ring -> 0 <= side e' v) ->
  forall v, In v (clip_edge e ring) -> 0 <= side e' v.
Proof.
  intros Hring v Hv; unfold clip_edge in Hv.
  apply in_flat_map in Hv; destruct Hv as ([p q] & Hpq & Hv).
  apply edges_In in Hpq; destruct Hpq as [Hp Hq].
  destruct (Qle_bool 0 (side e q)) eqn:Hsq, (Qle_bool 0 (side e p)) eqn:Hsp;
    simpl in Hv;
    try apply Qle_bool_iff in Hsq; try apply Qle_bool_iff in Hsp;
    try apply Qle_bool_false in Hsq; try apply Qle_bool_false in Hsp.
  - destruct Hv as [<-|[]]; auto.
  - destruct Hv as [<-|[<-|[]]]; auto. apply cut_convex; auto.
  - destruct Hv as [<-|[]]. apply cut_convex; auto.
  - contradiction.
Qed.

Lemma clip_edge_inside (e : coord * coord) (ring : polygon) :
  forall v, In v (clip_edge e ring) -> 0 <= side e v.
Proof.
  intros v Hv; unfold clip_edge in Hv.
  apply in_flat_map in Hv; destruct Hv as ([p q] & _ & Hv).
  destruct (Qle_bool 0 (side e q)) eqn:Hsq, (Qle_bool 0 (side e p)) eqn:Hsp;
    simpl in Hv;
    try apply Qle_bool_iff in Hsq; try apply Qle_bool_iff in Hsp;
    try apply Qle_bool_false in Hsq; try apply Qle_bool_false in Hsp.
  - destruct Hv as [<-|[]]; auto.
  - destruct Hv as [<-|[<-|[]]]; auto. rewrite cut_on_line; auto. lra.
  - destruct Hv as [<-|[]]. rewrite cut_on_line; auto. lra.
  - contradiction.
Qed.

Lemma clip_fold_inside (es done : list (coord * coord)) (ring : polygon) :
  (forall v, In v ring -> forall e, In e done -> 0 <= side e v) ->
  forall v, In v (fold_left (fun r e => clip_edge e r) es ring) ->
  forall e, In e (done ++ es) -> 0 <= side e v.
Proof.
  revert done ring; induction es as [|e0 es IH]; intros done ring Hring v Hv e He.
  - rewrite app_nil_r in He; simpl in Hv; auto.
  - simpl in Hv.
    apply (IH (done ++ [e0]) (clip_edge e0 ring)); auto.
    + intros u Hu e1 He1; apply in_app_or in He1; destruct He1 as [He1|[<-|[]]].
      * apply clip_edge_keeps with (e := e0) (ring := ring); auto.
      * apply clip_edge_inside with (ring := ring); assumption.
    + now rewrite <- app_assoc.
Qed.

Lemma clip_ring_inside (b ring : polygon) (v : coord) (e : coord * coord) :
  In v (clip_ring b ring) -> In e (edges b) -> 0 <= side e v.
Proof.
  intros Hv He.
  apply (@clip_fold_inside (edges b) [] ring); auto.
  intros u _ e1 [].
Qed.

Lemma dedup_In (prev : coord) (ring : polygon) (v : coord) :
  In v (dedup prev ring) -> In v ring.
Proof.
  revert prev; induction ring as [|p ring IH]; intros prev; simpl; [auto|].
  destruct (coord_eqb p prev); simpl; intros H.
  - right; eapply IH; eassumption.
  - destruct H as [H|H]; [now left|right; eapply IH; eassumption].
Qed.

Lemma removelast_In (A : Type) (l : list A) (x : A) :
  In x (removelast l) -> In x l.
Proof.
  induction l as [|a [|a' l] IH]; simpl; auto.
  intros [H|H]; [now left|right; apply IH; exact H].
Qed.

Lemma normalise_In (ring : polygon) (v : coord) :
  In v (normalise ring) -> exists u, In u ring /\ v = Qred_coord u.
Proof.
  unfold normalise; intros H.
  assert (Hm : In v (map Qred_coord ring)).
  { destruct (map Qred_coord ring) as [|p ring'] eqn:Hmap; [contradiction|].
    destruct (dedup p ring') as [|q ring''] eqn:Hd.
    - destruct H as [<-|[]]; now left.
    - assert (Hsub : forall x, In x (q :: ring'') -> In x ring').
      { intros x Hx; rewrite <- Hd in Hx; eapply dedup_In; eassumption. }
      destruct (coord_eqb _ p).
      + apply in_app_or in H; destruct H as [H|[<-|[]]]; [|now left].
        right; apply Hsub, removelast_In; exact H.
      + destruct H as [<-|H]; [now left|right; now apply Hsub]. }
  apply in_map_iff in Hm; destruct Hm as (u & <- & Hu); eauto.
Qed.

Lemma lex_pick_In (choose : coord -> coord -> bool) (l : list coord) (p : coord) :
  In (fold_left (fun m q => if choose m q then q else m) l p) (p :: l).
Proof.
  revert p; induction l as [|a l IH]; intros p; simpl; [now left|].
  destruct (choose p a).
  - right; apply IH.
  - destruct (IH p) as [H|H]; [now left|right; now right].
Qed.

Lemma classify_coords (ring : polygon) (v : coord) :
  In v (coords (classify ring)) -> exists u, In u ring /\ v = Qred_coord u.
Proof.
  unfold classify; intros H; apply normalise_In.
  destruct (normalise ring) as [|p [|q rest]]; [exact H|exact H|].
  destruct (Qeq_bool _ 0); [|exact H].
  simpl coords in H. destruct H as [<-|[<-|[]]].
  - exact (lex_pick_In (fun m q => lex_le q m) (q :: rest) p).
  - exact (lex_pick_In (fun m q => lex_le m q) (q :: rest) p).
Qed.

Lemma not_outside (b : polygon) (v : coord) :
  convex_ccw b = true ->
  (forall e, In e (edges b) -> 0 <= side e v) -> outside b v = false.
Proof.
  intros Hb Hv; destruct b as [|b0 bs]; [discriminate|].
  unfold outside. apply not_true_is_false; intros Hex.
  apply existsb_exists in Hex; destruct Hex as (e & He & Hlt).
  unfold Qltb in Hlt; apply negb_true_iff in Hlt.
  specialize (Hv e He). apply Qle_bool_iff in Hv. congruence.
Qed.

Lemma clipped_within (b ring : polygon) :
  convex_ccw b = true ->
  within outside b (classify (clip_ring b ring)) = true.
Proof.
  intros Hb; unfold within; apply forallb_forall; intros v Hv.
  apply classify_coords in Hv; destruct Hv as (u & Hu & ->).
  apply negb_true_iff, not_outside; [assumption|].
  intros e He; rewrite side_Qred. eapply clip_ring_inside; eassumption.
Qed.

Lemma within_In (b : polygon) (g : geometry) :
  within outside b g = true <->
  forall v, In v (coords g) -> outside b v = false.
Proof.
  unfold within; rewrite forallb_forall; split; intros H v Hv.
  - now apply negb_true_iff, H.
  - now apply negb_true_iff, H.
Qed.

Lemma shells_of_parts (parts : list geometry) (s : polygon) :
  In s (flat_map (fun g => match g with
                           | Polygon s => [s]
                           | _ => []
                           end) parts) ->
  In (Polygon s) parts.
Proof.
  intros H; apply in_flat_map in H; destruct H as (g & Hg & Hs).
  destruct g; simpl in Hs; try contradiction.
  destruct Hs as [->|[]]; assumption.
Qed.

Lemma planar_intersection_within (g : geometry) (b : polygon) (g' : geometry) :
  intersection g b = inr g' -> within outside b g' = true.
Proof.
  unfold intersection.
  destruct (convex_ccw b) eqn:Hb; simpl; [|discriminate].
  destruct g as [p|cs|shell|polys|geoms]; try discriminate.
  - intros H; inversion H; subst; clear H.
    destruct (outside b p) eqn:Hp; unfold within; simpl; [reflexivity|].
    now rewrite Hp.
  - destruct (convex shell); [|discriminate].
    intros H; inversion H; subst; now apply clipped_within.
  - destruct (forallb convex polys); [|discriminate].
    set (parts := map (fun r => classify (clip_ring b r)) polys).
    set (shells := flat_map _ parts). set (others := filter _ parts).
    assert (Hparts : forall x, In x parts -> within outside b x = true).
    { intros x Hx; apply in_map_iff in Hx; destruct Hx as (r & <- & _).
      now apply clipped_within. }
    assert (Hshells : forall s0, In s0 shells ->
                                 forall v, In v s0 -> outside b v = false).
    { intros s0 Hs0 v Hv. apply shells_of_parts in Hs0.
      apply (proj1 (within_In b (Polygon s0)) (Hparts _ Hs0)); exact Hv. }
    assert (Hothers : forall x, In x others -> within outside b x = true).
    { intros x Hx; apply filter_In in Hx; now apply Hparts. }
    assert (Hmulti : within outside b (MultiPolygon shells) = true).
    { apply within_In; simpl; intros v Hv.
      apply in_concat in Hv; destruct Hv as (s0 & Hs0 & Hv); eauto. }
    assert (Hcoll : within outside b
                      (GeometryCollection (map Polygon shells ++ others)) = true).
    { apply within_In; simpl; intros v Hv.
      apply in_flat_map in Hv; destruct Hv as (x & Hx & Hv).
      apply in_app_or in Hx; destruct Hx as [Hx|Hx].
      - apply in_map_iff in Hx; destruct Hx as (s0 & <- & Hs0); eauto.
      - apply (proj1 (within_In b x) (Hothers _ Hx)); exact Hv. }
    destruct others as [|o os]; [destruct shells as [|s1 [|s2 ss]]|];
      intros H; inversion H; subst; clear H; try assumption.
    apply within_In; simpl; intros v Hv. apply (Hshells s1); [now left|exact Hv].
Qed.

Lemma planar_unary_union_within (gs : list geometry) (b : polygon) (u : geometry) :
  (forall g, In g gs -> within outside b g = true) ->
  unary_union gs = inr u -> within outside b u = true.
Proof.
  intros Hgs; unfold unary_union.
  destruct (andb _ _); [|discriminate].
  intros H; inversion H; subst; clear H.
  apply within_In; simpl; intros v Hv.
  apply in_concat in Hv; destruct Hv as (s0 & Hs0 & Hv).
  apply in_flat_map in Hs0; destruct Hs0 as (g & Hg & Hs0).
  apply (proj1 (within_In b g) (Hgs g Hg)).
  destruct g; simpl in Hs0; try contradiction.
  - destruct Hs0 as [->|[]]; exact Hv.
  - simpl; apply in_concat; eauto.
Qed.
End PlanarFacts.

(** C1, counterexample. The rim cell has its centroid inside the search
    circle, so [clip_to_buffer] returns it as it is, with its corner
    (530500, 180002) strictly outside the circle. (Relative to the centre
    the centroid is (499, 1) and the corner (500, 2):
    499^2 + 1^2 < 500^2 < 500^2 + 2^2, so the same holds for the true
    circle and for any polygon inscribed in it that contains the
    centroid.) *)
Lemma clip_to_buffer_vertex_outside :
  clip_to_buffer Planar.engine Scenario.rim_only Scenario.boundary None
  = inr Scenario.rim_only
  /\ In Scenario.row_rim (rows Scenario.rim_only)
  /\ In (530500, 180002)%Q (coords (geom Scenario.row_rim))
  /\ Planar.outside Scenario.boundary (530500, 180002)%Q = true
  /\ within Planar.outside Scenario.boundary (geom Scenario.row_rim) = false.
Proof.
  split; [vm_compute; reflexivity|].
  split; [now left|].
  split; [simpl; tauto|].
  split; vm_compute; reflexivity.
Qed.

Lemma clip_to_buffer_sources_witness :
  prepared_for Scenario.boundary None
  /\ clip_to_buffer Planar.engine Scenario.cells Scenario.boundary None
     = inr Scenario.cells_clipped
  /\ In Scenario.row_across_clipped (rows Scenario.cells_clipped)
  /\ ((In Scenario.row_across_clipped (rows Scenario.cells)
       /\ centroid_inside Planar.engine Scenario.boundary
                          Scenario.row_across_clipped = true)
      \/ (exists r0 g,
             In r0 (rows Scenario.cells)
             /\ crosses Planar.engine Scenario.boundary r0 = true
             /\ intersection Planar.engine (geom (repair Planar.engine r0))
                             Scenario.boundary = inr g
             /\ extract_polygons Planar.engine g
                = inr (Some (geom Scenario.row_across_clipped))
             /\ values Scenario.row_across_clipped = values r0)).
Proof.
  assert (Hpb : prepared_for Scenario.boundary None) by (left; reflexivity).
  assert (Hclip : clip_to_buffer Planar.engine Scenario.cells Scenario.boundary None
                  = inr Scenario.cells_clipped) by (vm_compute; reflexivity).
  assert (Hin : In Scenario.row_across_clipped (rows Scenario.cells_clipped))
    by (simpl; tauto).
  split; [exact Hpb|split; [exact Hclip|split; [exact Hin|]]].
  exact (@clip_to_buffer_sources
           Planar.engine Scenario.cells Scenario.boundary None Scenario.cells_clipped
           Hpb Hclip Scenario.row_across_clipped Hin).
Defined.

(** The exact engine keeps the contract, so with it every record that
    went through the exact clip has no vertex outside the boundary. *)
Lemma exact_clip_within_planar (gdf : GeoDataFrame) (b : polygon)
      (pb : option polygon) (out : GeoDataFrame) :
  prepared_for b pb ->
  clip_to_buffer Planar.engine gdf b pb = inr out ->
  forall r, In r (rows out) ->
    (In r (rows gdf) /\ centroid_inside Planar.engine b r = true)
    \/ (within Planar.outside b (geom r) = true
        /\ exists r0, In r0 (rows gdf)
                      /\ centroid_inside Planar.engine b r0 = false
                      /\ values r = values r0).
Proof.
  exact (@exact_clip_within Planar.engine Planar.outside
           PlanarFacts.planar_intersection_within
           PlanarFacts.planar_unary_union_within gdf b pb out).
Qed.



(* ------------------------------------------------------------------ *)
(** ** LayerSource *)

Section LayerSourceFacts.
Variable E : Engine.

Lemma parse_response_small (resp : Response) :
  content_len resp < 100 -> parse_response E resp = inr GeoDataFrame_new.
Proof.
  intros H; unfold parse_response.
  apply Nat.ltb_lt in H; now rewrite H.
Qed.

(** A response the retry loop hands on is the answer to one of its
    requests. *)
Lemma post_loop_answer (W : Env) (url : string) (q : list coord)
      (max_retries remaining attempt : nat) (resp : Response) :
  fst (post_loop W url q max_retries remaining attempt) = inr resp ->
  exists k, http_post W url q k = inr resp.
Proof.
  revert attempt; induction remaining as [|n IH]; intros attempt; simpl.
  - discriminate.
  - unfold try_post.
    destruct (http_post W url q attempt) as [e|r] eqn:Hpost; simpl.
    + destruct (attempt <? max_retries); simpl; [|discriminate].
      destruct (post_loop W url q max_retries n (S attempt)) as [res evs] eqn:Hl.
      simpl; intros H. apply (IH (S attempt)). now rewrite Hl.
    + unfold raise_for_status.
      destruct (andb _ _); simpl.
      * destruct (attempt <? max_retries); simpl; [|discriminate].
        destruct (post_loop W url q max_retries n (S attempt)) as [res evs] eqn:Hl.
        simpl; intros H. apply (IH (S attempt)). now rewrite Hl.
      * intros H; inversion H; subst; eauto.
Qed.

(** C6. A payload below 100 bytes is an empty collection, not an error:
    whichever of the three attempts is the first to succeed, if its
    payload is that small [download_ea_layer] returns
    [gpd.GeoDataFrame()]. When all three attempts fail, the requests and
    sleeps are: request 1, sleep 3 s, request 2, sleep 6 s, request 3,
    and only then the last failure is raised to the caller. *)
Theorem download_ea_layer_retry (layer_name layer_id : string) (bbox_wgs84 : bbox) :
  dict_get EA_LAYER_IDS layer_name = Some layer_id ->
  let url := layer_url layer_id in
  let q := query_polygon bbox_wgs84 in
  (forall (W : Env) (k : nat) (resp : Response),
      1 <= k <= 3 ->
      (forall j, 1 <= j < k -> exists e, try_post W url q j = inl e) ->
      try_post W url q k = inr resp ->
      content_len resp < 100 ->
      fst (download_ea_layer E W layer_name bbox_wgs84 3) = inr GeoDataFrame_new)
  /\ (forall (W : Env) (e1 e2 e3 : exn),
         try_post W url q 1 = inl e1 ->
         try_post W url q 2 = inl e2 ->
         try_post W url q 3 = inl e3 ->
         download_ea_layer E W layer_name bbox_wgs84 3
         = (inl e3, [EvPost url 1; EvSleep 3; EvPost url 2; EvSleep 6; EvPost url 3])).
Proof.
  intros Hid url q; split.
  - intros W k resp Hk Hfail Hok Hsmall.
    unfold download_ea_layer; rewrite Hid. fold url q.
    assert (Hcases : k = 1 \/ k = 2 \/ k = 3) by lia.
    destruct Hcases as [->|[->| ->]].
    + cbn [post_loop]. rewrite Hok. cbn [fst bind].
      now apply parse_response_small.
    + destruct (Hfail 1) as [e1 H1]; [lia|].
      cbn [post_loop]. rewrite H1. cbn [Nat.ltb Nat.leb]. rewrite Hok.
      cbn [fst bind]. now apply parse_response_small.
    + destruct (Hfail 1) as [e1 H1]; [lia|].
      destruct (Hfail 2) as [e2 H2]; [lia|].
      cbn [post_loop]. rewrite H1. cbn [Nat.ltb Nat.leb]. rewrite H2.
      cbn [Nat.ltb Nat.leb]. rewrite Hok.
      cbn [fst bind]. now apply parse_response_small.
  - intros W e1 e2 e3 H1 H2 H3.
    unfold download_ea_layer; rewrite Hid. fold url q.
    cbn [post_loop]. rewrite H1. cbn [Nat.ltb Nat.leb]. rewrite H2.
    cbn [Nat.ltb Nat.leb]. rewrite H3. reflexivity.
Qed.

Lemma get_parts_polygon (g p : geometry) :
  is_polygonal g = true -> In p (get_parts g) -> is_polygon p = true.
Proof.
  destruct g as [c|cs|shell|polys|geoms]; simpl; try discriminate; intros _ H.
  - destruct H as [<-|[]]; reflexivity.
  - apply in_map_iff in H; destruct H as (s & <- & _); reflexivity.
Qed.

Lemma explode_polygons (gdf : GeoDataFrame) :
  (forall r, In r (rows gdf) -> is_polygonal (geom r) = true) ->
  forall r, In r (rows (explode gdf)) -> is_polygon (geom r) = true.
Proof.
  intros Hpoly r Hr; simpl in Hr.
  apply in_flat_map in Hr; destruct Hr as (r0 & Hr0 & Hr).
  apply in_map_iff in Hr; destruct Hr as (p & <- & Hp).
  simpl; eapply get_parts_polygon; [apply Hpoly|]; eassumption.
Qed.

Lemma map_coords_polygon (f : coord -> coord) (g : geometry) :
  is_polygon (map_coords f g) = is_polygon g.
Proof. destruct g; reflexivity. Qed.

Lemma to_crs_polygons (gdf : GeoDataFrame) (src dst : string) :
  (forall r, In r (rows gdf) -> is_polygon (geom r) = true) ->
  forall r, In r (rows (to_crs E gdf src dst)) -> is_polygon (geom r) = true.
Proof.
  intros Hpoly r Hr; simpl in Hr.
  apply in_map_iff in Hr; destruct Hr as (r0 & <- & Hr0).
  simpl; rewrite map_coords_polygon; now apply Hpoly.
Qed.

Lemma to_crs_len (gdf : GeoDataFrame) (src dst : string) :
  len (to_crs E gdf src dst) = len gdf.
Proof. unfold len; simpl; apply length_map. Qed.

Lemma explode_len (gdf : GeoDataFrame) :
  len (explode gdf)
  = list_sum (map (fun r => List.length (get_parts (geom r))) (rows gdf)).
Proof.
  unfold len; simpl. rewrite length_flat_map.
  f_equal; apply map_ext; intros r; apply length_map.
Qed.

Lemma set_geom_same (r : Row) : set_geom r (geom r) = r.
Proof. destruct r; reflexivity. Qed.

(** What [download_ea_layer] returns when the retry loop hands on the
    answer [resp] and the archive in it holds the data set [raw]. *)
Lemma download_ea_layer_parsed (W : Env) (layer_name layer_id : string)
      (bbox_wgs84 : bbox) (max_retries : nat) (resp : Response)
      (names rest : list string) (shp : string) (raw : GeoDataFrame) :
  dict_get EA_LAYER_IDS layer_name = Some layer_id ->
  fst (post_loop W (layer_url layer_id) (query_polygon bbox_wgs84)
                 max_retries max_retries 1) = inr resp ->
  100 <= content_len resp ->
  zip_namelist resp = inr names ->
  filter (fun n => endswith n ".shp") names = shp :: rest ->
  read_file resp shp = inr raw ->
  fst (download_ea_layer E W layer_name bbox_wgs84 max_retries)
  = inr (if empty raw then raw
         else match crs raw with
              | Some c =>
                  if andb (negb (String.eqb c "")) (negb (String.eqb c CRS_BNG))
                  then to_crs E (explode raw) c CRS_BNG
                  else explode raw
              | None => explode raw
              end).
Proof.
  intros Hid Hloop Hlen Hnames Hshp Hread. unfold download_ea_layer. rewrite Hid.
  destruct (post_loop W _ _ max_retries max_retries 1) as [res evs].
  cbn [fst] in Hloop |- *. subst res. cbn [bind].
  unfold parse_response.
  assert (Hbig : (content_len resp <? 100) = false) by (apply Nat.ltb_ge; exact Hlen).
  rewrite Hbig, Hnames. cbn [bind]. rewrite Hshp, Hread. cbn [bind].
  destruct (empty raw); reflexivity.
Qed.

(** C7. The query API serving polygon data sets, every record of every
    collection [download_ea_layer] returns is a single polygon. And when
    the answer holds a data set, the collection has one record for each
    constituent polygon of each record of the data set, in the order of
    the data set: the record carries the attributes of the record it is a
    part of and has that part (projected to the British National Grid
    where the data set is in another system) as its geometry. So there
    are as many records as the data set has parts: no part is dropped, no
    multi-polygon is left. *)
Theorem download_ea_layer_single_part (W : Env) (layer_name : string)
        (bbox_wgs84 : bbox) (max_retries : nat) :
  serves_polygons W ->
  (forall gdf,
      fst (download_ea_layer E W layer_name bbox_wgs84 max_retries) = inr gdf ->
      forall r, In r (rows gdf) -> is_polygon (geom r) = true)
  /\ (forall layer_id resp names rest shp raw,
         dict_get EA_LAYER_IDS layer_name = Some layer_id ->
         fst (post_loop W (layer_url layer_id) (query_polygon bbox_wgs84)
                        max_retries max_retries 1) = inr resp ->
         100 <= content_len resp ->
         zip_namelist resp = inr names ->
         filter (fun n => endswith n ".shp") names = shp :: rest ->
         read_file resp shp = inr raw ->
         exists gdf,
           fst (download_ea_layer E W layer_name bbox_wgs84 max_retries) = inr gdf
           /\ columns gdf = columns raw
           /\ rows gdf
              = flat_map (fun r => map (fun part =>
                                          mkRow (values r) (to_bng E (crs raw) part))
                                       (get_parts (geom r)))
                         (rows raw)
           /\ len gdf
              = list_sum (map (fun r => List.length (get_parts (geom r)))
                              (rows raw))).
Proof.
  intros Hserve. split.
  - intros gdf. unfold download_ea_layer.
    destruct (dict_get EA_LAYER_IDS layer_name) as [layer_id|]; [|discriminate].
    destruct (post_loop W _ _ max_retries max_retries 1) as [res evs] eqn:Hloop.
    cbn [fst]. destruct res as [e|resp]; [discriminate|]. cbn [bind].
    assert (Hresp : exists k, http_post W (layer_url layer_id)
                                        (query_polygon bbox_wgs84) k = inr resp).
    { eapply post_loop_answer. rewrite Hloop; reflexivity. }
    destruct Hresp as (k & Hk).
    unfold parse_response.
    destruct (content_len resp <? 100).
    { intros H; inversion H; subst; intros r []. }
    destruct (zip_namelist resp) as [e|names]; [discriminate|]. cbn [bind].
    destruct (filter _ names) as [|shp shps].
    { intros H; inversion H; subst; intros r []. }
    destruct (read_file resp shp) as [e|raw] eqn:Hread; [discriminate|]. cbn [bind].
    destruct (empty raw) eqn:Hempty.
    { intros H; inversion H; subst. unfold empty in Hempty.
      destruct (rows gdf); [intros r []|discriminate]. }
    assert (Hexploded : forall r, In r (rows (explode raw)) ->
                                  is_polygon (geom r) = true).
    { apply explode_polygons. eapply Hserve; eassumption. }
    cbv zeta.
    destruct (crs (explode raw)) as [c|];
      [destruct (negb (String.eqb c "") && negb (String.eqb c CRS_BNG))%bool|];
      intros H; inversion H; subst; clear H.
    + now apply to_crs_polygons.
    + assumption.
    + assumption.
  - intros layer_id resp names rest shp raw Hid Hloop Hlen Hnames Hshp Hread.
    rewrite (download_ea_layer_parsed W layer_name bbox_wgs84 max_retries
                                      Hid Hloop Hlen Hnames Hshp Hread).
    eexists; split; [reflexivity|].
    assert (Hflat : forall f : geometry -> geometry,
               map (fun r => set_geom r (f (geom r))) (rows (explode raw))
               = flat_map (fun r => map (fun part => mkRow (values r) (f part))
                                        (get_parts (geom r)))
                          (rows raw)).
    { intros f. unfold explode, with_rows; cbn [rows].
      generalize (rows raw) as l.
      induction l as [|r l IH]; [reflexivity|].
      cbn [flat_map]. rewrite map_app, IH. f_equal.
      rewrite map_map. reflexivity. }
    assert (Hid_rows : rows (explode raw)
                       = flat_map (fun r => map (fun part => mkRow (values r) part)
                                                (get_parts (geom r)))
                                  (rows raw)).
    { rewrite <- (Hflat (fun g => g)).
      rewrite <- (map_id (rows (explode raw))) at 1.
      apply map_ext; intros r; symmetry; apply set_geom_same. }
    destruct (empty raw) eqn:Hempty.
    { unfold empty in Hempty. unfold len.
      destruct (rows raw) as [|r l] eqn:Hrows; [|discriminate Hempty].
      repeat split. }
    unfold to_bng.
    destruct (crs raw) as [c|];
      [destruct (negb (String.eqb c "") && negb (String.eqb c CRS_BNG))%bool|].
    + split; [reflexivity|].
      split; [apply (Hflat (map_coords (transform E c CRS_BNG)))|].
      now rewrite to_crs_len, explode_len.
    + split; [reflexivity|]. split; [exact Hid_rows|apply explode_len].
    + split; [reflexivity|]. split; [exact Hid_rows|apply explode_len].
Qed.
End LayerSourceFacts.

Lemma download_ea_layer_retry_witness :
  dict_get EA_LAYER_IDS "rofsw" = Some "7a7d1570-dd33-4edc-9a19-fde1b9fcaadb"
  /\ fst (download_ea_layer Planar.engine Scenario.env_flaky "rofsw"
                            Scenario.bbox_wgs84 3)
     = inr GeoDataFrame_new
  /\ download_ea_layer Planar.engine Scenario.env_down "rofsw" Scenario.bbox_wgs84 3
     = (inl "ConnectionError",
        [ EvPost (Scenario.url_of "rofsw") 1; EvSleep 3;
          EvPost (Scenario.url_of "rofsw") 2; EvSleep 6;
          EvPost (Scenario.url_of "rofsw") 3 ]).
Proof.
  assert (Hid : dict_get EA_LAYER_IDS "rofsw"
                = Some "7a7d1570-dd33-4edc-9a19-fde1b9fcaadb") by reflexivity.
  destruct (download_ea_layer_retry Planar.engine "rofsw" Scenario.bbox_wgs84 Hid)
    as [Hsmall Hfail].
  split; [exact Hid|split].
  - apply (Hsmall Scenario.env_flaky 3 Scenario.tiny).
    + lia.
    + intros j Hj; exists "ConnectionError".
      assert (Hj' : j = 1 \/ j = 2) by lia.
      destruct Hj' as [-> | ->]; reflexivity.
    + reflexivity.
    + simpl; lia.
  - apply (Hfail Scenario.env_down "ConnectionError" "ConnectionError"
                 "ConnectionError"); reflexivity.
Defined.

Lemma download_ea_layer_single_part_witness :
  serves_polygons Scenario.env_up
  /\ fst (download_ea_layer Planar.engine Scenario.env_up "rofsw"
                            Scenario.bbox_wgs84 3)
     = inr Scenario.cells
  /\ (forall r, In r (rows Scenario.cells) -> is_polygon (geom r) = true)
  /\ fst (post_loop Scenario.env_up (Scenario.url_of "rofsw")
                    (query_polygon Scenario.bbox_wgs84) 3 3 1)
     = inr (Scenario.zipped Scenario.dataset)
  /\ exists gdf,
      fst (download_ea_layer Planar.engine Scenario.env_up "rofsw"
                             Scenario.bbox_wgs84 3) = inr gdf
      /\ columns gdf = columns Scenario.dataset
      /\ rows gdf
         = flat_map (fun r => map (fun part =>
                                     mkRow (values r)
                                           (to_bng Planar.engine
                                                   (crs Scenario.dataset) part))
                                  (get_parts (geom r)))
                    (rows Scenario.dataset)
      /\ len gdf
         = list_sum (map (fun r => List.length (get_parts (geom r)))
                         (rows Scenario.dataset)).
Proof.
  assert (Hserve : serves_polygons Scenario.env_up).
  { intros url q k resp shp gdf Hpost Hread r Hr. simpl in Hpost.
    destruct (String.eqb url (Scenario.url_of "rofsw"));
      inversion Hpost; subst; simpl in Hread; inversion Hread; subst;
      simpl in Hr; repeat (destruct Hr as [<-|Hr]; [reflexivity|]);
      contradiction. }
  assert (Hget : fst (download_ea_layer Planar.engine Scenario.env_up "rofsw"
                                        Scenario.bbox_wgs84 3)
                 = inr Scenario.cells) by (vm_compute; reflexivity).
  assert (Hloop : fst (post_loop Scenario.env_up (Scenario.url_of "rofsw")
                                 (query_polygon Scenario.bbox_wgs84) 3 3 1)
                  = inr (Scenario.zipped Scenario.dataset)) by reflexivity.
  assert (Hlen : 100 <= content_len (Scenario.zipped Scenario.dataset))
    by (simpl; lia).
  destruct (@download_ea_layer_single_part Planar.engine Scenario.env_up "rofsw"
              Scenario.bbox_wgs84 3 Hserve) as [Hall Hparts].
  split; [exact Hserve|split; [exact Hget|split; [exact (Hall _ Hget)|]]].
  split; [exact Hloop|].
  exact (Hparts "7a7d1570-dd33-4edc-9a19-fde1b9fcaadb"
                (Scenario.zipped Scenario.dataset)
                ["data.cpg"; "data.dbf"; "data.prj"; "data.shp"; "data.shx"]
                [] "data.shp" Scenario.dataset eq_refl Hloop Hlen eq_refl eq_refl
                eq_refl).
Defined.

(* ------------------------------------------------------------------ *)
(** ** LayerOrchestrator and FlowController *)

Lemma unique_layers_eq :
  unique_layers
  = [ "rofsw"; "rofsw_0_2m_depth"; "rofsw_0_3m_depth"; "rofsw_0_6m_depth";
      "rofsw_0_9m_depth"; "rofsw_1_2m_depth" ].
Proof. vm_compute; reflexivity. Qed.

Lemma dict_get_set_neq (V : Type) (d : list (string * V)) (k k' : string) (v : V) :
  String.eqb k' k = false -> dict_get (dict_set d k v) k' = dict_get d k'.
Proof. intros H; apply dict_get_set_other; now apply String.eqb_neq. Qed.

Lemma dict_get_le_sum (d : list (string * LayerResult)) (k : string) (v : LayerResult) :
  dict_get d k = Some v -> lr_features v <= list_sum (map (@lr_features) (dict_values d)).
Proof.
  unfold dict_values.
  induction d as [|[k' v'] d IH]; simpl; [discriminate|].
  destruct (String.eqb k k'); intros H.
  - inversion H; subst; lia.
  - specialize (IH H); lia.
Qed.

Lemma flat_map_filter (A B : Type) (f : A -> bool) (g : A -> list B) (l : list A) :
  (forall x, In x l -> f x = false -> g x = []) ->
  flat_map g l = flat_map g (filter f l).
Proof.
  induction l as [|a l IH]; intros H; simpl; [reflexivity|].
  rewrite IH by (intros x Hx; apply H; now right).
  destruct (f a) eqn:Hfa; simpl; [reflexivity|].
  now rewrite (H a (or_introl eq_refl) Hfa).
Qed.

Section JobFacts.
Variable E : Engine.
Variable W : Env.

Lemma fetch_all_eq (bbox_wgs84 : bbox) :
  fetch_all E W bbox_wgs84
  = map (fun name => (name, fetch_one E W bbox_wgs84 name)) unique_layers.
Proof. unfold fetch_all; rewrite unique_layers_eq; reflexivity. Qed.

Lemma raw_get_fetch_all (bbox_wgs84 : bbox) (name : string) :
  In name unique_layers ->
  raw_get (fetch_all E W bbox_wgs84) name = fetch_one E W bbox_wgs84 name.
Proof.
  rewrite fetch_all_eq, unique_layers_eq; intros H; simpl in H.
  repeat (destruct H as [<-|H]; [reflexivity|]). contradiction.
Qed.

Lemma process_single_layer_fst (k : string) (cfg : LayerConfig) (raw : GeoDataFrame)
      (b pb : polygon) (shp : string) (fs : FS) :
  fst (_process_single_layer E k cfg raw b pb shp fs)
  = (k, snd (fst (_process_single_layer E k cfg raw b pb shp []))).
Proof.
  unfold _process_single_layer.
  destruct (empty raw); [reflexivity|].
  destruct (match filter_field cfg with
            | Some field =>
                if String.eqb field "" then ret raw
                else if has_column raw field
                     then filter_by raw field (filter_value cfg)
                     else ret raw
            | None => ret raw
            end) as [e|gdf]; [reflexivity|]. cbn [bind].
  destruct (empty gdf); [reflexivity|].
  destruct (clip_to_buffer E gdf b (Some pb)) as [e|c]; [reflexivity|]. cbn [bind].
  unfold save_as_shapefile; destruct (empty c); reflexivity.
Qed.

Lemma depth_fold (raw : RawData) (b pb : polygon) (shp : string)
      (l : list (string * LayerConfig)) :
  forall layers errors fs,
    fst (fold_left (depth_layer E raw b pb shp) l (layers, errors, fs))
    = (fold_left (fun ls kv => dict_set ls (fst kv) (layer_outcome E raw b pb shp kv))
                 l layers,
       errors ++ flat_map (fun kv => error_entry (fst kv)
                                       (layer_outcome E raw b pb shp kv)) l).
Proof.
  induction l as [|[k cfg] l IH]; intros layers errors fs; simpl.
  - now rewrite app_nil_r.
  - pose proof (process_single_layer_fst k cfg (raw_get raw (ea_layer cfg)) b pb shp fs)
      as Hfst.
    destruct (_process_single_layer E k cfg (raw_get raw (ea_layer cfg)) b pb shp fs)
      as [[k' lr] fs'].
    simpl in Hfst; inversion Hfst; subst k' lr.
    rewrite IH. unfold layer_outcome at 3 4; simpl fst; simpl snd.
    now rewrite <- app_assoc.
Qed.

Lemma package_facts (location : Location) (radius : Q) (bbox_bng bbox_wgs84 : bbox)
      (b pb : polygon) (job_name shp : string) (raw : RawData)
      (layers0 : list (string * LayerResult)) (fs0 : FS) :
  let res := fst (package E W location radius bbox_bng bbox_wgs84 b pb job_name shp
                          raw (layers0, fs0)) in
  layers res
  = dict_set (fold_left (fun ls kv => dict_set ls (fst kv)
                                        (layer_outcome E raw b pb shp kv))
                        depth_layers layers0)
             "search_buffer" (search_buffer_result location radius)
  /\ errors res
     = flat_map (fun kv => error_entry (fst kv) (layer_outcome E raw b pb shp kv))
                depth_layers
  /\ total_features res = list_sum (map (@lr_features) (dict_values (layers res))).
Proof.
  unfold package, derive_depth_layers.
  pose proof (depth_fold raw b pb shp depth_layers layers0 [] fs0) as Hfold.
  destruct (fold_left (depth_layer E raw b pb shp) depth_layers (layers0, [], fs0))
    as [[layers errors] fs].
  simpl in Hfold; inversion Hfold; subst.
  destruct (save_as_shapefile _ shp _ fs) as [saved fs'].
  simpl; auto.
Qed.

Lemma process_postcode_inr (postcode : string) (radius : Q) (res : JobResult) (ar : FS) :
  process_postcode E W postcode radius = inr (res, ar) ->
  exists location layers0 fs0,
    geocode_postcode W postcode = inr location
    /\ let bb := create_buffer_bbox E (loc_easting location) (loc_northing location)
                                    radius in
       let b := create_buffer_polygon E (loc_easting location) (loc_northing location)
                                      radius in
       risk_phase E (raw_get (fetch_all E W (snd bb)) "rofsw") b (prep b)
                  "shapefiles" [] = inr (layers0, fs0)
       /\ (res, ar)
          = package E W location radius (fst bb) (snd bb) b (prep b)
                    ("RoFSW_" +s+ remove_spaces (upper (strip postcode)) +s+ "_"
                              +s+ timestamp W)
                    "shapefiles" (fetch_all E W (snd bb)) (layers0, fs0).
Proof.
  unfold process_postcode.
  destruct (geocode_postcode W postcode) as [e|location]; [discriminate|]. cbn [bind].
  destruct (create_buffer_bbox E _ _ radius) as [bbox_bng bbox_wgs84] eqn:Hbb.
  destruct (risk_phase E _ _ _ _ _) as [e|[layers0 fs0]] eqn:Hrisk; [discriminate|].
  cbn [bind]. unfold ret. intros H.
  assert (Hinj : forall x y : JobResult * FS, @inr exn _ x = inr y -> y = x)
    by (intros x y Hxy; congruence).
  exists location, layers0, fs0. split; [reflexivity|].
  cbv zeta; rewrite Hbb; cbn [fst snd].
  split; [exact Hrisk|]. apply Hinj; exact H.
Qed.

Lemma process_postcode_ok (postcode : string) (radius : Q) (location : Location)
      (st : list (string * LayerResult) * FS) :
  geocode_postcode W postcode = inr location ->
  let bb := create_buffer_bbox E (loc_easting location) (loc_northing location)
                               radius in
  let b := create_buffer_polygon E (loc_easting location) (loc_northing location)
                                 radius in
  risk_phase E (raw_get (fetch_all E W (snd bb)) "rofsw") b (prep b)
             "shapefiles" [] = inr st ->
  process_postcode E W postcode radius
  = inr (package E W location radius (fst bb) (snd bb) b (prep b)
                 ("RoFSW_" +s+ remove_spaces (upper (strip postcode)) +s+ "_"
                           +s+ timestamp W)
                 "shapefiles" (fetch_all E W (snd bb)) st).
Proof.
  intros Hgeo bb b; subst bb b; unfold process_postcode.
  rewrite Hgeo; cbn [bind].
  destruct (create_buffer_bbox E _ _ radius) as [bbox_bng bbox_wgs84].
  cbn [fst snd]. intros Hrisk; rewrite Hrisk; reflexivity.
Qed.
End JobFacts.

(** C9. Every completed job reports a [search_buffer] layer with one
    feature and status [ok], whatever the remote layers returned, and that
    feature is counted in [total_features]. *)
Theorem search_buffer_always_reported (E : Engine) (W : Env) (postcode : string)
        (radius : Q) (res : JobResult) (ar : FS) :
  process_postcode E W postcode radius = inr (res, ar) ->
  exists lr,
    dict_get (layers res) "search_buffer" = Some lr
    /\ lr_features lr = 1
    /\ lr_status lr = ok
    /\ total_features res = list_sum (map (@lr_features) (dict_values (layers res)))
    /\ 1 <= total_features res.
Proof.
  intros Hjob.
  destruct (process_postcode_inr _ _ _ _ Hjob) as (location & layers0 & fs0 & _ & Hrest).
  cbv zeta in Hrest; destruct Hrest as [_ Hpack].
  match type of Hpack with
  | _ = package ?E ?W ?l ?r ?b1 ?b2 ?b ?pb ?j ?s ?raw ?st =>
      pose proof (package_facts E W l r b1 b2 b pb j s raw layers0 fs0) as Hfacts
  end.
  rewrite <- Hpack in Hfacts; cbv zeta in Hfacts; cbn [fst] in Hfacts.
  destruct Hfacts as (Hlayers & _ & Htotal).
  assert (Hget : dict_get (layers res) "search_buffer"
                 = Some (search_buffer_result
                           location radius)).
  { rewrite Hlayers; apply dict_get_set_same. }
  eexists; split; [exact Hget|].
  repeat split; [exact Htotal|].
  rewrite Htotal.
  apply (dict_get_le_sum _ _ Hget).
Qed.

Lemma depth_layers_eq :
  depth_layers
  = [ ("depth_0.2m", mkLayerConfig "rofsw_0_2m_depth" None None
                                   "Flooding depth >= 0.2m" "depth_0_2m");
      ("depth_0.3m", mkLayerConfig "rofsw_0_3m_depth" None None
                                   "Flooding depth >= 0.3m" "depth_0_3m");
      ("depth_0.6m", mkLayerConfig "rofsw_0_6m_depth" None None
                                   "Flooding depth >= 0.6m" "depth_0_6m");
      ("depth_0.9m", mkLayerConfig "rofsw_0_9m_depth" None None
                                   "Flooding depth >= 0.9m" "depth_0_9m");
      ("depth_1.2m", mkLayerConfig "rofsw_1_2m_depth" None None
                                   "Flooding depth >= 1.2m" "depth_1_2m") ].
Proof. vm_compute; reflexivity. Qed.

Ltac dict_simpl :=
  repeat (rewrite dict_get_set_same || rewrite dict_get_set_neq by reflexivity).

Section JobLayers.
Variable E : Engine.
Variable W : Env.

Lemma download_small (layer_name layer_id : string) (bbox_wgs84 : bbox)
      (resp : Response) :
  dict_get EA_LAYER_IDS layer_name = Some layer_id ->
  try_post W (layer_url layer_id) (query_polygon bbox_wgs84) 1 = inr resp ->
  content_len resp < 100 ->
  fst (download_ea_layer E W layer_name bbox_wgs84 3) = inr GeoDataFrame_new.
Proof.
  intros Hid Hok Hsmall; unfold download_ea_layer; rewrite Hid.
  cbn [post_loop]; rewrite Hok; cbn [fst bind].
  now apply parse_response_small.
Qed.

Lemma fetch_one_failed (bbox_wgs84 : bbox) (name : string) (e : exn) :
  fst (download_ea_layer E W name bbox_wgs84 3) = inl e ->
  fetch_one E W bbox_wgs84 name = GeoDataFrame_new.
Proof. intros H; unfold fetch_one; now rewrite H. Qed.

Lemma layer_outcome_no_data (raw : RawData) (b pb : polygon) (shp : string)
      (kv : string * LayerConfig) :
  raw_get raw (ea_layer (snd kv)) = GeoDataFrame_new ->
  layer_outcome E raw b pb shp kv = no_data_result (snd kv).
Proof. intros H; unfold layer_outcome; rewrite H; reflexivity. Qed.

(** The layers map of a packaged job: the risk band entries are those of
    step 5, every depth layer has the entry of its own derivation. *)
Lemma package_layers (location : Location) (radius : Q) (bbox_bng bbox_wgs84 : bbox)
      (b pb : polygon) (job_name shp : string) (raw : RawData)
      (layers0 : list (string * LayerResult)) (fs0 : FS) :
  let res := fst (package E W location radius bbox_bng bbox_wgs84 b pb job_name shp
                          raw (layers0, fs0)) in
  (forall kv, In kv depth_layers ->
              dict_get (layers res) (fst kv) = Some (layer_outcome E raw b pb shp kv))
  /\ (forall k, In k risk_band_keys -> dict_get (layers res) k = dict_get layers0 k)
  /\ dict_get (layers res) "search_buffer" = Some (search_buffer_result location radius).
Proof.
  intros res.
  destruct (package_facts E W location radius bbox_bng bbox_wgs84 b pb job_name shp
                          raw layers0 fs0) as (Hlayers & _ & _).
  fold res in Hlayers. rewrite Hlayers, depth_layers_eq. cbn [fold_left fst].
  repeat split.
  - intros kv Hkv; simpl in Hkv.
    repeat (destruct Hkv as [<-|Hkv]; [cbn [fst]; dict_simpl; reflexivity|]).
    contradiction.
  - intros k Hk; simpl in Hk.
    repeat (destruct Hk as [<-|Hk]; [dict_simpl; reflexivity|]).
    contradiction.
  - apply dict_get_set_same.
Qed.
End JobLayers.

(** C2 (as amended). When every fetch returns a payload below the
    threshold, the job completes: each of the eight configured layers
    reports [no_data]; the layers map holds, ninth, the [search_buffer]
    entry with status [ok] and one feature, so [total_features] is 1; the
    error list is empty; the archive holds the boundary layer and the
    metadata document only. *)
Theorem empty_fetches_job (E : Engine) (W : Env) (postcode : string) (radius : Q)
        (location : Location) :
  geocode_postcode W postcode = inr location ->
  (forall url q, exists resp,
        try_post W url q 1 = inr resp /\ content_len resp < 100) ->
  exists res ar,
    process_postcode E W postcode radius = inr (res, ar)
    /\ (forall k cfg, In (k, cfg) ROFSW_LAYERS ->
                      dict_get (layers res) k = Some (no_data_result cfg))
    /\ dict_get (layers res) "search_buffer"
       = Some (search_buffer_result location radius)
    /\ List.length (layers res) = 9
    /\ total_features res = 1
    /\ errors res = []
    /\ map fst ar
       = [ "shapefiles/" +s+ buffer_filename radius +s+ ".shp"; "metadata.json" ].
Proof.
  intros Hgeo Htiny.
  set (bb := create_buffer_bbox E (loc_easting location) (loc_northing location) radius).
  set (b := create_buffer_polygon E (loc_easting location) (loc_northing location)
                                  radius).
  assert (Hraw : fetch_all E W (snd bb) = no_raw_data).
  { rewrite fetch_all_eq; unfold no_raw_data.
    apply map_ext_in; intros name Hname. f_equal.
    rewrite unique_layers_eq in Hname; simpl in Hname.
    unfold fetch_one.
    repeat (destruct Hname as [<-|Hname];
            [match goal with
             | |- context [download_ea_layer E W ?n ?bx 3] =>
                 destruct (dict_get EA_LAYER_IDS n) as [layer_id|] eqn:Hid;
                 [|discriminate Hid];
                 destruct (Htiny (layer_url layer_id) (query_polygon bx))
                   as (resp & Hok & Hsmall);
                 rewrite (download_small E W n bx Hid Hok Hsmall); reflexivity
             end|]).
    contradiction. }
  pose proof (@process_postcode_ok E W postcode radius location
                ([ ("risk_band_High", no_data_result
                      (mkLayerConfig "rofsw" (Some "risk_band") (Some "High")
                         "High risk - >=3.3% (1 in 30) chance per year"
                         "risk_band_High"));
                   ("risk_band_Medium", no_data_result
                      (mkLayerConfig "rofsw" (Some "risk_band") (Some "Medium")
                         "Medium risk - <3.3% but >=1% (1 in 100) chance per year"
                         "risk_band_Medium"));
                   ("risk_band_Low", no_data_result
                      (mkLayerConfig "rofsw" (Some "risk_band") (Some "Low")
                         "Low risk - <1% but >=0.1% (1 in 1000) chance per year"
                         "risk_band_Low")) ], []) Hgeo) as Hok.
  cbv zeta in Hok. fold bb b in Hok. rewrite Hraw in Hok.
  specialize (Hok eq_refl).
  match type of Hok with
  | _ = inr ?P => exists (fst P), (snd P)
  end.
  split; [rewrite Hok; f_equal; apply surjective_pairing|].
  clearbody bb b. clear Hok Hraw Hgeo Htiny.
  repeat split; try (vm_compute; reflexivity).
  intros k cfg Hin; simpl in Hin.
  repeat (destruct Hin as [Heq|Hin];
          [inversion Heq; subst; vm_compute; reflexivity|]).
  contradiction.
Qed.

(** C2, counterexample. Every fetch returns an empty body, and the job
    reports a [search_buffer] layer with status [ok] and a total of one
    feature, not zero. *)
Lemma empty_fetches_total_is_one :
  (forall url q k, http_post Scenario.env_tiny url q k = inr Scenario.tiny)
  /\ content_len Scenario.tiny = 0
  /\ process_postcode Planar.engine Scenario.env_tiny "SW1A 1AA" 500
     = inr Scenario.job_tiny
  /\ total_features (fst Scenario.job_tiny) = 1
  /\ option_map (@lr_status) (dict_get (layers (fst Scenario.job_tiny)) "search_buffer")
     = Some ok
  /\ ~ (total_features (fst Scenario.job_tiny) = 0
        /\ forall k lr, dict_get (layers (fst Scenario.job_tiny)) k = Some lr ->
                        lr_status lr = no_data).
Proof.
  split; [reflexivity|].
  split; [reflexivity|].
  split; [vm_compute; reflexivity|].
  split; [reflexivity|].
  split; [reflexivity|].
  intros [Hzero _]; discriminate Hzero.
Qed.

Lemma empty_fetches_job_witness :
  geocode_postcode Scenario.env_tiny "SW1A 1AA" = inr Scenario.location
  /\ (forall url q, exists resp,
         try_post Scenario.env_tiny url q 1 = inr resp /\ content_len resp < 100)
  /\ exists res ar,
      process_postcode Planar.engine Scenario.env_tiny "SW1A 1AA" 500 = inr (res, ar)
      /\ (forall k cfg, In (k, cfg) ROFSW_LAYERS ->
                        dict_get (layers res) k = Some (no_data_result cfg))
      /\ dict_get (layers res) "search_buffer"
         = Some (search_buffer_result Scenario.location 500)
      /\ List.length (layers res) = 9
      /\ total_features res = 1
      /\ errors res = []
      /\ map fst ar = [ "shapefiles/" +s+ buffer_filename 500 +s+ ".shp";
                        "metadata.json" ].
Proof.
  assert (Hgeo : geocode_postcode Scenario.env_tiny "SW1A 1AA"
                 = inr Scenario.location) by reflexivity.
  assert (Htiny : forall url q, exists resp,
             try_post Scenario.env_tiny url q 1 = inr resp /\ content_len resp < 100).
  { intros url q; exists Scenario.tiny; split; [reflexivity|simpl; lia]. }
  split; [exact Hgeo|split; [exact Htiny|]].
  exact (@empty_fetches_job Planar.engine Scenario.env_tiny "SW1A 1AA" 500
                            Scenario.location Hgeo Htiny).
Defined.

Lemma search_buffer_always_reported_witness :
  process_postcode Planar.engine Scenario.env_up "SW1A 1AA" 500
  = inr (fst Scenario.job_up, snd Scenario.job_up)
  /\ exists lr,
      dict_get (layers (fst Scenario.job_up)) "search_buffer" = Some lr
      /\ lr_features lr = 1
      /\ lr_status lr = ok
      /\ total_features (fst Scenario.job_up)
         = list_sum (map (@lr_features) (dict_values (layers (fst Scenario.job_up))))
      /\ 1 <= total_features (fst Scenario.job_up).
Proof.
  assert (Hjob : process_postcode Planar.engine Scenario.env_up "SW1A 1AA" 500
                 = inr (fst Scenario.job_up, snd Scenario.job_up))
    by (vm_compute; reflexivity).
  split; [exact Hjob|].
  exact (@search_buffer_always_reported Planar.engine Scenario.env_up "SW1A 1AA" 500
           (fst Scenario.job_up) (snd Scenario.job_up) Hjob).
Defined.

Lemma risk_phase_empty (E : Engine) (b pb : polygon) (shp : string) (fs : FS) :
  risk_phase E GeoDataFrame_new b pb shp fs
  = inr ([ ("risk_band_High", no_data_result
              (mkLayerConfig "rofsw" (Some "risk_band") (Some "High")
                 "High risk - >=3.3% (1 in 30) chance per year" "risk_band_High"));
           ("risk_band_Medium", no_data_result
              (mkLayerConfig "rofsw" (Some "risk_band") (Some "Medium")
                 "Medium risk - <3.3% but >=1% (1 in 100) chance per year"
                 "risk_band_Medium"));
           ("risk_band_Low", no_data_result
              (mkLayerConfig "rofsw" (Some "risk_band") (Some "Low")
                 "Low risk - <1% but >=0.1% (1 in 1000) chance per year"
                 "risk_band_Low")) ], fs).
Proof. reflexivity. Qed.

(** C3 (as amended). When the fetch of one remote layer fails all its
    attempts, the failure is absorbed: the job completes (provided step 5
    does not raise), the failed source counts as empty, every output layer
    fed by it reports [no_data], every other layer is derived from its own
    fetched data, and the failure adds no entry to the error list, which
    holds the derive failures of the other depth layers only. *)
Theorem failed_fetch_absorbed (E : Engine) (W : Env) (postcode : string) (radius : Q)
        (location : Location) (L : string) (e : exn)
        (st : list (string * LayerResult) * FS) :
  geocode_postcode W postcode = inr location ->
  let bb := snd (create_buffer_bbox E (loc_easting location) (loc_northing location)
                                    radius) in
  let b := create_buffer_polygon E (loc_easting location) (loc_northing location)
                                 radius in
  let raw := fetch_all E W bb in
  In L unique_layers ->
  fst (download_ea_layer E W L bb 3) = inl e ->
  risk_phase E (raw_get raw "rofsw") b (prep b) "shapefiles" [] = inr st ->
  exists res ar,
    process_postcode E W postcode radius = inr (res, ar)
    /\ raw_get raw L = GeoDataFrame_new
    /\ (forall n, In n unique_layers -> n <> L -> raw_get raw n = fetch_one E W bb n)
    /\ (forall k cfg, In (k, cfg) ROFSW_LAYERS -> ea_layer cfg = L ->
                      dict_get (layers res) k = Some (no_data_result cfg))
    /\ (forall kv, In kv depth_layers -> ea_layer (snd kv) <> L ->
                   dict_get (layers res) (fst kv)
                   = Some (layer_outcome E raw b (prep b) "shapefiles" kv))
    /\ (forall k, In k risk_band_keys -> dict_get (layers res) k = dict_get (fst st) k)
    /\ errors res
       = flat_map (fun kv => error_entry (fst kv)
                               (layer_outcome E raw b (prep b) "shapefiles" kv))
                  (filter (fun kv => negb (fed_by L kv)) depth_layers).
Proof.
  intros Hgeo bb b raw HL Hfail Hrisk.
  pose proof (@process_postcode_ok E W postcode radius location st Hgeo) as Hok.
  cbv zeta in Hok. fold bb b raw in Hok. specialize (Hok Hrisk).
  assert (HrawL : raw_get raw L = GeoDataFrame_new).
  { unfold raw; rewrite raw_get_fetch_all by exact HL.
    eapply fetch_one_failed; exact Hfail. }
  match type of Hok with
  | _ = inr (package ?E ?W ?l ?r ?b1 ?b2 ?b ?pb ?j ?s ?rw ?st0) =>
      pose proof (package_layers E W l r b1 b2 b pb j s rw (fst st) (snd st))
        as Hlayers;
      pose proof (package_facts E W l r b1 b2 b pb j s rw (fst st) (snd st))
        as Hfacts;
      exists (fst (package E W l r b1 b2 b pb j s rw st0)),
             (snd (package E W l r b1 b2 b pb j s rw st0))
  end.
  rewrite <- surjective_pairing in Hlayers, Hfacts.
  cbv zeta in Hlayers, Hfacts.
  destruct Hlayers as (Hdepth & Hbands & _). destruct Hfacts as (_ & Herrors & _).
  split; [rewrite Hok; f_equal; apply surjective_pairing|].
  split; [exact HrawL|].
  split; [intros n Hn _; unfold raw; now apply raw_get_fetch_all|].
  split; [|split; [|split]].
  - intros k cfg Hin Hfed.
    assert (Hcases : In k risk_band_keys /\ ea_layer cfg = "rofsw"
                                         /\ dict_get ROFSW_LAYERS k = Some cfg
                     \/ In (k, cfg) depth_layers).
    { rewrite depth_layers_eq; simpl in Hin |- *.
      repeat (destruct Hin as [Heq|Hin];
              [inversion Heq; subst; simpl; tauto|]).
      contradiction. }
    destruct Hcases as [(Hk & Hrofsw & Hcfg)|Hd].
    + rewrite (Hbands k Hk).
      rewrite Hrofsw in Hfed; subst L.
      rewrite HrawL, risk_phase_empty in Hrisk.
      inversion Hrisk; subst st; cbn [fst]. simpl in Hk.
      repeat (destruct Hk as [<-|Hk];
              [simpl in Hcfg; inversion Hcfg; subst; reflexivity|]).
      contradiction.
    + pose proof (Hdepth (k, cfg) Hd) as Hget; cbn [fst] in Hget.
      rewrite Hget. f_equal.
      apply layer_outcome_no_data. cbn [snd]. now rewrite Hfed.
  - intros kv Hkv _. now apply Hdepth.
  - exact Hbands.
  - rewrite Herrors. apply flat_map_filter.
    intros kv _ Hfed. apply negb_false_iff, String.eqb_eq in Hfed.
    rewrite layer_outcome_no_data; [reflexivity|now rewrite Hfed].
Qed.

(** C3, counterexample. Every request for the 0.3 m depth layer fails and
    the other five layers are served; the job completes with an empty
    error list, and not with one error entry. *)
Lemma failed_fetch_no_error_entry :
  download_ea_layer Planar.engine Scenario.env_one_down "rofsw_0_3m_depth"
                    Scenario.bbox_wgs84 3
  = (inl "ConnectionError",
     [ EvPost (Scenario.url_of "rofsw_0_3m_depth") 1; EvSleep 3;
       EvPost (Scenario.url_of "rofsw_0_3m_depth") 2; EvSleep 6;
       EvPost (Scenario.url_of "rofsw_0_3m_depth") 3 ])
  /\ map (fun n => fst (download_ea_layer Planar.engine Scenario.env_one_down n
                                          Scenario.bbox_wgs84 3))
         [ "rofsw"; "rofsw_0_2m_depth"; "rofsw_0_6m_depth"; "rofsw_0_9m_depth";
           "rofsw_1_2m_depth" ]
     = [ inr Scenario.cells; inr Scenario.depth_dataset; inr Scenario.depth_dataset;
         inr Scenario.depth_dataset; inr Scenario.depth_dataset ]
  /\ process_postcode Planar.engine Scenario.env_one_down "SW1A 1AA" 500
     = inr Scenario.job_one_down
  /\ errors (fst Scenario.job_one_down) = []
  /\ List.length (errors (fst Scenario.job_one_down)) <> 1
  /\ option_map (@lr_status)
                (dict_get (layers (fst Scenario.job_one_down)) "depth_0.3m")
     = Some no_data.
Proof.
  split; [vm_compute; reflexivity|].
  split; [vm_compute; reflexivity|].
  split; [vm_compute; reflexivity|].
  split; [reflexivity|].
  split; [discriminate|reflexivity].
Qed.

Lemma failed_fetch_absorbed_witness :
  geocode_postcode Scenario.env_one_down "SW1A 1AA" = inr Scenario.location
  /\ In "rofsw_0_3m_depth" unique_layers
  /\ fst (download_ea_layer Planar.engine Scenario.env_one_down "rofsw_0_3m_depth"
                            Scenario.bbox_wgs84 3)
     = inl "ConnectionError"
  /\ risk_phase Planar.engine
                (raw_get (fetch_all Planar.engine Scenario.env_one_down
                                    Scenario.bbox_wgs84) "rofsw")
                Scenario.boundary (prep Scenario.boundary) "shapefiles" []
     = inr Scenario.risk_up
  /\ exists res ar,
      process_postcode Planar.engine Scenario.env_one_down "SW1A 1AA" 500
      = inr (res, ar)
      /\ dict_get (layers res) "depth_0.3m"
         = Some (no_data_result
                   (mkLayerConfig "rofsw_0_3m_depth" None None
                                  "Flooding depth >= 0.3m" "depth_0_3m"))
      /\ dict_get (layers res) "risk_band_High"
         = dict_get (fst Scenario.risk_up) "risk_band_High"
      /\ errors res = [].
Proof.
  assert (Hgeo : geocode_postcode Scenario.env_one_down "SW1A 1AA"
                 = inr Scenario.location) by reflexivity.
  assert (HL : In "rofsw_0_3m_depth" unique_layers)
    by (rewrite unique_layers_eq; simpl; tauto).
  assert (Hfail : fst (download_ea_layer Planar.engine Scenario.env_one_down
                                         "rofsw_0_3m_depth" Scenario.bbox_wgs84 3)
                  = inl "ConnectionError") by (vm_compute; reflexivity).
  assert (Hrisk : risk_phase Planar.engine
                    (raw_get (fetch_all Planar.engine Scenario.env_one_down
                                        Scenario.bbox_wgs84) "rofsw")
                    Scenario.boundary (prep Scenario.boundary) "shapefiles" []
                  = inr Scenario.risk_up) by (vm_compute; reflexivity).
  split; [exact Hgeo|split; [exact HL|split; [exact Hfail|split; [exact Hrisk|]]]].
  destruct (@failed_fetch_absorbed Planar.engine Scenario.env_one_down "SW1A 1AA" 500
              Scenario.location "rofsw_0_3m_depth" "ConnectionError" Scenario.risk_up
              Hgeo HL Hfail Hrisk)
    as (res & ar & Hjob & _ & _ & Hfed & _ & Hbands & Herrors).
  exists res, ar.
  split; [exact Hjob|].
  split; [apply Hfed; [vm_compute; tauto|reflexivity]|].
  split; [apply Hbands; simpl; tauto|].
  rewrite Herrors. vm_compute. reflexivity.
Defined.

(* ------------------------------------------------------------------ *)
(** ** The categorical derive path *)

Lemma index_of_in_list (field : string) (cols : list string) (i : nat) :
  index_of field cols = Some i -> in_list field cols = true.
Proof.
  revert i; induction cols as [|c cols IH]; intros i; simpl; [discriminate|].
  destruct (String.eqb field c); [reflexivity|].
  destruct (index_of field cols) as [j|]; [|discriminate].
  intros _; simpl; eapply IH; reflexivity.
Qed.

Lemma matches_cell (c : GeoDataFrame) (field value : string) (r : Row) :
  matches c field value r = true ->
  exists s, cell c field r = Some (VStr s) /\ upper s = upper value.
Proof.
  unfold matches; destruct (cell c field r) as [[s|q]|]; try discriminate.
  intros H; apply String.eqb_eq in H; eauto.
Qed.

Lemma matches_exclusive (c : GeoDataFrame) (field v1 v2 : string) (r : Row) :
  matches c field v1 r = true -> String.eqb (upper v1) (upper v2) = false ->
  matches c field v2 r = false.
Proof.
  intros H Hne; destruct (matches_cell _ _ _ _ H) as (s & Hs & Hup).
  unfold matches; rewrite Hs, Hup; exact Hne.
Qed.

Lemma matches_filter_by (c : GeoDataFrame) (r : Row) (v0 v : string) :
  In r (rows c) -> matches c "risk_band" v0 r = true ->
  has_column c "risk_band" = true
  /\ filter_by c "risk_band" (Some v) = inr (band c v).
Proof.
  intros Hin Hm; destruct (matches_cell _ _ _ _ Hm) as (s & Hs & _).
  assert (Hcol : in_list "risk_band" (columns c) = true).
  { unfold cell in Hs. destruct (index_of "risk_band" (columns c)) eqn:Hi;
      [eapply index_of_in_list; eassumption|discriminate]. }
  split; [unfold has_column; rewrite Hcol; apply orb_true_r|].
  unfold filter_by, str_accessor_ok.
  assert (Hstr : existsb (fun r => is_str_cell (cell c "risk_band" r)) (rows c) = true).
  { apply existsb_exists; exists r; split; [assumption|now rewrite Hs]. }
  rewrite Hstr; reflexivity.
Qed.

Lemma bands_partition (c : GeoDataFrame) (l : list Row) :
  (forall r, In r l ->
             orb (matches c "risk_band" "High" r)
                 (orb (matches c "risk_band" "Medium" r)
                      (matches c "risk_band" "Low" r)) = true) ->
  List.length (filter (matches c "risk_band" "High") l)
  + List.length (filter (matches c "risk_band" "Medium") l)
  + List.length (filter (matches c "risk_band" "Low") l)
  = List.length l.
Proof.
  induction l as [|r l IH]; intros H; [reflexivity|].
  specialize (IH (fun r' Hr' => H r' (or_intror Hr'))).
  specialize (H r (or_introl eq_refl)). simpl.
  destruct (matches c "risk_band" "High" r) eqn:Hh.
  - rewrite (matches_exclusive c "risk_band" "High" "Medium" r Hh eq_refl).
    rewrite (matches_exclusive c "risk_band" "High" "Low" r Hh eq_refl).
    simpl; lia.
  - destruct (matches c "risk_band" "Medium" r) eqn:Hm.
    + rewrite (matches_exclusive c "risk_band" "Medium" "Low" r Hm eq_refl).
      simpl; lia.
    + simpl in H; rewrite H; simpl; lia.
Qed.

Lemma risk_band_layer_band (c : GeoDataFrame) (layer_key value : string)
      (cfg : LayerConfig) (layers : list (string * LayerResult)) (fs : FS) :
  dict_get ROFSW_LAYERS layer_key = Some cfg ->
  filter_field cfg = Some "risk_band" ->
  filter_value cfg = Some value ->
  empty c = false ->
  has_column c "risk_band" = true ->
  filter_by c "risk_band" (Some value) = inr (band c value) ->
  risk_band_layer (Some c) "shapefiles" layer_key (layers, fs)
  = inr (dict_set layers layer_key
                  (saved_result cfg (len (band c value)) (negb (empty (band c value)))),
         if empty (band c value) then fs
         else dict_set fs ("shapefiles/" +s+ filename cfg +s+ ".shp")
                       (Shapefile (band c value))).
Proof.
  intros Hcfg Hfield Hvalue Hne Hcol Hfilter; unfold risk_band_layer.
  rewrite Hcfg, Hne, Hfield, Hcol, Hvalue, Hfilter. cbn [bind].
  unfold save_as_shapefile. destruct (empty (band c value)); reflexivity.
Qed.

Lemma risk_band_layer_empty (c : GeoDataFrame) (shp layer_key : string)
      (cfg : LayerConfig) (layers : list (string * LayerResult)) (fs : FS) :
  dict_get ROFSW_LAYERS layer_key = Some cfg ->
  empty c = true ->
  risk_band_layer (Some c) shp layer_key (layers, fs)
  = inr (dict_set layers layer_key (no_data_result cfg), fs).
Proof.
  intros Hcfg Hempty; unfold risk_band_layer. now rewrite Hcfg, Hempty.
Qed.

Lemma derive_risk_bands_steps (rofsw_clipped : option GeoDataFrame) (shp : string)
      (st0 st1 st2 st3 : list (string * LayerResult) * FS) :
  risk_band_layer rofsw_clipped shp "risk_band_High" st0 = inr st1 ->
  risk_band_layer rofsw_clipped shp "risk_band_Medium" st1 = inr st2 ->
  risk_band_layer rofsw_clipped shp "risk_band_Low" st2 = inr st3 ->
  derive_risk_bands rofsw_clipped shp st0 = inr st3.
Proof.
  intros H1 H2 H3; unfold derive_risk_bands, risk_band_keys; cbn [fold_left].
  unfold ret at 1; cbn [bind]. rewrite H1; cbn [bind]. rewrite H2; cbn [bind].
  exact H3.
Qed.

(** C4. When every record of the pre-clipped collection carries one of
    the three risk bands (in any letter case), the three categorical
    layers partition it: each is the case-insensitive attribute filter of
    the already clipped collection, written as it is, nothing is clipped
    again, no record is in two of them, and their feature counts add up
    to the feature count of the clipped collection. *)
Theorem risk_bands_partition (c : GeoDataFrame) :
  (forall r, In r (rows c) ->
             orb (matches c "risk_band" "High" r)
                 (orb (matches c "risk_band" "Medium" r)
                      (matches c "risk_band" "Low" r)) = true) ->
  exists layers fs hi me lo,
    derive_risk_bands (Some c) "shapefiles" ([], []) = inr (layers, fs)
    /\ dict_get layers "risk_band_High" = Some hi
    /\ dict_get layers "risk_band_Medium" = Some me
    /\ dict_get layers "risk_band_Low" = Some lo
    /\ lr_features hi = len (band c "High")
    /\ lr_features me = len (band c "Medium")
    /\ lr_features lo = len (band c "Low")
    /\ lr_features hi + lr_features me + lr_features lo = len c
    /\ dict_get fs "shapefiles/risk_band_High.shp" = band_file c "High"
    /\ dict_get fs "shapefiles/risk_band_Medium.shp" = band_file c "Medium"
    /\ dict_get fs "shapefiles/risk_band_Low.shp" = band_file c "Low"
    /\ (forall r, In r (rows c) ->
                  (matches c "risk_band" "High" r = true ->
                   matches c "risk_band" "Medium" r = false
                   /\ matches c "risk_band" "Low" r = false)
                  /\ (matches c "risk_band" "Medium" r = true ->
                      matches c "risk_band" "Low" r = false)).
Proof.
  intros Hall.
  assert (Hdisjoint : forall r, In r (rows c) ->
            (matches c "risk_band" "High" r = true ->
             matches c "risk_band" "Medium" r = false
             /\ matches c "risk_band" "Low" r = false)
            /\ (matches c "risk_band" "Medium" r = true ->
                matches c "risk_band" "Low" r = false)).
  { intros r _; split; [intros Hh; split|intros Hm].
    - exact (matches_exclusive c "risk_band" "High" "Medium" r Hh eq_refl).
    - exact (matches_exclusive c "risk_band" "High" "Low" r Hh eq_refl).
    - exact (matches_exclusive c "risk_band" "Medium" "Low" r Hm eq_refl). }
  assert (Hsum : len (band c "High") + len (band c "Medium") + len (band c "Low")
                 = len c) by (apply bands_partition; exact Hall).
  destruct (rows c) as [|r0 rs] eqn:Hrows.
  - (* nothing survived the clip: three no_data entries *)
    assert (Hempty : empty c = true) by (unfold empty; now rewrite Hrows).
    assert (Hband : forall v, band c v = with_rows c [])
      by (intros v; unfold band; now rewrite Hrows).
    do 5 eexists. split.
    { eapply derive_risk_bands_steps;
        eapply risk_band_layer_empty; solve [reflexivity|exact Hempty]. }
    unfold band_file. rewrite !Hband.
    repeat (split; [reflexivity|]).
    split; [unfold len; simpl; now rewrite Hrows|].
    repeat (split; [reflexivity|]).
    intros r [].
  - assert (Hne : empty c = false) by (unfold empty; now rewrite Hrows).
    assert (Hin0 : In r0 (rows c)) by (rewrite Hrows; now left).
    assert (Hsome : exists v0, matches c "risk_band" v0 r0 = true).
    { specialize (Hall r0 (or_introl eq_refl)).
      apply orb_true_iff in Hall; destruct Hall as [H|H]; [eauto|].
      apply orb_true_iff in H; destruct H as [H|H]; eauto. }
    destruct Hsome as (v0 & Hv0).
    destruct (matches_filter_by c r0 v0 "High" Hin0 Hv0) as [Hcol Hhigh].
    destruct (matches_filter_by c r0 v0 "Medium" Hin0 Hv0) as [_ Hmedium].
    destruct (matches_filter_by c r0 v0 "Low" Hin0 Hv0) as [_ Hlow].
    do 5 eexists. split.
    { eapply derive_risk_bands_steps.
      - exact (@risk_band_layer_band c "risk_band_High" "High" _ _ _
                 eq_refl eq_refl eq_refl Hne Hcol Hhigh).
      - exact (@risk_band_layer_band c "risk_band_Medium" "Medium" _ _ _
                 eq_refl eq_refl eq_refl Hne Hcol Hmedium).
      - exact (@risk_band_layer_band c "risk_band_Low" "Low" _ _ _
                 eq_refl eq_refl eq_refl Hne Hcol Hlow). }
    cbn [filename]. unfold band_file.
    split; [dict_simpl; reflexivity|].
    split; [dict_simpl; reflexivity|].
    split; [dict_simpl; reflexivity|].
    split; [reflexivity|]. split; [reflexivity|]. split; [reflexivity|].
    split; [exact Hsum|].
    split; [|split; [|split; [|exact Hdisjoint]]];
      destruct (empty (band c "High")), (empty (band c "Medium")),
               (empty (band c "Low")); reflexivity.
Qed.

Lemma risk_bands_partition_witness :
  (forall r, In r (rows Scenario.cells_clipped) ->
             orb (matches Scenario.cells_clipped "risk_band" "High" r)
                 (orb (matches Scenario.cells_clipped "risk_band" "Medium" r)
                      (matches Scenario.cells_clipped "risk_band" "Low" r)) = true)
  /\ exists layers fs hi me lo,
      derive_risk_bands (Some Scenario.cells_clipped) "shapefiles" ([], [])
      = inr (layers, fs)
      /\ dict_get layers "risk_band_High" = Some hi
      /\ dict_get layers "risk_band_Medium" = Some me
      /\ dict_get layers "risk_band_Low" = Some lo
      /\ lr_features hi = 2 /\ lr_features me = 0 /\ lr_features lo = 1
      /\ lr_features hi + lr_features me + lr_features lo
         = len Scenario.cells_clipped.
Proof.
  assert (Hall : forall r, In r (rows Scenario.cells_clipped) ->
            orb (matches Scenario.cells_clipped "risk_band" "High" r)
                (orb (matches Scenario.cells_clipped "risk_band" "Medium" r)
                     (matches Scenario.cells_clipped "risk_band" "Low" r)) = true).
  { intros r Hr; simpl in Hr.
    repeat (destruct Hr as [<-|Hr]; [reflexivity|]). contradiction. }
  split; [exact Hall|].
  destruct (risk_bands_partition Scenario.cells_clipped Hall)
    as (layers & fs & hi & me & lo & Hrun & Hhi & Hme & Hlo & Fhi & Fme & Flo
        & Hsum & _).
  exists layers, fs, hi, me, lo.
  split; [exact Hrun|]. split; [exact Hhi|]. split; [exact Hme|].
  split; [exact Hlo|].
  split; [rewrite Fhi; reflexivity|]. split; [rewrite Fme; reflexivity|].
  split; [rewrite Flo; reflexivity|]. exact Hsum.
Defined.

(* ------------------------------------------------------------------ *)
(** ** A filter field the data does not have *)

(** C10. In both derive paths a configured filter field that is not among
    the columns of the data leaves the filter out: in the risk band path
    the whole clipped collection is the layer's output; in the per-layer
    path the layer is processed as if it had no filter, the whole source
    collection going to the clip and the clip result to the output. *)
Theorem missing_filter_field_passes_all :
  (forall (c : GeoDataFrame) (layer_key field : string) (cfg : LayerConfig)
          (layers : list (string * LayerResult)) (fs : FS),
      dict_get ROFSW_LAYERS layer_key = Some cfg ->
      filter_field cfg = Some field ->
      has_column c field = false ->
      empty c = false ->
      risk_band_layer (Some c) "shapefiles" layer_key (layers, fs)
      = inr (dict_set layers layer_key (saved_result cfg (len c) true),
             dict_set fs ("shapefiles/" +s+ filename cfg +s+ ".shp") (Shapefile c)))
  /\ (forall (E : Engine) (layer_key field : string) (cfg : LayerConfig)
             (raw : GeoDataFrame) (b pb : polygon) (shp : string) (fs : FS),
         filter_field cfg = Some field ->
         has_column raw field = false ->
         _process_single_layer E layer_key cfg raw b pb shp fs
         = _process_single_layer E layer_key (unfiltered cfg) raw b pb shp fs
         /\ (empty raw = false ->
             forall out, clip_to_buffer E raw b (Some pb) = inr out ->
                         _process_single_layer E layer_key cfg raw b pb shp fs
                         = ((layer_key,
                             saved_result cfg (len out) (negb (empty out))),
                            if empty out then fs
                            else dict_set fs (shp +s+ "/" +s+ filename cfg +s+ ".shp")
                                          (Shapefile out)))).
Proof.
  split.
  - intros c layer_key field cfg layers fs Hcfg Hfield Hcol Hne.
    unfold risk_band_layer. rewrite Hcfg, Hne, Hfield, Hcol. cbn [bind ret].
    unfold save_as_shapefile. rewrite Hne. reflexivity.
  - intros E layer_key field cfg raw b pb shp fs Hfield Hcol.
    assert (Hskip : (match filter_field cfg with
                     | Some field =>
                         if String.eqb field "" then ret raw
                         else if has_column raw field
                              then filter_by raw field (filter_value cfg)
                              else ret raw
                     | None => ret raw
                     end) = ret raw).
    { rewrite Hfield, Hcol. now destruct (String.eqb field ""). }
    split.
    + unfold _process_single_layer. rewrite Hskip. reflexivity.
    + intros Hne out Hclip. unfold _process_single_layer.
      rewrite Hskip, Hne. cbn [bind ret]. rewrite Hne, Hclip. cbn [bind].
      unfold save_as_shapefile. destruct (empty out); reflexivity.
Qed.

Lemma missing_filter_field_passes_all_witness :
  risk_band_layer (Some Scenario.depth_dataset) "shapefiles" "risk_band_High" ([], [])
  = inr ([ ("risk_band_High",
            mkLayerResult 2 ok "High risk - >=3.3% (1 in 30) chance per year"
                          (Some "risk_band_High.shp") None) ],
         [ ("shapefiles/risk_band_High.shp", Shapefile Scenario.depth_dataset) ])
  /\ _process_single_layer Planar.engine "risk_band_Low"
       (mkLayerConfig "rofsw" (Some "risk_band") (Some "Low") "Low risk" "risk_band_Low")
       Scenario.depth_dataset Scenario.boundary Scenario.boundary "shapefiles" []
     = _process_single_layer Planar.engine "risk_band_Low"
         (mkLayerConfig "rofsw" None None "Low risk" "risk_band_Low")
         Scenario.depth_dataset Scenario.boundary Scenario.boundary "shapefiles" [].
Proof.
  destruct missing_filter_field_passes_all as [Hrisk Hdepth].
  split.
  - exact (Hrisk Scenario.depth_dataset "risk_band_High" "risk_band"
                 (mkLayerConfig "rofsw" (Some "risk_band") (Some "High")
                    "High risk - >=3.3% (1 in 30) chance per year" "risk_band_High")
                 [] [] eq_refl eq_refl eq_refl eq_refl).
  - exact (proj1 (Hdepth Planar.engine "risk_band_Low" "risk_band"
                         (mkLayerConfig "rofsw" (Some "risk_band") (Some "Low")
                                        "Low risk" "risk_band_Low")
                         Scenario.depth_dataset Scenario.boundary Scenario.boundary
                         "shapefiles" [] eq_refl eq_refl)).
Defined.

(* ================================================================== *)
(** * Further properties of the code *)

(** ** [clip_to_buffer] *)

Lemma mapM_length (A B : Type) (f : A -> result B) (l : list A) (ys : list B) :
  mapM f l = inr ys -> List.length ys = List.length l.
Proof.
  revert ys; induction l as [|a l IH]; intros ys H; simpl in H.
  - inversion H; reflexivity.
  - destruct (f a) as [e|b]; simpl in H; [discriminate|].
    destruct (mapM f l) as [e|bs]; simpl in H; [discriminate|].
    inversion H; subst; simpl. now rewrite (IH bs eq_refl).
Qed.

Lemma mapM_ok (A B : Type) (f : A -> result B) (l : list A) :
  (forall x, In x l -> exists y, f x = inr y) -> exists ys, mapM f l = inr ys.
Proof.
  induction l as [|a l IH]; intros H; simpl.
  - eexists; reflexivity.
  - destruct (H a (or_introl eq_refl)) as (b & Hb).
    destruct IH as (bs & Hbs); [intros x Hx; apply H; now right|].
    rewrite Hb, Hbs; simpl. eexists; reflexivity.
Qed.

Lemma dropna_length (l : list (option Row)) :
  List.length (dropna l) <= List.length l.
Proof. induction l as [|[r|] l IH]; simpl; lia. Qed.

Lemma gpd_clip_length (E : Engine) (gdf : GeoDataFrame) (b : polygon)
      (out : GeoDataFrame) :
  gpd_clip E gdf b = inr out -> len out <= len gdf.
Proof.
  unfold gpd_clip, len.
  set (sub := filter _ (rows gdf)).
  assert (Hsub : List.length sub <= List.length (rows gdf))
    by apply filter_length_le.
  destruct (forallb _ sub).
  - intros H; inversion H; subst; simpl; exact Hsub.
  - destruct (mapM _ sub) as [e|clipped] eqn:Hm; simpl; [discriminate|].
    intros H; inversion H; subst; simpl.
    now rewrite (mapM_length _ _ Hm).
Qed.

Lemma clip_to_buffer_parts (E : Engine) (gdf : GeoDataFrame) (b : polygon)
        (pb : option polygon) (out : GeoDataFrame) :
  clip_to_buffer E gdf b pb = inr out ->
  columns out = columns gdf
  /\ crs out = crs gdf
  /\ (exists clipped,
         rows out = filter (centroid_inside E (resolve b pb)) (rows gdf) ++ clipped
         /\ List.length clipped
            <= List.length (filter (crosses E (resolve b pb)) (rows gdf)))
  /\ len out <= len gdf.
Proof.
  intros Hclip.
  destruct (clip_to_buffer_rows _ _ _ _ Hclip) as (Hcols & Hcrs & _).
  split; [exact Hcols|split; [exact Hcrs|]].
  set (p := resolve b pb).
  assert (Hcross : filter (crosses E p) (rows gdf)
                   = filter (fun r => intersects E p (geom r))
                            (filter (fun r => negb (centroid_inside E p r)) (rows gdf))).
  { induction (rows gdf) as [|r l IH]; [reflexivity|]. simpl. unfold crosses at 1.
    destruct (centroid_inside E p r); simpl; [exact IH|].
    destruct (intersects E p (geom r)); simpl; now rewrite IH. }
  assert (Hparts : exists clipped,
             rows out = filter (centroid_inside E p) (rows gdf) ++ clipped
             /\ List.length clipped
                <= List.length (filter (crosses E p) (rows gdf))).
  { rewrite Hcross. revert Hclip. unfold clip_to_buffer. fold (resolve b pb). fold p.
    destruct (empty gdf) eqn:Hempty.
    { intros H; inversion H; subst. unfold empty in Hempty.
      destruct (rows out); [|discriminate]. exists []; split; [reflexivity|simpl; lia]. }
    destruct (filter (fun r => negb (centroid_inside E p r)) (rows gdf))
      as [|c0 cs] eqn:Hcand.
    { intros H; inversion H; subst; simpl. exists []; split;
        [now rewrite app_nil_r|simpl; lia]. }
    destruct (filter (fun r => intersects E p (geom r)) (c0 :: cs))
      as [|e0 es] eqn:Hint.
    { intros H; inversion H; subst; simpl. exists []; split;
        [now rewrite app_nil_r|simpl; lia]. }
    rewrite repair_all.
    destruct (gpd_clip E _ b) as [e|clipped] eqn:Hg; simpl; [discriminate|].
    pose proof (gpd_clip_length _ _ _ Hg) as Hlen.
    unfold len in Hlen; simpl in Hlen; rewrite length_map in Hlen.
    destruct (negb (empty clipped)).
    - destruct (mapM (extract_row E) (rows clipped)) as [e|extracted] eqn:Hm;
        simpl; [discriminate|].
      intros H; inversion H; subst; simpl.
      exists (dropna extracted); split; [reflexivity|].
      pose proof (dropna_length extracted) as Hd.
      rewrite (mapM_length _ _ Hm) in Hd. lia.
    - simpl. intros H; inversion H; subst; simpl.
      exists (rows clipped); split; [reflexivity|exact Hlen]. }
  split; [exact Hparts|].
  destruct Hparts as (clipped & Hrows & Hlen).
  unfold len; rewrite Hrows, length_app.
  pose proof (filter_length (centroid_inside E p) (rows gdf)) as Hsplit.
  rewrite Hcross in Hlen.
  pose proof (filter_length_le (fun r => intersects E p (geom r))
                (filter (fun r => negb (centroid_inside E p r)) (rows gdf))) as Hle.
  lia.
Qed.

(** X1. [clip_to_buffer] keeps the columns and the reference system, puts
    the records whose centroid is inside the boundary first, unchanged and
    in their input order, and after them at most one record for each input
    record that crosses the boundary: the result never has more records
    than the input. *)
Theorem clip_to_buffer_shape (E : Engine) (gdf : GeoDataFrame) (b : polygon)
        (pb : option polygon) (out : GeoDataFrame) :
  clip_to_buffer E gdf b pb = inr out ->
  columns out = columns gdf
  /\ crs out = crs gdf
  /\ (exists clipped,
         rows out = filter (centroid_inside E (resolve b pb)) (rows gdf) ++ clipped
         /\ List.length clipped
            <= List.length (filter (crosses E (resolve b pb)) (rows gdf)))
  /\ len out <= len gdf.
Proof. apply clip_to_buffer_parts. Qed.

(** X2. A collection all of whose records have their centroid inside the
    boundary is returned as it is; the geometry engine is asked for
    centroids and containment only. *)
Theorem clip_to_buffer_all_inside (E : Engine) (gdf : GeoDataFrame) (b : polygon)
        (pb : option polygon) :
  (forall r, In r (rows gdf) -> centroid_inside E (resolve b pb) r = true) ->
  clip_to_buffer E gdf b pb = inr gdf.
Proof.
  intros Hall; unfold clip_to_buffer. fold (resolve b pb).
  destruct (empty gdf); [reflexivity|].
  rewrite (filter_none (fun r => negb (centroid_inside E (resolve b pb) r)) (rows gdf)).
  - rewrite (filter_all _ _ Hall), with_rows_same; reflexivity.
  - intros r Hr; now rewrite (Hall r Hr).
Qed.

(** X3. A collection none of whose records has its centroid inside the
    boundary or meets the boundary gives the empty collection with the
    same columns and reference system, not an error. *)
Theorem clip_to_buffer_all_outside (E : Engine) (gdf : GeoDataFrame) (b : polygon)
        (pb : option polygon) :
  (forall r, In r (rows gdf) ->
             centroid_inside E (resolve b pb) r = false
             /\ intersects E (resolve b pb) (geom r) = false) ->
  clip_to_buffer E gdf b pb = inr (with_rows gdf []).
Proof.
  intros Hall; unfold clip_to_buffer. fold (resolve b pb).
  destruct (empty gdf) eqn:Hempty.
  { unfold empty in Hempty. destruct gdf as [cols c rs]; simpl in *.
    destruct rs; [reflexivity|discriminate]. }
  rewrite (filter_none (centroid_inside E (resolve b pb)) (rows gdf))
    by (intros r Hr; apply Hall; exact Hr).
  destruct (filter (fun r => negb (centroid_inside E (resolve b pb) r)) (rows gdf))
    as [|c0 cs] eqn:Hcand; [reflexivity|].
  rewrite (filter_none (fun r => intersects E (resolve b pb) (geom r)) (c0 :: cs));
    [reflexivity|].
  intros r Hr. rewrite <- Hcand in Hr. apply filter_In in Hr. now apply Hall.
Qed.

(** X4. [clip_to_buffer] raises nothing of its own: when the exact clip of
    every boundary-crossing record goes through in the engine, the call
    returns a collection. *)
Theorem clip_to_buffer_returns (E : Engine) (gdf : GeoDataFrame) (b : polygon)
        (pb : option polygon) :
  (forall r, In r (rows gdf) -> crosses E (resolve b pb) r = true ->
             exists o, clip_row E b r = inr o) ->
  exists out, clip_to_buffer E gdf b pb = inr out.
Proof.
  intros Hok; unfold clip_to_buffer. fold (resolve b pb).
  set (p := resolve b pb) in *.
  destruct (empty gdf); [eexists; reflexivity|].
  destruct (filter (fun r => negb (centroid_inside E p r)) (rows gdf))
    as [|c0 cs] eqn:Hcand; [eexists; reflexivity|].
  destruct (filter (fun r => intersects E p (geom r)) (c0 :: cs))
    as [|e0 es] eqn:Hint; [eexists; reflexivity|].
  assert (Hedge : forall r0, In r0 (e0 :: es) -> exists o, clip_row E b r0 = inr o).
  { intros r0 Hr0. rewrite <- Hint in Hr0. apply filter_In in Hr0.
    destruct Hr0 as [Hr0 Hi]. rewrite <- Hcand in Hr0. apply filter_In in Hr0.
    destruct Hr0 as [Hr0 Hc]. apply Hok; [exact Hr0|].
    unfold crosses. now rewrite Hc, Hi. }
  rewrite repair_all.
  assert (Hg : exists clipped,
             gpd_clip E (with_rows gdf (map (repair E) (e0 :: es))) b = inr clipped).
  { unfold gpd_clip. set (sub := filter _ _).
    destruct (forallb _ sub); [eexists; reflexivity|].
    destruct (mapM_ok (fun r => if is_point (geom r) then ret r
                                else g <- intersection E (geom r) b ;;
                                     ret (set_geom r g)) sub) as (ys & Hys).
    - intros r1 Hr1. apply filter_In in Hr1; destruct Hr1 as [Hr1 _].
      unfold with_rows in Hr1; cbn [rows] in Hr1.
      apply in_map_iff in Hr1. destruct Hr1 as (r0 & <- & Hr0).
      destruct (Hedge r0 Hr0) as (o & Ho). unfold clip_row in Ho.
      destruct (is_point (geom (repair E r0))); [eexists; reflexivity|].
      destruct (intersection E (geom (repair E r0)) b) as [e|g];
        simpl in Ho; [discriminate|]. eexists; reflexivity.
    - rewrite Hys; simpl. eexists; reflexivity. }
  destruct Hg as (clipped & Hg). rewrite Hg; cbn [bind].
  destruct (gpd_clip_rows _ _ _ _ Hg) as (_ & _ & Hrows).
  destruct (negb (empty clipped)); [|eexists; reflexivity].
  destruct (mapM_ok (extract_row E) (rows clipped)) as (ys & Hys).
  - intros r Hr. destruct (Hrows r Hr) as (r0 & Hr0 & Hshape).
    destruct (Hedge r0 Hr0) as (o & Ho). unfold clip_row in Ho.
    destruct (is_point (geom (repair E r0))).
    + subst r. eauto.
    + destruct Hshape as (g & Hgi & ->). rewrite Hgi in Ho. simpl in Ho. eauto.
  - rewrite Hys; simpl. eexists; reflexivity.
Qed.

Lemma clip_to_buffer_shape_witness :
  clip_to_buffer Planar.engine Scenario.cells Scenario.boundary None
  = inr Scenario.cells_clipped
  /\ columns Scenario.cells_clipped = columns Scenario.cells
  /\ crs Scenario.cells_clipped = crs Scenario.cells
  /\ (exists clipped,
         rows Scenario.cells_clipped
         = filter (centroid_inside Planar.engine (resolve Scenario.boundary None))
                  (rows Scenario.cells) ++ clipped
         /\ List.length clipped
            <= List.length (filter (crosses Planar.engine
                                            (resolve Scenario.boundary None))
                                   (rows Scenario.cells)))
  /\ len Scenario.cells_clipped <= len Scenario.cells.
Proof.
  assert (Hclip : clip_to_buffer Planar.engine Scenario.cells Scenario.boundary None
                  = inr Scenario.cells_clipped) by (vm_compute; reflexivity).
  split; [exact Hclip|].
  exact (@clip_to_buffer_shape Planar.engine Scenario.cells Scenario.boundary None
                               Scenario.cells_clipped Hclip).
Defined.

Lemma clip_to_buffer_all_inside_witness :
  (forall r, In r (rows Cases.inside_cells) ->
             centroid_inside Planar.engine (resolve Scenario.boundary None) r = true)
  /\ clip_to_buffer Planar.engine Cases.inside_cells Scenario.boundary None
     = inr Cases.inside_cells.
Proof.
  assert (Hall : forall r, In r (rows Cases.inside_cells) ->
            centroid_inside Planar.engine (resolve Scenario.boundary None) r = true).
  { intros r Hr; simpl in Hr.
    repeat (destruct Hr as [<-|Hr]; [vm_compute; reflexivity|]). contradiction. }
  split; [exact Hall|].
  exact (@clip_to_buffer_all_inside Planar.engine Cases.inside_cells
                                    Scenario.boundary None Hall).
Defined.

Lemma clip_to_buffer_all_outside_witness :
  (forall r, In r (rows Cases.far_cells) ->
             centroid_inside Planar.engine (resolve Scenario.boundary None) r = false
             /\ intersects Planar.engine (resolve Scenario.boundary None) (geom r)
                = false)
  /\ clip_to_buffer Planar.engine Cases.far_cells Scenario.boundary None
     = inr (with_rows Cases.far_cells []).
Proof.
  assert (Hall : forall r, In r (rows Cases.far_cells) ->
            centroid_inside Planar.engine (resolve Scenario.boundary None) r = false
            /\ intersects Planar.engine (resolve Scenario.boundary None) (geom r)
               = false).
  { intros r Hr; simpl in Hr.
    repeat (destruct Hr as [<-|Hr]; [split; vm_compute; reflexivity|]).
    contradiction. }
  split; [exact Hall|].
  exact (@clip_to_buffer_all_outside Planar.engine Cases.far_cells
                                     Scenario.boundary None Hall).
Defined.

Lemma clip_to_buffer_returns_witness :
  (forall r, In r (rows Scenario.cells) ->
             crosses Planar.engine (resolve Scenario.boundary None) r = true ->
             exists o, clip_row Planar.engine Scenario.boundary r = inr o)
  /\ exists out,
      clip_to_buffer Planar.engine Scenario.cells Scenario.boundary None = inr out.
Proof.
  assert (Hok : forall r, In r (rows Scenario.cells) ->
            crosses Planar.engine (resolve Scenario.boundary None) r = true ->
            exists o, clip_row Planar.engine Scenario.boundary r = inr o).
  { intros r Hr Hc; simpl in Hr.
    repeat (destruct Hr as [<-|Hr];
            [vm_compute in Hc; try discriminate Hc;
             eexists; vm_compute; reflexivity|]).
    contradiction. }
  split; [exact Hok|].
  exact (@clip_to_buffer_returns Planar.engine Scenario.cells Scenario.boundary
                                 None Hok).
Defined.

(* ------------------------------------------------------------------ *)
(** ** [download_ea_layer] *)

Section RetryLoop.
Variable W : Env.
Variable url : string.
Variable q : list coord.
Variable n : nat.

Lemma post_loop_all_fail (err : nat -> exn) :
  forall remaining attempt,
    1 <= remaining -> attempt + remaining = n + 1 ->
    (forall j, attempt <= j <= n -> try_post W url q j = inl (err j)) ->
    post_loop W url q n remaining attempt
    = (inl (err n),
       flat_map (fun j => [EvPost url j; EvSleep (j * 3)]) (seq attempt (n - attempt))
       ++ [EvPost url n]).
Proof.
  induction remaining as [|r IH]; intros attempt Hr Hsum Hfail; [lia|].
  cbn [post_loop]. rewrite (Hfail attempt) by lia.
  destruct (attempt <? n) eqn:Hlt.
  - apply Nat.ltb_lt in Hlt.
    rewrite (IH (S attempt)) by (try lia; intros j Hj; apply Hfail; lia).
    replace (n - attempt) with (S (n - S attempt)) by lia.
    reflexivity.
  - apply Nat.ltb_ge in Hlt. assert (attempt = n) by lia. subst attempt.
    rewrite Nat.sub_diag. reflexivity.
Qed.

Lemma post_loop_first_success (k : nat) (resp : Response) :
  forall remaining attempt,
    attempt <= k -> k <= n -> attempt + remaining = n + 1 ->
    (forall j, attempt <= j < k -> exists e, try_post W url q j = inl e) ->
    try_post W url q k = inr resp ->
    post_loop W url q n remaining attempt
    = (inr resp,
       flat_map (fun j => [EvPost url j; EvSleep (j * 3)]) (seq attempt (k - attempt))
       ++ [EvPost url k]).
Proof.
  induction remaining as [|r IH]; intros attempt Hak Hkn Hsum Hfail Hok; [lia|].
  cbn [post_loop].
  destruct (Nat.eq_dec attempt k) as [->|Hne].
  - rewrite Hok, Nat.sub_diag. reflexivity.
  - destruct (Hfail attempt) as (e & He); [lia|]. rewrite He.
    assert (Hlt : (attempt <? n) = true) by (apply Nat.ltb_lt; lia). rewrite Hlt.
    rewrite (IH (S attempt)) by (try lia; try assumption; intros j Hj; apply Hfail; lia).
    replace (k - attempt) with (S (k - S attempt)) by lia.
    reflexivity.
Qed.
End RetryLoop.

Lemma retry_trace_requests (url : string) (k : nat) :
  requests (retry_trace url k) = k - 1 + 1.
Proof.
  unfold requests, retry_trace. rewrite filter_app, length_app. simpl.
  f_equal. rewrite <- (length_seq (k - 1) 1) at 2.
  induction (seq 1 (k - 1)) as [|j l IH]; simpl; [reflexivity|]. now rewrite IH.
Qed.

Lemma retry_trace_slept (url : string) (k : nat) :
  2 * slept (retry_trace url k) = 3 * (k * (k - 1)).
Proof.
  unfold slept, retry_trace. rewrite map_app, list_sum_app. simpl.
  rewrite Nat.add_0_r.
  assert (H : forall m, 2 * list_sum (map (fun ev => match ev with
                                                     | EvPost _ _ => 0
                                                     | EvSleep s => s
                                                     end)
                                          (flat_map (fun j => [EvPost url j;
                                                               EvSleep (j * 3)])
                                                    (seq 1 m)))
                        = 3 * (S m * m)).
  { induction m as [|m IH]; [reflexivity|].
    rewrite seq_S, flat_map_app, map_app, list_sum_app. simpl. lia. }
  destruct k as [|k]; [reflexivity|].
  replace (S k - 1) with k by lia. apply H.
Qed.

(** X5. With a budget of n >= 1 attempts all of which fail,
    [download_ea_layer] makes exactly n requests, pauses 3 j seconds after
    the failed attempt j < n (3 n (n - 1) / 2 seconds in all) and then
    raises the exception of the last attempt. *)
Theorem download_ea_layer_gives_up (E : Engine) (W : Env)
        (layer_name layer_id : string) (bbox_wgs84 : bbox) (n : nat)
        (err : nat -> exn) :
  dict_get EA_LAYER_IDS layer_name = Some layer_id ->
  1 <= n ->
  (forall j, 1 <= j <= n ->
             try_post W (layer_url layer_id) (query_polygon bbox_wgs84) j
             = inl (err j)) ->
  download_ea_layer E W layer_name bbox_wgs84 n
  = (inl (err n), retry_trace (layer_url layer_id) n)
  /\ requests (retry_trace (layer_url layer_id) n) = n
  /\ 2 * slept (retry_trace (layer_url layer_id) n) = 3 * (n * (n - 1)).
Proof.
  intros Hid Hn Hfail. split; [|split].
  - unfold download_ea_layer; rewrite Hid.
    rewrite (@post_loop_all_fail W _ _ n err n 1) by (try lia; exact Hfail).
    reflexivity.
  - rewrite retry_trace_requests; lia.
  - apply retry_trace_slept.
Qed.

Lemma download_ea_layer_gives_up_witness :
  dict_get EA_LAYER_IDS "rofsw" = Some "7a7d1570-dd33-4edc-9a19-fde1b9fcaadb"
  /\ 1 <= 5
  /\ download_ea_layer Planar.engine Scenario.env_down "rofsw" Scenario.bbox_wgs84 5
     = (inl "ConnectionError", retry_trace (Scenario.url_of "rofsw") 5)
  /\ requests (retry_trace (Scenario.url_of "rofsw") 5) = 5
  /\ 2 * slept (retry_trace (Scenario.url_of "rofsw") 5) = 3 * (5 * (5 - 1)).
Proof.
  assert (Hid : dict_get EA_LAYER_IDS "rofsw"
                = Some "7a7d1570-dd33-4edc-9a19-fde1b9fcaadb") by reflexivity.
  assert (Hn : 1 <= 5) by lia.
  split; [exact Hid|split; [exact Hn|]].
  exact (@download_ea_layer_gives_up Planar.engine Scenario.env_down "rofsw" _
           Scenario.bbox_wgs84 5 (fun _ => "ConnectionError") Hid Hn
           (fun j _ => eq_refl)).
Defined.

(** X6. When attempt k is the first to succeed, within a budget of n
    attempts, [download_ea_layer] makes exactly k requests, pauses after
    the failed ones only, and returns what the answer of attempt k parses
    to: nothing is requested after a success. *)
Theorem download_ea_layer_first_success (E : Engine) (W : Env)
        (layer_name layer_id : string) (bbox_wgs84 : bbox) (n k : nat)
        (resp : Response) :
  dict_get EA_LAYER_IDS layer_name = Some layer_id ->
  1 <= k <= n ->
  (forall j, 1 <= j < k ->
             exists e, try_post W (layer_url layer_id) (query_polygon bbox_wgs84) j
                       = inl e) ->
  try_post W (layer_url layer_id) (query_polygon bbox_wgs84) k = inr resp ->
  download_ea_layer E W layer_name bbox_wgs84 n
  = (parse_response E resp, retry_trace (layer_url layer_id) k)
  /\ requests (retry_trace (layer_url layer_id) k) = k.
Proof.
  intros Hid Hk Hfail Hok. split.
  - unfold download_ea_layer; rewrite Hid.
    rewrite (@post_loop_first_success W _ _ n k resp n 1)
      by (try lia; assumption).
    reflexivity.
  - rewrite retry_trace_requests; lia.
Qed.

Lemma download_ea_layer_first_success_witness :
  dict_get EA_LAYER_IDS "rofsw" = Some "7a7d1570-dd33-4edc-9a19-fde1b9fcaadb"
  /\ 1 <= 3 <= 5
  /\ download_ea_layer Planar.engine Scenario.env_flaky "rofsw" Scenario.bbox_wgs84 5
     = (parse_response Planar.engine Scenario.tiny,
        retry_trace (Scenario.url_of "rofsw") 3)
  /\ requests (retry_trace (Scenario.url_of "rofsw") 3) = 3.
Proof.
  assert (Hid : dict_get EA_LAYER_IDS "rofsw"
                = Some "7a7d1570-dd33-4edc-9a19-fde1b9fcaadb") by reflexivity.
  assert (Hk : 1 <= 3 <= 5) by lia.
  split; [exact Hid|split; [exact Hk|]].
  apply (@download_ea_layer_first_success Planar.engine Scenario.env_flaky "rofsw" _
           Scenario.bbox_wgs84 5 3 Scenario.tiny Hid Hk).
  - intros j Hj; exists "ConnectionError".
    assert (Hj' : j = 1 \/ j = 2) by lia.
    destruct Hj' as [-> | ->]; reflexivity.
  - reflexivity.
Defined.

(** X7. No request leaves the program for a layer name that is not in
    the table of layer ids (the call raises [KeyError]), nor with a budget
    of zero attempts (the call raises as well). *)
Theorem download_ea_layer_no_request (E : Engine) (W : Env) (layer_name : string)
        (bbox_wgs84 : bbox) (max_retries : nat) :
  dict_get EA_LAYER_IDS layer_name = None \/ max_retries = 0 ->
  exists e,
    download_ea_layer E W layer_name bbox_wgs84 max_retries = (inl e, [])
    /\ (dict_get EA_LAYER_IDS layer_name = None -> e = "KeyError: " +s+ layer_name).
Proof.
  intros H; unfold download_ea_layer.
  destruct (dict_get EA_LAYER_IDS layer_name) as [layer_id|].
  - destruct H as [H|H]; [discriminate H|]. subst max_retries.
    eexists; split; [reflexivity|]. intros H; discriminate H.
  - eexists; split; reflexivity.
Qed.

Lemma download_ea_layer_no_request_witness :
  (dict_get EA_LAYER_IDS "rofsw_2m_depth" = None \/ 3 = 0)
  /\ exists e,
       download_ea_layer Planar.engine Scenario.env_up "rofsw_2m_depth"
                         Scenario.bbox_wgs84 3 = (inl e, [])
       /\ (dict_get EA_LAYER_IDS "rofsw_2m_depth" = None ->
           e = "KeyError: " +s+ "rofsw_2m_depth").
Proof.
  assert (H : dict_get EA_LAYER_IDS "rofsw_2m_depth" = None \/ 3 = 0)
    by (left; reflexivity).
  split; [exact H|].
  exact (@download_ea_layer_no_request Planar.engine Scenario.env_up "rofsw_2m_depth"
           Scenario.bbox_wgs84 3 H).
Defined.

(** X8. A data set with records that names a reference system other
    than the British National Grid is returned reprojected: the collection
    is labelled EPSG:27700 and every vertex of every part is the image of
    the data set's vertex under the transformation from the data set's
    system. A data set in the British National Grid, or without a
    reference system, is returned exploded and otherwise as it is, its
    label and its coordinates untouched. *)
Theorem download_ea_layer_in_bng (E : Engine) (W : Env) (layer_name layer_id : string)
        (bbox_wgs84 : bbox) (max_retries : nat) (resp : Response)
        (names rest : list string) (shp : string) (raw : GeoDataFrame) :
  dict_get EA_LAYER_IDS layer_name = Some layer_id ->
  fst (post_loop W (layer_url layer_id) (query_polygon bbox_wgs84)
                 max_retries max_retries 1) = inr resp ->
  100 <= content_len resp ->
  zip_namelist resp = inr names ->
  filter (fun n => endswith n ".shp") names = shp :: rest ->
  read_file resp shp = inr raw ->
  rows raw <> [] ->
  exists gdf,
    fst (download_ea_layer E W layer_name bbox_wgs84 max_retries) = inr gdf
    /\ (forall c, crs raw = Some c -> c <> "" -> c <> CRS_BNG ->
                  crs gdf = Some CRS_BNG
                  /\ map (@values) (rows gdf) = map (@values) (rows (explode raw))
                  /\ map (fun r => coords (geom r)) (rows gdf)
                     = map (fun r => map (transform E c CRS_BNG) (coords (geom r)))
                           (rows (explode raw)))
    /\ (crs raw = None \/ crs raw = Some "" \/ crs raw = Some CRS_BNG ->
        gdf = explode raw).
Proof.
  intros Hid Hloop Hlen Hnames Hshp Hread Hrows.
  rewrite (download_ea_layer_parsed E W layer_name bbox_wgs84 max_retries
                                    Hid Hloop Hlen Hnames Hshp Hread).
  eexists; split; [reflexivity|].
  assert (Hempty : empty raw = false).
  { unfold empty. destruct (rows raw); [now elim Hrows|reflexivity]. }
  rewrite Hempty.
  assert (Hcoords : forall f g, coords (map_coords f g) = map f (coords g)).
  { intros f. fix IH 1. intros [p|cs|shell|polys|geoms]; cbn [map_coords coords map];
      try reflexivity.
    - induction polys as [|s polys IHp]; [reflexivity|].
      cbn [map List.concat]. now rewrite map_app, IHp.
    - induction geoms as [|g geoms IHg]; [reflexivity|].
      cbn [map flat_map]. now rewrite map_app, IH, IHg. }
  split.
  - intros c Hc Hne Hbng. rewrite Hc.
    assert (He : String.eqb c "" = false) by (now apply String.eqb_neq).
    assert (Hb : String.eqb c CRS_BNG = false) by (now apply String.eqb_neq).
    rewrite He, Hb. cbn [negb andb].
    split; [reflexivity|]. unfold to_crs; cbn [rows].
    split; rewrite map_map; apply map_ext; intros r; cbn [set_geom values geom];
      [reflexivity|apply Hcoords].
  - intros [Hc|[Hc|Hc]]; rewrite Hc; reflexivity.
Qed.

Lemma download_ea_layer_in_bng_witness :
  dict_get EA_LAYER_IDS "rofsw" = Some "7a7d1570-dd33-4edc-9a19-fde1b9fcaadb"
  /\ fst (post_loop Cases.env_wgs84 (Scenario.url_of "rofsw")
                    (query_polygon Scenario.bbox_wgs84) 3 3 1)
     = inr (Scenario.zipped Cases.wgs84_dataset)
  /\ rows Cases.wgs84_dataset <> []
  /\ crs Cases.wgs84_dataset = Some CRS_WGS84
  /\ exists gdf,
      fst (download_ea_layer Planar.engine Cases.env_wgs84 "rofsw"
                             Scenario.bbox_wgs84 3) = inr gdf
      /\ crs gdf = Some CRS_BNG
      /\ map (fun r => coords (geom r)) (rows gdf)
         = map (fun r => map (transform Planar.engine CRS_WGS84 CRS_BNG)
                             (coords (geom r)))
               (rows (explode Cases.wgs84_dataset)).
Proof.
  assert (Hid : dict_get EA_LAYER_IDS "rofsw"
                = Some "7a7d1570-dd33-4edc-9a19-fde1b9fcaadb") by reflexivity.
  assert (Hloop : fst (post_loop Cases.env_wgs84 (Scenario.url_of "rofsw")
                                 (query_polygon Scenario.bbox_wgs84) 3 3 1)
                  = inr (Scenario.zipped Cases.wgs84_dataset)) by reflexivity.
  assert (Hrows : rows Cases.wgs84_dataset <> []) by (intros H; discriminate H).
  assert (Hlen : 100 <= content_len (Scenario.zipped Cases.wgs84_dataset))
    by (simpl; lia).
  split; [exact Hid|split; [exact Hloop|split; [exact Hrows|split; [reflexivity|]]]].
  destruct (@download_ea_layer_in_bng
              Planar.engine Cases.env_wgs84 "rofsw" _ Scenario.bbox_wgs84 3
              (Scenario.zipped Cases.wgs84_dataset)
              ["data.cpg"; "data.dbf"; "data.prj"; "data.shp"; "data.shx"]
              [] "data.shp" Cases.wgs84_dataset
              Hid Hloop Hlen eq_refl eq_refl eq_refl Hrows)
    as (gdf & Hget & Hproj & _).
  exists gdf. split; [exact Hget|].
  destruct (Hproj CRS_WGS84 eq_refl) as (Hcrs & _ & Hcoords);
    [intros H; discriminate H|intros H; discriminate H|].
  split; [exact Hcrs|exact Hcoords].
Defined.

(** X9. Exploding loses no vertex and no attribute and invents none: the
    vertices of the exploded collection, read record by record, are those
    of the original one, and every new record carries the attribute values
    of the record it is a part of. *)
Theorem explode_keeps_vertices (gdf : GeoDataFrame) :
  flat_map (fun r => coords (geom r)) (rows (explode gdf))
  = flat_map (fun r => coords (geom r)) (rows gdf)
  /\ columns (explode gdf) = columns gdf
  /\ crs (explode gdf) = crs gdf
  /\ forall r', In r' (rows (explode gdf)) ->
                exists r, In r (rows gdf) /\ values r' = values r
                          /\ In (geom r') (get_parts (geom r)).
Proof.
  split; [|split; [reflexivity|split; [reflexivity|]]].
  - unfold explode, with_rows; cbn [rows].
    induction (rows gdf) as [|r l IH]; [reflexivity|].
    cbn [flat_map]. rewrite flat_map_app, IH. f_equal.
    assert (Hparts : forall gs,
               flat_map (fun r0 => coords (geom r0)) (map (set_geom r) gs)
               = flat_map coords gs).
    { induction gs as [|g gs IHg]; [reflexivity|].
      cbn [map flat_map]. now rewrite IHg. }
    rewrite Hparts.
    destruct (geom r) as [p|cs|shell|polys|geoms]; cbn [get_parts coords flat_map];
      try (now rewrite app_nil_r).
    + induction polys as [|s polys IHp]; [reflexivity|].
      cbn [map flat_map List.concat coords]. now rewrite IHp.
    + reflexivity.
  - intros r' Hr'; simpl in Hr'.
    apply in_flat_map in Hr'; destruct Hr' as (r & Hr & Hr').
    apply in_map_iff in Hr'; destruct Hr' as (g & <- & Hg).
    exists r; auto.
Qed.

(* ------------------------------------------------------------------ *)
(** ** [_process_single_layer] *)

Lemma empty_len (g : GeoDataFrame) : empty g = true -> len g = 0.
Proof. unfold empty, len; destruct (rows g); [reflexivity|discriminate]. Qed.

Lemma nonempty_len (g : GeoDataFrame) : empty g = false -> 0 < len g.
Proof. unfold empty, len; destruct (rows g); [discriminate|simpl; lia]. Qed.

Lemma process_single_layer_cases (E : Engine) (k : string) (cfg : LayerConfig)
      (raw : GeoDataFrame) (b pb : polygon) (shp : string) (fs : FS) :
  exists lr fs',
    _process_single_layer E k cfg raw b pb shp fs = ((k, lr), fs')
    /\ ((lr = no_data_result cfg /\ fs' = fs)
        \/ (lr = saved_result cfg 0 false /\ fs' = fs)
        \/ (exists e, lr = error_result cfg e /\ fs' = fs)
        \/ (exists g, 0 < len g
                      /\ lr = saved_result cfg (len g) true
                      /\ fs' = dict_set fs (shp_path shp (filename cfg)) (Shapefile g))).
Proof.
  unfold _process_single_layer.
  destruct (empty raw); [do 2 eexists; split; [reflexivity|now left]|].
  destruct (match filter_field cfg with
            | Some field =>
                if String.eqb field "" then ret raw
                else if has_column raw field
                     then filter_by raw field (filter_value cfg)
                     else ret raw
            | None => ret raw
            end) as [e|gdf].
  { do 2 eexists; split; [reflexivity|]. right; right; left. now exists e. }
  cbn [bind].
  destruct (empty gdf); [do 2 eexists; split; [reflexivity|now left]|].
  destruct (clip_to_buffer E gdf b (Some pb)) as [e|c].
  { do 2 eexists; split; [reflexivity|]. right; right; left. now exists e. }
  cbn [bind]. unfold save_as_shapefile.
  destruct (empty c) eqn:Hc.
  - do 2 eexists; split; [reflexivity|]. right; left.
    now rewrite (empty_len _ Hc).
  - do 2 eexists; split; [reflexivity|]. right; right; right.
    exists c. split; [now apply nonempty_len|]. split; reflexivity.
Qed.

(** X10. Whatever happens inside, [_process_single_layer] returns an
    entry under the key it was given, and the entry tells what was done:
    its status is [ok] exactly when it reports features, and exactly when
    it names a file, which then is on disk and holds as many records as
    the entry reports; its status is [error] exactly when it carries an
    error message; short of [ok], no file is written or changed. *)
Theorem process_single_layer_outcome (E : Engine) (k : string) (cfg : LayerConfig)
        (raw : GeoDataFrame) (b pb : polygon) (shp : string) (fs : FS) :
  let out := _process_single_layer E k cfg raw b pb shp fs in
  let lr := snd (fst out) in
  fst (fst out) = k
  /\ lr_description lr = description cfg
  /\ (lr_status lr = ok <-> 0 < lr_features lr)
  /\ (lr_status lr = ok <-> lr_filename lr = Some (filename cfg +s+ ".shp"))
  /\ (lr_status lr <> ok -> lr_filename lr = None /\ snd out = fs)
  /\ (lr_status lr = error <-> exists e, lr_error lr = Some e)
  /\ (lr_status lr = ok ->
      exists g, dict_get (snd out) (shp_path shp (filename cfg)) = Some (Shapefile g)
                /\ len g = lr_features lr).
Proof.
  destruct (process_single_layer_cases E k cfg raw b pb shp fs)
    as (lr & fs' & Heq & Hcases).
  cbv zeta; rewrite Heq; cbn [fst snd].
  destruct Hcases as [[-> ->]|[[-> ->]|[(e & -> & ->)|(g & Hg & -> & ->)]]];
    cbn [no_data_result saved_result error_result lr_status lr_features lr_filename
         lr_error lr_description].
  - repeat split; try discriminate; try reflexivity; try lia.
    intros (e & He); discriminate He.
  - repeat split; try discriminate; try reflexivity; try lia.
    intros (e & He); discriminate He.
  - repeat split; try discriminate; try reflexivity; try lia.
    now exists e.
  - split; [reflexivity|]. split; [reflexivity|].
    split; [tauto|]. split; [tauto|].
    split; [intros H; now elim H|].
    split; [split; [discriminate|intros (e & He); discriminate He]|].
    intros _; exists g; split; [apply dict_get_set_same|reflexivity].
Qed.

(* ------------------------------------------------------------------ *)
(** ** The layers map, the error list and the archive of a job *)

Lemma dict_set_fresh (V : Type) (d : list (string * V)) (k : string) (v : V) :
  ~ In k (map fst d) -> dict_set d k v = d ++ [(k, v)].
Proof.
  induction d as [|[k' v'] d IH]; intros Hk; simpl; [reflexivity|].
  destruct (String.eqb k k') eqn:Heq.
  - apply String.eqb_eq in Heq; subst. elim Hk; now left.
  - rewrite IH; [reflexivity|]. intros H; apply Hk; now right.
Qed.

Lemma dict_get_In_keys (V : Type) (d : list (string * V)) (k : string) (v : V) :
  dict_get d k = Some v -> In k (map fst d).
Proof.
  induction d as [|[k' v'] d IH]; simpl; [discriminate|].
  destruct (String.eqb k k') eqn:Heq; intros H.
  - apply String.eqb_eq in Heq; now left.
  - right; now apply IH.
Qed.

Lemma NoDup_by_nodup (l : list string) : nodup string_dec l = l -> NoDup l.
Proof. intros <-; apply NoDup_nodup. Qed.

Lemma tracked_step (shp : string) (ks ps : list string)
      (layers : list (string * LayerResult)) (fs fs' : FS) (k name : string)
      (lr : LayerResult) :
  tracked shp ks ps layers fs ->
  ~ In k ks ->
  ~ In (shp_path shp name) ps ->
  accounted shp name lr fs fs' ->
  tracked shp (ks ++ [k]) (ps ++ [shp_path shp name]) (dict_set layers k lr) fs'.
Proof.
  intros (Hks & Hps & Hfiles & Hsum & Hnd) Hk Hp Hacc.
  rewrite dict_set_fresh by now rewrite Hks.
  unfold tracked, reported_files, dict_values in *.
  rewrite !map_app, flat_map_app, list_sum_app. cbn [map flat_map fst snd list_sum].
  destruct Hacc as [(Hf & Hn & ->)|(g & Hf & Hn & ->)]; rewrite Hf, Hn.
  - split; [now rewrite Hks|]. split; [now apply incl_appl|].
    cbn [app list_sum fold_right]. rewrite app_nil_r.
    split; [exact Hfiles|]. split; [lia|exact Hnd].
  - assert (Hnew : ~ In (shp_path shp name) (map fst fs))
      by (intros H; apply Hp, Hps, H).
    rewrite dict_set_fresh by exact Hnew.
    rewrite !map_app, list_sum_app.
    cbn [map fst snd list_sum fold_right records app].
    split; [now rewrite Hks|].
    split; [apply incl_app; [now apply incl_appl|apply incl_appr, incl_refl]|].
    split; [rewrite Hfiles; reflexivity|]. split; [lia|].
    apply NoDup_rev in Hnd. rewrite <- (rev_involutive (map fst fs ++ _)).
    apply NoDup_rev. rewrite rev_app_distr. cbn [rev app].
    constructor; [rewrite <- in_rev; exact Hnew|exact Hnd].
Qed.

Lemma risk_band_layer_inr (c : option GeoDataFrame) (shp k : string)
      (layers layers' : list (string * LayerResult)) (fs fs' : FS) :
  risk_band_layer c shp k (layers, fs) = inr (layers', fs') ->
  exists cfg lr,
    dict_get ROFSW_LAYERS k = Some cfg
    /\ layers' = dict_set layers k lr
    /\ accounted shp (filename cfg) lr fs fs'
    /\ lr_status lr <> error
    /\ lr_error lr = None
    /\ lr_features lr <= match c with
                        | Some g => len g
                        | None => 0
                        end.
Proof.
  unfold risk_band_layer.
  destruct (dict_get ROFSW_LAYERS k) as [cfg|]; [|intros H; discriminate H].
  assert (Hno : forall l f, @inr exn _ (dict_set layers k (no_data_result cfg), fs)
                            = inr (l, f) ->
                            exists cfg0 lr,
                              Some cfg = Some cfg0
                              /\ l = dict_set layers k lr
                              /\ accounted shp (filename cfg0) lr fs f
                              /\ lr_status lr <> error
                              /\ lr_error lr = None
                              /\ lr_features lr <= match c with
                                                  | Some g => len g
                                                  | None => 0
                                                  end).
  { intros l f H; injection H as <- <-.
    exists cfg, (no_data_result cfg). split; [reflexivity|]. split; [reflexivity|].
    split; [left; repeat split|]. split; [discriminate|].
    split; [reflexivity|apply Nat.le_0_l]. }
  destruct c as [c|]; [|apply Hno].
  destruct (empty c); [apply Hno|]. clear Hno.
  assert (Hlen : forall filtered,
             match filter_field cfg with
             | Some field =>
                 if has_column c field then filter_by c field (filter_value cfg)
                 else ret c
             | None => ret c
             end = inr filtered ->
             len filtered <= len c).
  { intros filtered.
    destruct (filter_field cfg) as [field|];
      [destruct (has_column c field)|]; try (intros H; injection H as <-; lia).
    unfold filter_by. destruct (negb (str_accessor_ok c field)); [intros H; discriminate H|].
    destruct (filter_value cfg); [|intros H; discriminate H].
    intros H; injection H as <-. unfold len, with_rows; cbn [rows].
    apply filter_length_le. }
  destruct (match filter_field cfg with
            | Some field =>
                if has_column c field then filter_by c field (filter_value cfg)
                else ret c
            | None => ret c
            end) as [e|filtered]; [intros H; discriminate H|].
  specialize (Hlen filtered eq_refl).
  cbn [bind]. unfold save_as_shapefile.
  destruct (empty filtered) eqn:He; intros H; injection H as <- <-.
  - exists cfg, (saved_result cfg (len filtered) false).
    split; [reflexivity|]. split; [reflexivity|].
    split; [left; repeat split; now apply empty_len|].
    split; [discriminate|]. split; [reflexivity|exact Hlen].
  - exists cfg, (saved_result cfg (len filtered) true).
    split; [reflexivity|]. split; [reflexivity|].
    split; [right; exists filtered; repeat split|].
    split; [discriminate|]. split; [reflexivity|exact Hlen].
Qed.

Lemma risk_phase_inr (E : Engine) (raw : GeoDataFrame) (b pb : polygon) (shp : string)
      (fs : FS) (layers0 : list (string * LayerResult)) (fs0 : FS) :
  risk_phase E raw b pb shp fs = inr (layers0, fs0) ->
  exists lr1 lr2 lr3 f1 f2,
    layers0 = [ ("risk_band_High", lr1); ("risk_band_Medium", lr2);
                ("risk_band_Low", lr3) ]
    /\ accounted shp "risk_band_High" lr1 fs f1
    /\ accounted shp "risk_band_Medium" lr2 f1 f2
    /\ accounted shp "risk_band_Low" lr3 f2 fs0
    /\ (forall lr, In lr [lr1; lr2; lr3] ->
                   lr_status lr <> error /\ lr_error lr = None
                   /\ lr_features lr <= len raw).
Proof.
  unfold risk_phase.
  destruct (if negb (empty raw)
            then c <- clip_to_buffer E raw b (Some pb) ;; ret (Some c)
            else ret None) as [e|c] eqn:Hc; [intros H; discriminate H|].
  assert (Hbound : match c with
                   | Some g => len g
                   | None => 0
                   end <= len raw).
  { destruct (negb (empty raw)).
    - destruct (clip_to_buffer E raw b (Some pb)) as [e|g] eqn:Hclip;
        [discriminate Hc|].
      cbn [bind ret] in Hc. injection Hc as <-.
      apply (clip_to_buffer_parts _ _ _ _ Hclip).
    - injection Hc as <-. apply Nat.le_0_l. }
  cbn [bind]. unfold derive_risk_bands, risk_band_keys. cbn [fold_left].
  unfold ret at 1; cbn [bind].
  destruct (risk_band_layer c shp "risk_band_High" ([], fs)) as [e|[l1 f1]] eqn:H1;
    [intros H; discriminate H|]. cbn [bind].
  destruct (risk_band_layer c shp "risk_band_Medium" (l1, f1)) as [e|[l2 f2]] eqn:H2;
    [intros H; discriminate H|]. cbn [bind].
  intros H3.
  apply risk_band_layer_inr in H1;
    destruct H1 as (c1 & lr1 & Hc1 & -> & A1 & S1 & E1 & B1).
  apply risk_band_layer_inr in H2;
    destruct H2 as (c2 & lr2 & Hc2 & -> & A2 & S2 & E2 & B2).
  apply risk_band_layer_inr in H3;
    destruct H3 as (c3 & lr3 & Hc3 & -> & A3 & S3 & E3 & B3).
  cbn in Hc1, Hc2, Hc3.
  injection Hc1 as <-; injection Hc2 as <-; injection Hc3 as <-.
  cbn [filename] in A1, A2, A3.
  exists lr1, lr2, lr3, f1, f2.
  split; [reflexivity|]. split; [exact A1|]. split; [exact A2|]. split; [exact A3|].
  intros lr [<-|[<-|[<-|[]]]]; (split; [assumption|split; [assumption|lia]]).
Qed.

Lemma process_single_layer_accounted (E : Engine) (k : string) (cfg : LayerConfig)
      (raw : GeoDataFrame) (b pb : polygon) (shp : string) (fs : FS) :
  exists lr fs',
    _process_single_layer E k cfg raw b pb shp fs = ((k, lr), fs')
    /\ accounted shp (filename cfg) lr fs fs'.
Proof.
  destruct (process_single_layer_cases E k cfg raw b pb shp fs)
    as (lr & fs' & Heq & Hcases).
  exists lr, fs'. split; [exact Heq|].
  destruct Hcases as [[-> ->]|[[-> ->]|[(e & -> & ->)|(g & Hg & -> & ->)]]].
  - left; repeat split.
  - left; repeat split.
  - left; repeat split.
  - right; exists g; repeat split.
Qed.

Lemma depth_loop_tracked (E : Engine) (raw : RawData) (b pb : polygon) (shp : string)
      (l : list (string * LayerConfig)) :
  forall ks ps layers errors fs,
    tracked shp ks ps layers fs ->
    NoDup (ks ++ map fst l) ->
    NoDup (ps ++ map (fun kv => shp_path shp (filename (snd kv))) l) ->
    tracked shp (ks ++ map fst l)
            (ps ++ map (fun kv => shp_path shp (filename (snd kv))) l)
            (fst (fst (fold_left (depth_layer E raw b pb shp) l (layers, errors, fs))))
            (snd (fold_left (depth_layer E raw b pb shp) l (layers, errors, fs))).
Proof.
  induction l as [|[k cfg] l IH]; intros ks ps layers errors fs Ht Hks Hps.
  - cbn [fold_left map fst snd]. now rewrite !app_nil_r.
  - destruct (process_single_layer_accounted E k cfg (raw_get raw (ea_layer cfg))
                                             b pb shp fs)
      as (lr & fs' & Heq & Hacc).
    assert (Hstep : depth_layer E raw b pb shp (layers, errors, fs) (k, cfg)
                    = (dict_set layers k lr, errors ++ error_entry k lr, fs'))
      by (unfold depth_layer; rewrite Heq; reflexivity).
    cbn [fold_left map fst snd] in *. rewrite Hstep.
    replace (ks ++ k :: map fst l) with ((ks ++ [k]) ++ map fst l)
      by (now rewrite <- app_assoc).
    replace (ps ++ shp_path shp (filename cfg)
                :: map (fun kv => shp_path shp (filename (snd kv))) l)
      with ((ps ++ [shp_path shp (filename cfg)])
              ++ map (fun kv => shp_path shp (filename (snd kv))) l)
      by (now rewrite <- app_assoc).
    apply IH.
    + eapply tracked_step; [exact Ht| | |exact Hacc].
      * intros H; apply (NoDup_remove_2 _ _ _ Hks). apply in_or_app; now left.
      * intros H; apply (NoDup_remove_2 _ _ _ Hps). apply in_or_app; now left.
    + now rewrite <- app_assoc.
    + now rewrite <- app_assoc.
Qed.

Lemma package_tracked (E : Engine) (W : Env) (location : Location) (radius : Q)
      (bbox_bng bbox_wgs84 : bbox) (b pb : polygon) (job_name : string) (raw : RawData)
      (layers0 : list (string * LayerResult)) (fs0 : FS) :
  tracked "shapefiles" risk_band_keys (map (shp_path "shapefiles") risk_band_keys)
          layers0 fs0 ->
  let out := package E W location radius bbox_bng bbox_wgs84 b pb job_name
                     "shapefiles" raw (layers0, fs0) in
  map fst (layers (fst out)) = layer_keys
  /\ map fst (snd out)
     = reported_files "shapefiles" (layers (fst out)) ++ ["metadata.json"]
  /\ total_features (fst out) = list_sum (map records (dict_values (snd out)))
  /\ NoDup (map fst (snd out)).
Proof.
  intros Ht.
  assert (Hks : NoDup (risk_band_keys ++ map fst depth_layers))
    by (apply NoDup_by_nodup; vm_compute; reflexivity).
  assert (Hps : NoDup (map (shp_path "shapefiles") risk_band_keys
                           ++ map (fun kv => shp_path "shapefiles" (filename (snd kv)))
                                  depth_layers))
    by (apply NoDup_by_nodup; vm_compute; reflexivity).
  pose proof (@depth_loop_tracked E raw b pb "shapefiles" depth_layers _ _ layers0 []
                                   fs0 Ht Hks Hps) as Hd.
  cbv zeta. unfold package, derive_depth_layers.
  destruct (fold_left (depth_layer E raw b pb "shapefiles") depth_layers
                      (layers0, [], fs0)) as [[layers1 errors1] fs1].
  cbn [fst snd] in Hd.
  unfold save_as_shapefile, create_zip. cbn [empty rows fst snd layers total_features].
  remember (mkGDF ["postcode"; "radius_m"] (Some CRS_BNG)
                  [mkRow [Some (VStr (loc_postcode location)); Some (VNum radius)]
                         (Polygon b)]) as buffer_gdf eqn:Hbuf.
  assert (Hb : tracked "shapefiles"
                       ((risk_band_keys ++ map fst depth_layers) ++ ["search_buffer"])
                       ((map (shp_path "shapefiles") risk_band_keys
                             ++ map (fun kv => shp_path "shapefiles" (filename (snd kv)))
                                    depth_layers)
                          ++ [shp_path "shapefiles" (buffer_filename radius)])
                       (dict_set layers1 "search_buffer"
                                 (search_buffer_result location radius))
                       (dict_set fs1 (shp_path "shapefiles" (buffer_filename radius))
                                 (Shapefile buffer_gdf))).
  { eapply tracked_step; [exact Hd| | |].
    - vm_compute; intuition discriminate.
    - unfold buffer_filename. remember (str_of_Z (int_of_Q radius)) as n.
      rewrite depth_layers_eq. cbn. intuition discriminate.
    - right; exists buffer_gdf. subst buffer_gdf. repeat split. }
  destruct Hb as (Hkeys & Hincl & Hfiles & Hsum & Hnd).
  assert (Hmeta : ~ In "metadata.json"
                    (map fst (dict_set fs1 (shp_path "shapefiles" (buffer_filename radius))
                                       (Shapefile buffer_gdf)))).
  { intros H; apply Hincl in H. revert H.
    unfold buffer_filename. remember (str_of_Z (int_of_Q radius)) as n.
    rewrite depth_layers_eq. cbn. intuition discriminate. }
  split; [|split; [|split]].
  - exact Hkeys.
  - rewrite (@dict_set_fresh File _ _ _ Hmeta), map_app. cbn [map fst].
    f_equal. exact Hfiles.
  - rewrite (@dict_set_fresh File _ _ _ Hmeta). unfold dict_values in *.
    rewrite !map_app, list_sum_app. cbn [map snd records list_sum fold_right].
    fold (search_buffer_result location radius). lia.
  - rewrite (@dict_set_fresh File _ _ _ Hmeta), map_app. cbn [map fst].
    apply NoDup_rev in Hnd.
    rewrite <- (rev_involutive (map fst _ ++ ["metadata.json"])).
    apply NoDup_rev. rewrite rev_app_distr. cbn [rev app].
    constructor; [rewrite <- in_rev; exact Hmeta|exact Hnd].
Qed.

Lemma process_postcode_tracked (E : Engine) (W : Env) (postcode : string) (radius : Q)
      (res : JobResult) (ar : FS) :
  process_postcode E W postcode radius = inr (res, ar) ->
  map fst (layers res) = layer_keys
  /\ map fst ar = reported_files "shapefiles" (layers res) ++ ["metadata.json"]
  /\ total_features res = list_sum (map records (dict_values ar))
  /\ NoDup (map fst ar).
Proof.
  intros Hjob.
  destruct (process_postcode_inr _ _ _ _ Hjob)
    as (location & layers0 & fs0 & _ & Hrest).
  cbv zeta in Hrest; destruct Hrest as [Hrisk Hpack].
  apply risk_phase_inr in Hrisk.
  destruct Hrisk as (lr1 & lr2 & lr3 & f1 & f2 & -> & A1 & A2 & A3 & _).
  assert (Ht : tracked "shapefiles" risk_band_keys
                       (map (shp_path "shapefiles") risk_band_keys)
                       [ ("risk_band_High", lr1); ("risk_band_Medium", lr2);
                         ("risk_band_Low", lr3) ] fs0).
  { assert (H0 : tracked "shapefiles" [] [] [] []).
    { repeat split; [intros x []|constructor]. }
    pose proof (@tracked_step "shapefiles" [] [] [] [] f1 "risk_band_High"
                              "risk_band_High" lr1 H0 (fun H => H) (fun H => H) A1)
      as T1.
    assert (T2 : tracked "shapefiles" ["risk_band_High"; "risk_band_Medium"]
                         [shp_path "shapefiles" "risk_band_High";
                          shp_path "shapefiles" "risk_band_Medium"]
                         (dict_set (dict_set [] "risk_band_High" lr1)
                                   "risk_band_Medium" lr2) f2).
    { eapply (@tracked_step "shapefiles" _ _ _ f1 f2 "risk_band_Medium"
                            "risk_band_Medium" lr2 T1); [| |exact A2];
        vm_compute; intuition discriminate. }
    eapply (@tracked_step "shapefiles" _ _ _ f2 fs0 "risk_band_Low" "risk_band_Low"
                          lr3 T2); [| |exact A3];
      vm_compute; intuition discriminate. }
  match type of Hpack with
  | _ = package ?E ?W ?l ?r ?b1 ?b2 ?b ?pb ?j ?s ?raw ?st =>
      pose proof (@package_tracked E W l r b1 b2 b pb j raw _ _ Ht) as Hfacts
  end.
  cbv zeta in Hfacts. rewrite <- Hpack in Hfacts. exact Hfacts.
Qed.

(** X11. The layers map of every completed job has the same nine keys in
    the same order: the three risk bands, the five depths, the search
    buffer. *)
Theorem job_layers_keys (E : Engine) (W : Env) (postcode : string) (radius : Q)
        (res : JobResult) (ar : FS) :
  process_postcode E W postcode radius = inr (res, ar) ->
  map fst (layers res) = layer_keys.
Proof. intros Hjob; apply (process_postcode_tracked _ _ _ _ Hjob). Qed.

Lemma job_layers_keys_witness :
  process_postcode Planar.engine Scenario.env_up "SW1A 1AA" 500
  = inr (fst Scenario.job_up, snd Scenario.job_up)
  /\ map fst (layers (fst Scenario.job_up)) = layer_keys.
Proof.
  assert (Hjob : process_postcode Planar.engine Scenario.env_up "SW1A 1AA" 500
                 = inr (fst Scenario.job_up, snd Scenario.job_up))
    by (vm_compute; reflexivity).
  split; [exact Hjob|].
  exact (@job_layers_keys Planar.engine Scenario.env_up "SW1A 1AA" 500
           (fst Scenario.job_up) (snd Scenario.job_up) Hjob).
Defined.



Lemma layer_outcome_cases (E : Engine) (raw : RawData) (b pb : polygon) (shp : string)
      (kv : string * LayerConfig) :
  let lr := layer_outcome E raw b pb shp kv in
  lr = no_data_result (snd kv)
  \/ lr = saved_result (snd kv) 0 false
  \/ (exists e, lr = error_result (snd kv) e)
  \/ (exists g, lr = saved_result (snd kv) (len g) true).
Proof.
  cbv zeta; unfold layer_outcome.
  destruct (process_single_layer_cases E (fst kv) (snd kv)
                                       (raw_get raw (ea_layer (snd kv))) b pb shp [])
    as (lr & fs' & Heq & Hcases).
  rewrite Heq; cbn [fst snd].
  destruct Hcases as [[-> _]|[[-> _]|[(e & -> & _)|(g & _ & -> & _)]]].
  - now left.
  - right; now left.
  - right; right; left; now exists e.
  - right; right; right; now exists g.
Qed.

(** X13. In a completed job the error list and the layers map tell the
    same story: an entry has status [error] only if it is a depth layer,
    it then carries a message, and the message, unless empty, is in the
    error list under the key of the layer; and every line of the error
    list is the message of a layer whose status is [error]. The risk bands
    and the search buffer never report [error]. *)
Theorem job_errors_match_layers (E : Engine) (W : Env) (postcode : string) (radius : Q)
        (res : JobResult) (ar : FS) :
  process_postcode E W postcode radius = inr (res, ar) ->
  (forall k lr,
      dict_get (layers res) k = Some lr ->
      lr_status lr = error ->
      startswith k "depth_" = true
      /\ exists msg, lr_error lr = Some msg
                     /\ (msg <> "" -> In (k +s+ ": " +s+ msg) (errors res)))
  /\ (forall s,
         In s (errors res) ->
         exists k lr msg,
           dict_get (layers res) k = Some lr
           /\ lr_status lr = error
           /\ lr_error lr = Some msg
           /\ s = k +s+ ": " +s+ msg).
Proof.
  intros Hjob.
  destruct (process_postcode_tracked _ _ _ _ Hjob) as (Hkeys & _ & _).
  destruct (process_postcode_inr _ _ _ _ Hjob)
    as (location & layers0 & fs0 & _ & Hrest).
  cbv zeta in Hrest; destruct Hrest as [Hrisk Hpack].
  apply risk_phase_inr in Hrisk.
  destruct Hrisk as (lr1 & lr2 & lr3 & f1 & f2 & Hl0 & _ & _ & _ & Hplain).
  match type of Hpack with
  | _ = package ?E ?W ?l ?r ?b1 ?b2 ?b ?pb ?j ?s ?rw ?st0 =>
      pose proof (package_layers E W l r b1 b2 b pb j s rw layers0 fs0) as Hlayers;
      pose proof (package_facts E W l r b1 b2 b pb j s rw layers0 fs0) as Hfacts
  end.
  rewrite <- Hpack in Hlayers, Hfacts. cbv zeta in Hlayers, Hfacts.
  cbn [fst] in Hlayers, Hfacts.
  destruct Hlayers as (Hdepth & Hbands & Hsb). destruct Hfacts as (_ & Herrors & _).
  split.
  - intros k lr Hget Hst.
    pose proof (dict_get_In_keys _ _ Hget) as Hin. rewrite Hkeys in Hin.
    change layer_keys
      with (risk_band_keys ++ map fst depth_layers ++ ["search_buffer"]) in Hin.
    apply in_app_or in Hin; destruct Hin as [Hin|Hin];
      [|apply in_app_or in Hin; destruct Hin as [Hin|Hin]].
    + exfalso. rewrite (Hbands k Hin), Hl0 in Hget.
      simpl in Hin.
      repeat (destruct Hin as [<-|Hin];
              [cbn in Hget; injection Hget as Heq;
               apply (proj1 (Hplain lr ltac:(rewrite <- Heq; simpl; tauto)) Hst)|]).
      contradiction.
    + apply in_map_iff in Hin; destruct Hin as (kv & <- & Hkv).
      rewrite (Hdepth kv Hkv) in Hget; injection Hget as <-.
      split; [apply filter_In in Hkv; apply Hkv|].
      match goal with
      | |- context [layer_outcome ?E ?rw ?b ?pb ?s kv] =>
          destruct (layer_outcome_cases E rw b pb s kv)
            as [Hlr|[Hlr|[(e & Hlr)|(g & Hlr)]]];
          rewrite Hlr in Hst |- *; try discriminate Hst
      end.
      exists e; split; [reflexivity|]. intros Hne.
      rewrite Herrors. apply in_flat_map. exists kv; split; [exact Hkv|].
      rewrite Hlr. unfold error_entry. cbn [error_result lr_error].
      destruct (String.eqb e "") eqn:He;
        [apply String.eqb_eq in He; contradiction|now left].
    + exfalso. destruct Hin as [<-|[]].
      rewrite Hsb in Hget; injection Hget as <-. cbn in Hst. discriminate Hst.
  - intros s Hs. rewrite Herrors in Hs.
    apply in_flat_map in Hs; destruct Hs as (kv & Hkv & Hs).
    exists (fst kv).
    match type of Hs with
    | context [layer_outcome ?E ?rw ?b ?pb ?sh kv] =>
        exists (layer_outcome E rw b pb sh kv);
        destruct (layer_outcome_cases E rw b pb sh kv)
          as [Hlr|[Hlr|[(e & Hlr)|(g & Hlr)]]];
        rewrite Hlr in Hs |- *;
        unfold error_entry in Hs;
        cbn [no_data_result saved_result error_result lr_error] in Hs;
        try contradiction
    end.
    exists e. split; [rewrite <- Hlr; now apply Hdepth|].
    split; [reflexivity|]. split; [reflexivity|].
    destruct (String.eqb e ""); [contradiction|].
    destruct Hs as [<-|[]]; reflexivity.
Qed.

Lemma job_errors_match_layers_witness :
  process_postcode Planar.engine Cases.env_bad_depth "SW1A 1AA" 500
  = inr (fst Cases.job_bad_depth, snd Cases.job_bad_depth)
  /\ (forall k lr,
         dict_get (layers (fst Cases.job_bad_depth)) k = Some lr ->
         lr_status lr = error ->
         startswith k "depth_" = true
         /\ exists msg, lr_error lr = Some msg
                        /\ (msg <> "" ->
                            In (k +s+ ": " +s+ msg) (errors (fst Cases.job_bad_depth))))
  /\ (forall s,
         In s (errors (fst Cases.job_bad_depth)) ->
         exists k lr msg,
           dict_get (layers (fst Cases.job_bad_depth)) k = Some lr
           /\ lr_status lr = error
           /\ lr_error lr = Some msg
           /\ s = k +s+ ": " +s+ msg).
Proof.
  assert (Hjob : process_postcode Planar.engine Cases.env_bad_depth "SW1A 1AA" 500
                 = inr (fst Cases.job_bad_depth, snd Cases.job_bad_depth))
    by (vm_compute; reflexivity).
  split; [exact Hjob|].
  exact (@job_errors_match_layers Planar.engine Cases.env_bad_depth "SW1A 1AA" 500
           (fst Cases.job_bad_depth) (snd Cases.job_bad_depth) Hjob).
Defined.

Lemma clip_to_buffer_raises_nonempty (E : Engine) (gdf : GeoDataFrame) (b : polygon)
      (pb : option polygon) (e : exn) :
  clip_to_buffer E gdf b pb = inl e -> empty gdf = false.
Proof.
  unfold clip_to_buffer. destruct (empty gdf); [intros H; discriminate H|reflexivity].
Qed.

(** X14. When clipping the risk layer raises, the whole job raises that
    exception: step 5 runs outside any handler, so no result and no
    archive are produced, whatever the depth layers hold. *)
Theorem risk_clip_failure_aborts (E : Engine) (W : Env) (postcode : string) (radius : Q)
        (location : Location) (e : exn) :
  geocode_postcode W postcode = inr location ->
  let bb := snd (create_buffer_bbox E (loc_easting location) (loc_northing location)
                                    radius) in
  let b := create_buffer_polygon E (loc_easting location) (loc_northing location)
                                 radius in
  clip_to_buffer E (fetch_one E W bb "rofsw") b (Some (prep b)) = inl e ->
  process_postcode E W postcode radius = inl e.
Proof.
  intros Hgeo bb b Hclip. subst bb b. unfold process_postcode.
  rewrite Hgeo; cbn [bind].
  destruct (create_buffer_bbox E _ _ radius) as [bbox_bng bbox_wgs84].
  cbn [snd] in Hclip.
  rewrite raw_get_fetch_all by (rewrite unique_layers_eq; simpl; tauto).
  unfold risk_phase.
  rewrite (clip_to_buffer_raises_nonempty _ _ _ _ Hclip). cbn [negb].
  rewrite Hclip. reflexivity.
Qed.

Lemma risk_clip_failure_aborts_witness :
  geocode_postcode Cases.env_bad_risk "SW1A 1AA" = inr Scenario.location
  /\ clip_to_buffer Planar.engine
                    (fetch_one Planar.engine Cases.env_bad_risk Scenario.bbox_wgs84
                               "rofsw")
                    Scenario.boundary (Some (prep Scenario.boundary))
     = inl "GEOSException: outside the convex fragment"
  /\ process_postcode Planar.engine Cases.env_bad_risk "SW1A 1AA" 500
     = inl "GEOSException: outside the convex fragment".
Proof.
  assert (Hgeo : geocode_postcode Cases.env_bad_risk "SW1A 1AA"
                 = inr Scenario.location) by reflexivity.
  assert (Hclip : clip_to_buffer Planar.engine
                    (fetch_one Planar.engine Cases.env_bad_risk Scenario.bbox_wgs84
                               "rofsw")
                    Scenario.boundary (Some (prep Scenario.boundary))
                  = inl "GEOSException: outside the convex fragment")
    by (vm_compute; reflexivity).
  split; [exact Hgeo|split; [exact Hclip|]].
  exact (@risk_clip_failure_aborts Planar.engine Cases.env_bad_risk "SW1A 1AA" 500
           Scenario.location "GEOSException: outside the convex fragment" Hgeo Hclip).
Defined.

(** X15. When clipping a depth layer raises, the job still completes:
    that layer's entry has status [error] and carries the message, the
    message is in the error list under the layer's key, and every other
    depth layer has the entry of its own derivation. *)
Theorem depth_clip_failure_recorded (E : Engine) (W : Env) (postcode : string)
        (radius : Q) (location : Location) (st : list (string * LayerResult) * FS)
        (kv : string * LayerConfig) (e : exn) :
  geocode_postcode W postcode = inr location ->
  let bb := snd (create_buffer_bbox E (loc_easting location) (loc_northing location)
                                    radius) in
  let b := create_buffer_polygon E (loc_easting location) (loc_northing location)
                                 radius in
  let raw := fetch_all E W bb in
  risk_phase E (raw_get raw "rofsw") b (prep b) "shapefiles" [] = inr st ->
  In kv depth_layers ->
  clip_to_buffer E (fetch_one E W bb (ea_layer (snd kv))) b (Some (prep b)) = inl e ->
  exists res ar,
    process_postcode E W postcode radius = inr (res, ar)
    /\ dict_get (layers res) (fst kv) = Some (error_result (snd kv) e)
    /\ (e <> "" -> In (fst kv +s+ ": " +s+ e) (errors res))
    /\ (forall kv', In kv' depth_layers ->
                    dict_get (layers res) (fst kv')
                    = Some (layer_outcome E raw b (prep b) "shapefiles" kv')).
Proof.
  intros Hgeo bb b raw Hrisk Hkv Hclip.
  pose proof (@process_postcode_ok E W postcode radius location st Hgeo) as Hok.
  cbv zeta in Hok. fold bb b raw in Hok. specialize (Hok Hrisk).
  assert (Hout : layer_outcome E raw b (prep b) "shapefiles" kv
                 = error_result (snd kv) e).
  { assert (Hfed : In (ea_layer (snd kv)) unique_layers
                   /\ filter_field (snd kv) = None).
    { revert Hkv; rewrite depth_layers_eq, unique_layers_eq; simpl.
      intros Hkv.
      repeat (destruct Hkv as [<-|Hkv]; [simpl; tauto|]). contradiction. }
    destruct Hfed as [Hin Hfield].
    unfold layer_outcome, raw, _process_single_layer.
    rewrite (@raw_get_fetch_all E W bb _ Hin), Hfield.
    rewrite (clip_to_buffer_raises_nonempty _ _ _ _ Hclip). cbn [bind ret].
    rewrite (clip_to_buffer_raises_nonempty _ _ _ _ Hclip), Hclip.
    reflexivity. }
  match type of Hok with
  | _ = inr (package ?E ?W ?l ?r ?b1 ?b2 ?b ?pb ?j ?s ?rw ?st0) =>
      pose proof (package_layers E W l r b1 b2 b pb j s rw (fst st) (snd st))
        as Hlayers;
      pose proof (package_facts E W l r b1 b2 b pb j s rw (fst st) (snd st))
        as Hfacts;
      exists (fst (package E W l r b1 b2 b pb j s rw st0)),
             (snd (package E W l r b1 b2 b pb j s rw st0))
  end.
  rewrite <- surjective_pairing in Hlayers, Hfacts.
  cbv zeta in Hlayers, Hfacts.
  destruct Hlayers as (Hdepth & _ & _). destruct Hfacts as (_ & Herrors & _).
  split; [rewrite Hok; f_equal; apply surjective_pairing|].
  split; [rewrite (Hdepth kv Hkv); f_equal; exact Hout|].
  split; [|exact Hdepth].
  intros Hne. rewrite Herrors. apply in_flat_map. exists kv; split; [exact Hkv|].
  fold bb b raw. rewrite Hout. unfold error_entry. cbn [error_result lr_error].
  destruct (String.eqb e "") eqn:He;
    [apply String.eqb_eq in He; contradiction|now left].
Qed.

Lemma depth_clip_failure_recorded_witness :
  geocode_postcode Cases.env_bad_depth "SW1A 1AA" = inr Scenario.location
  /\ risk_phase Planar.engine
                (raw_get (fetch_all Planar.engine Cases.env_bad_depth
                                    Scenario.bbox_wgs84) "rofsw")
                Scenario.boundary (prep Scenario.boundary) "shapefiles" []
     = inr Scenario.risk_up
  /\ In ("depth_0.6m", mkLayerConfig "rofsw_0_6m_depth" None None
                                     "Flooding depth >= 0.6m" "depth_0_6m")
        depth_layers
  /\ clip_to_buffer Planar.engine
                    (fetch_one Planar.engine Cases.env_bad_depth Scenario.bbox_wgs84
                               "rofsw_0_6m_depth")
                    Scenario.boundary (Some (prep Scenario.boundary))
     = inl "GEOSException: outside the convex fragment"
  /\ exists res ar,
      process_postcode Planar.engine Cases.env_bad_depth "SW1A 1AA" 500 = inr (res, ar)
      /\ dict_get (layers res) "depth_0.6m"
         = Some (error_result
                   (mkLayerConfig "rofsw_0_6m_depth" None None
                                  "Flooding depth >= 0.6m" "depth_0_6m")
                   "GEOSException: outside the convex fragment")
      /\ In "depth_0.6m: GEOSException: outside the convex fragment" (errors res).
Proof.
  assert (Hgeo : geocode_postcode Cases.env_bad_depth "SW1A 1AA"
                 = inr Scenario.location) by reflexivity.
  assert (Hrisk : risk_phase Planar.engine
                    (raw_get (fetch_all Planar.engine Cases.env_bad_depth
                                        Scenario.bbox_wgs84) "rofsw")
                    Scenario.boundary (prep Scenario.boundary) "shapefiles" []
                  = inr Scenario.risk_up) by (vm_compute; reflexivity).
  assert (Hkv : In ("depth_0.6m", mkLayerConfig "rofsw_0_6m_depth" None None
                                                "Flooding depth >= 0.6m" "depth_0_6m")
                   depth_layers)
    by (rewrite depth_layers_eq; simpl; tauto).
  assert (Hclip : clip_to_buffer Planar.engine
                    (fetch_one Planar.engine Cases.env_bad_depth Scenario.bbox_wgs84
                               "rofsw_0_6m_depth")
                    Scenario.boundary (Some (prep Scenario.boundary))
                  = inl "GEOSException: outside the convex fragment")
    by (vm_compute; reflexivity).
  split; [exact Hgeo|split; [exact Hrisk|split; [exact Hkv|split; [exact Hclip|]]]].
  destruct (@depth_clip_failure_recorded Planar.engine Cases.env_bad_depth "SW1A 1AA"
              500 Scenario.location Scenario.risk_up _
              "GEOSException: outside the convex fragment" Hgeo Hrisk Hkv Hclip)
    as (res & ar & Hjob & Hentry & Herr & _).
  exists res, ar.
  split; [exact Hjob|]. split; [exact Hentry|].
  apply Herr. intros H; discriminate H.
Defined.

(* ------------------------------------------------------------------ *)
(** ** The order of the downloads *)

Lemma dict_get_fold_set (V : Type) (f : string -> V) (name : string)
      (order : list string) :
  forall d,
    dict_get (fold_left (fun d n => dict_set d n (f n)) order d) name
    = if in_list name order then Some (f name) else dict_get d name.
Proof.
  unfold in_list.
  induction order as [|a l IH]; intros d; cbn [fold_left existsb]; [reflexivity|].
  rewrite IH. destruct (existsb (String.eqb name) l); [now rewrite orb_true_r|].
  rewrite orb_false_r. destruct (String.eqb name a) eqn:Ha.
  - apply String.eqb_eq in Ha; subst a. apply dict_get_set_same.
  - apply dict_get_set_neq; exact Ha.
Qed.

Lemma depth_layer_ext (E : Engine) (raw1 raw2 : RawData) (b pb : polygon) (shp : string)
      (st : list (string * LayerResult) * list string * FS)
      (kv : string * LayerConfig) :
  (forall name, raw_get raw1 name = raw_get raw2 name) ->
  depth_layer E raw1 b pb shp st kv = depth_layer E raw2 b pb shp st kv.
Proof.
  intros H. destruct st as [[layers errors] fs], kv as [lk lc].
  unfold depth_layer. now rewrite H.
Qed.

Lemma package_ext (E : Engine) (W : Env) (location : Location) (radius : Q)
      (bbox_bng bbox_wgs84 : bbox) (b pb : polygon) (job_name shp : string)
      (raw1 raw2 : RawData) (st : list (string * LayerResult) * FS) :
  (forall name, raw_get raw1 name = raw_get raw2 name) ->
  package E W location radius bbox_bng bbox_wgs84 b pb job_name shp raw1 st
  = package E W location radius bbox_bng bbox_wgs84 b pb job_name shp raw2 st.
Proof.
  intros H. unfold package, derive_depth_layers. destruct st as [layers0 fs0].
  assert (Hfold : forall l s,
             fold_left (depth_layer E raw1 b pb shp) l s
             = fold_left (depth_layer E raw2 b pb shp) l s).
  { induction l as [|kv l IH]; intros s; cbn [fold_left]; [reflexivity|].
    now rewrite (depth_layer_ext E raw1 raw2 b pb shp s kv H), IH. }
  now rewrite Hfold.
Qed.

(** X16. The order in which the parallel downloads complete does not
    show: whatever order the six futures are collected in, every lookup in
    [raw_data] gives the same collection, and so steps 5 to 9 give the
    same job. *)
Theorem fetch_order_irrelevant (E : Engine) (W : Env) (bbox_wgs84 : bbox)
        (order : list string) :
  Permutation order unique_layers ->
  (forall name,
      raw_get (fetch_in E W bbox_wgs84 order) name
      = raw_get (fetch_all E W bbox_wgs84) name)
  /\ (forall b pb shp fs,
         risk_phase E (raw_get (fetch_in E W bbox_wgs84 order) "rofsw") b pb shp fs
         = risk_phase E (raw_get (fetch_all E W bbox_wgs84) "rofsw") b pb shp fs)
  /\ (forall location radius bbox_bng b pb job_name shp st,
         package E W location radius bbox_bng bbox_wgs84 b pb job_name shp
                 (fetch_in E W bbox_wgs84 order) st
         = package E W location radius bbox_bng bbox_wgs84 b pb job_name shp
                   (fetch_all E W bbox_wgs84) st).
Proof.
  intros Hperm.
  assert (Hget : forall name,
             raw_get (fetch_in E W bbox_wgs84 order) name
             = raw_get (fetch_all E W bbox_wgs84) name).
  { intros name. unfold raw_get, fetch_in, fetch_all.
    rewrite !dict_get_fold_set.
    replace (in_list name order) with (in_list name unique_layers); [reflexivity|].
    apply eq_true_iff_eq. unfold in_list. rewrite !existsb_exists.
    split; intros (x & Hx & Hex); exists x; split; try exact Hex.
    - eapply Permutation_in; [apply Permutation_sym; exact Hperm|exact Hx].
    - eapply Permutation_in; [exact Hperm|exact Hx]. }
  split; [exact Hget|]. split.
  - intros b pb shp fs. now rewrite Hget.
  - intros. now apply package_ext.
Qed.

Lemma fetch_order_irrelevant_witness :
  Permutation (rev unique_layers) unique_layers
  /\ (forall name,
         raw_get (fetch_in Planar.engine Scenario.env_up Scenario.bbox_wgs84
                           (rev unique_layers)) name
         = raw_get (fetch_all Planar.engine Scenario.env_up Scenario.bbox_wgs84) name)
  /\ (forall b pb shp fs,
         risk_phase Planar.engine
                    (raw_get (fetch_in Planar.engine Scenario.env_up
                                       Scenario.bbox_wgs84 (rev unique_layers))
                             "rofsw") b pb shp fs
         = risk_phase Planar.engine
                      (raw_get (fetch_all Planar.engine Scenario.env_up
                                          Scenario.bbox_wgs84) "rofsw") b pb shp fs)
  /\ (forall location radius bbox_bng b pb job_name shp st,
         package Planar.engine Scenario.env_up location radius bbox_bng
                 Scenario.bbox_wgs84 b pb job_name shp
                 (fetch_in Planar.engine Scenario.env_up Scenario.bbox_wgs84
                           (rev unique_layers)) st
         = package Planar.engine Scenario.env_up location radius bbox_bng
                   Scenario.bbox_wgs84 b pb job_name shp
                   (fetch_all Planar.engine Scenario.env_up Scenario.bbox_wgs84) st).
Proof.
  assert (Hperm : Permutation (rev unique_layers) unique_layers)
    by (apply Permutation_sym, Permutation_rev).
  split; [exact Hperm|].
  exact (@fetch_order_irrelevant Planar.engine Scenario.env_up Scenario.bbox_wgs84
           (rev unique_layers) Hperm).
Defined.

(* ------------------------------------------------------------------ *)
(** ** The download route *)

Lemma rev_string_app (s t acc : string) :
  rev_string (s +s+ t) acc = rev_string t (rev_string s acc).
Proof.
  revert acc; induction s as [|c s IH]; intros acc; simpl; [reflexivity|apply IH].
Qed.

Lemma endswith_zip (s : string) : endswith (s +s+ ".zip") ".zip" = true.
Proof.
  unfold endswith. rewrite rev_string_app. cbn.
  now destruct (rev_string s "").
Qed.

Lemma package_zip (E : Engine) (W : Env) (location : Location) (radius : Q)
      (bbox_bng bbox_wgs84 : bbox) (b pb : polygon) (job shp : string)
      (raw : RawData) (st : list (string * LayerResult) * FS) :
  let res := fst (package E W location radius bbox_bng bbox_wgs84 b pb job shp raw st) in
  job_name res = job
  /\ zip_filename res = job +s+ ".zip"
  /\ zip_file res = OUTPUT_DIR W +s+ job +s+ ".zip".
Proof.
  cbv zeta. unfold package, derive_depth_layers. destruct st as [layers0 fs0].
  destruct (fold_left (depth_layer E raw b pb shp) depth_layers (layers0, [], fs0))
    as [[layers1 errors1] fs1].
  destruct (save_as_shapefile _ shp _ fs1) as [saved fs2].
  cbn [fst job_name zip_filename zip_file]. repeat split.
Qed.

(** X17. The archive name a completed job reports passes the check of
    the download route: once the archive is on disk, [api_download] on
    [zip_filename] sends the file at [zip_file], under that name. *)
Theorem api_download_serves_job (E : Engine) (W : Env) (postcode : string) (radius : Q)
        (res : JobResult) (ar : FS) (exists_ : string -> bool) :
  process_postcode E W postcode radius = inr (res, ar) ->
  exists_ (zip_file res) = true ->
  api_download W exists_ (zip_filename res)
  = SendFile (zip_file res) (zip_filename res).
Proof.
  intros Hjob Hdisk.
  destruct (process_postcode_inr _ _ _ _ Hjob)
    as (location & layers0 & fs0 & _ & Hrest).
  cbv zeta in Hrest; destruct Hrest as [_ Hpack].
  match type of Hpack with
  | _ = package ?E ?W ?l ?r ?b1 ?b2 ?b ?pb ?j ?s ?rw ?st0 =>
      pose proof (package_zip E W l r b1 b2 b pb j s rw st0) as Hzip
  end.
  rewrite <- Hpack in Hzip. cbv zeta in Hzip. cbn [fst] in Hzip.
  destruct Hzip as (_ & Hname & Hfile).
  unfold api_download. rewrite Hname in *. rewrite Hfile in *.
  rewrite Hdisk, endswith_zip. reflexivity.
Qed.

Lemma api_download_serves_job_witness :
  process_postcode Planar.engine Scenario.env_up "SW1A 1AA" 500
  = inr (fst Scenario.job_up, snd Scenario.job_up)
  /\ String.eqb "output/RoFSW_SW1A1AA_20250101_120000.zip"
                (zip_file (fst Scenario.job_up)) = true
  /\ api_download Scenario.env_up
                  (String.eqb "output/RoFSW_SW1A1AA_20250101_120000.zip")
                  (zip_filename (fst Scenario.job_up))
     = SendFile (zip_file (fst Scenario.job_up)) (zip_filename (fst Scenario.job_up)).
Proof.
  assert (Hjob : process_postcode Planar.engine Scenario.env_up "SW1A 1AA" 500
                 = inr (fst Scenario.job_up, snd Scenario.job_up))
    by (vm_compute; reflexivity).
  assert (Hdisk : String.eqb "output/RoFSW_SW1A1AA_20250101_120000.zip"
                             (zip_file (fst Scenario.job_up)) = true)
    by reflexivity.
  split; [exact Hjob|split; [exact Hdisk|]].
  exact (@api_download_serves_job Planar.engine Scenario.env_up "SW1A 1AA" 500
           (fst Scenario.job_up) (snd Scenario.job_up) _ Hjob Hdisk).
Defined.

(* ------------------------------------------------------------------ *)
(** ** [geocode_postcode] *)

Module GeocoderFacts.
Import Geocoder.

Lemma take_drop (n : nat) (s : string) : take n s +s+ drop n s = s.
Proof.
  revert s; induction n as [|n IH]; intros [|c s]; simpl; try reflexivity.
  now rewrite IH.
Qed.

Lemma length_drop (n : nat) (s : string) :
  String.length (drop n s) = String.length s - n.
Proof.
  revert s; induction n as [|n IH]; intros [|c s]; simpl; try reflexivity.
  apply IH.
Qed.

Lemma encode_spaces_app (s t : string) :
  encode_spaces (s +s+ t) = encode_spaces s +s+ encode_spaces t.
Proof.
  induction s as [|c s IH]; simpl; [reflexivity|].
  destruct (nat_of_ascii c =? 32); simpl; now rewrite IH.
Qed.

Lemma encode_spaces_clean (s : string) :
  encode_spaces (remove_spaces s) = remove_spaces s.
Proof.
  induction s as [|c s IH]; simpl; [reflexivity|].
  destruct (nat_of_ascii c =? 32) eqn:Hc; [exact IH|].
  simpl. now rewrite Hc, IH.
Qed.

Lemma encode_spaces_split (s t : string) :
  encode_spaces (s +s+ t) = s +s+ t ->
  encode_spaces s = s /\ encode_spaces t = t.
Proof.
  induction s as [|c s IH]; simpl; [auto|].
  destruct (nat_of_ascii c =? 32) eqn:Hc.
  - intros H; injection H as Hhead _. subst c. discriminate Hc.
  - intros H; injection H as H. destruct (IH H) as [Hs Ht].
    now rewrite Hs.
Qed.
End GeocoderFacts.

(** X18. The address [geocode_postcode] requests holds the postcode in
    upper case and without a space: a postcode of up to four characters as
    it is, a longer one with %20 before its last three characters, however
    the caller spaced or cased it. *)
Theorem geocode_url_shape (postcode : string) :
  let clean := remove_spaces (upper (strip postcode)) in
  (String.length clean <= 4 ->
   Geocoder.format_postcode postcode = clean
   /\ Geocoder.geocode_url postcode = Geocoder.POSTCODES_API +s+ clean)
  /\ (4 < String.length clean ->
      exists outward inward,
        clean = outward +s+ inward
        /\ String.length inward = 3
        /\ Geocoder.format_postcode postcode = outward +s+ " " +s+ inward
        /\ Geocoder.geocode_url postcode
           = Geocoder.POSTCODES_API +s+ outward +s+ "%20" +s+ inward)
  /\ remove_spaces (Geocoder.geocode_url postcode) = Geocoder.geocode_url postcode.
Proof.
  cbv zeta. unfold Geocoder.geocode_url, Geocoder.format_postcode.
  set (clean := remove_spaces (upper (strip postcode))).
  assert (Hclean : Geocoder.encode_spaces clean = clean)
    by apply GeocoderFacts.encode_spaces_clean.
  assert (Hsplit : Geocoder.take (String.length clean - 3) clean
                   +s+ Geocoder.drop (String.length clean - 3) clean = clean)
    by apply GeocoderFacts.take_drop.
  set (outward := Geocoder.take (String.length clean - 3) clean) in *.
  set (inward := Geocoder.drop (String.length clean - 3) clean) in *.
  assert (Hparts : Geocoder.encode_spaces outward = outward
                   /\ Geocoder.encode_spaces inward = inward).
  { apply GeocoderFacts.encode_spaces_split. rewrite Hsplit. exact Hclean. }
  destruct Hparts as [Hout Hin].
  assert (Henc : Geocoder.encode_spaces (outward +s+ " " +s+ inward)
                 = outward +s+ "%20" +s+ inward).
  { rewrite !GeocoderFacts.encode_spaces_app, Hout, Hin. reflexivity. }
  assert (Hnospace : forall s, Geocoder.encode_spaces s = s -> remove_spaces s = s).
  { induction s as [|c s IH]; simpl; [reflexivity|].
    destruct (nat_of_ascii c =? 32) eqn:Hc.
    - intros H; injection H as Hhead _. subst c. discriminate Hc.
    - intros H; injection H as H. now rewrite (IH H). }
  assert (Hrm : forall s t, remove_spaces (s +s+ t) = remove_spaces s +s+ remove_spaces t).
  { induction s as [|c s IH]; intros t; simpl; [reflexivity|].
    destruct (nat_of_ascii c =? 32); simpl; now rewrite IH. }
  split; [|split].
  - intros Hle. apply Nat.ltb_ge in Hle. rewrite Hle, Hclean. auto.
  - intros Hlt. exists outward, inward.
    split; [symmetry; exact Hsplit|].
    split; [unfold inward; rewrite GeocoderFacts.length_drop; lia|].
    apply Nat.ltb_lt in Hlt. rewrite Hlt, Henc. auto.
  - destruct (4 <? String.length clean).
    + rewrite Henc, !Hrm, (Hnospace _ Hout), (Hnospace _ Hin). reflexivity.
    + rewrite Hclean, Hrm, (Hnospace _ Hclean). reflexivity.
Qed.

(** X19. An unknown postcode is reported as such, with the postcode as it
    was looked up: when the lookup answers 404, and when it answers with a
    document whose status is not 200 or whose result is missing or empty,
    [geocode_postcode] raises the same [ValueError]; the 404 is never
    reported as an HTTP error. Any other error status raises the HTTP
    error. *)
Theorem geocode_postcode_not_found (http_get : string -> result Geocoder.GetResponse)
        (postcode : string) (resp : Geocoder.GetResponse) :
  http_get (Geocoder.geocode_url postcode) = inr resp ->
  (Geocoder.get_status_code resp = 404
   \/ (Geocoder.get_status_code resp < 400
       /\ exists fields,
           Geocoder.get_json resp = inr (Geocoder.JObj fields)
           /\ (Geocoder.differs_from_200 (dict_get fields "status") = true
               \/ Geocoder.falsy (dict_get fields "result") = true)) ->
   Geocoder.geocode_postcode http_get postcode
   = inl (Geocoder.not_found (Geocoder.format_postcode postcode)))
  /\ (400 <= Geocoder.get_status_code resp < 600 ->
      Geocoder.get_status_code resp <> 404 ->
      Geocoder.geocode_postcode http_get postcode
      = inl ("HTTPError: " +s+ str_of_Z (Z.of_nat (Geocoder.get_status_code resp)))).
Proof.
  intros Hget. unfold Geocoder.geocode_postcode.
  unfold Geocoder.geocode_url in Hget. cbv zeta. rewrite Hget. cbn [bind].
  split.
  - intros [H404|(Hlt & fields & Hjson & Hcase)].
    + rewrite H404. reflexivity.
    + destruct (Geocoder.get_status_code resp =? 404) eqn:H4; [reflexivity|].
      unfold Geocoder.check_status.
      assert (Hlow : (400 <=? Geocoder.get_status_code resp) = false)
        by (apply Nat.leb_gt; exact Hlt).
      rewrite Hlow. cbn [andb bind ret]. rewrite Hjson. cbn [bind Geocoder.json_get ret].
      destruct (Geocoder.differs_from_200 (dict_get fields "status")); [reflexivity|].
      destruct Hcase as [Hcase|Hcase]; [discriminate Hcase|].
      rewrite Hcase. reflexivity.
  - intros [Hlo Hhi] Hne.
    destruct (Geocoder.get_status_code resp =? 404) eqn:H4;
      [apply Nat.eqb_eq in H4; contradiction|].
    unfold Geocoder.check_status.
    assert (Hin : andb (400 <=? Geocoder.get_status_code resp)
                       (Geocoder.get_status_code resp <? 600) = true).
    { apply andb_true_iff; split; [now apply Nat.leb_le|now apply Nat.ltb_lt]. }
    rewrite Hin. reflexivity.
Qed.

Lemma geocode_postcode_not_found_witness :
  Lookups.knows_none (Geocoder.geocode_url " zz99 9zz ") = inr Lookups.unknown
  /\ Geocoder.geocode_postcode Lookups.knows_none " zz99 9zz "
     = inl "ValueError: Postcode 'ZZ99 9ZZ' not found. Please check and try again.".
Proof.
  assert (Hget : Lookups.knows_none (Geocoder.geocode_url " zz99 9zz ")
                 = inr Lookups.unknown) by reflexivity.
  split; [exact Hget|].
  exact (proj1 (@geocode_postcode_not_found Lookups.knows_none " zz99 9zz "
                  Lookups.unknown Hget)
               (or_introl eq_refl)).
Defined.

(* ------------------------------------------------------------------ *)
(** ** Feature counts *)

Lemma layer_outcome_bound (E : Engine) (raw : RawData) (b pb : polygon) (shp : string)
      (kv : string * LayerConfig) :
  lr_features (layer_outcome E raw b pb shp kv)
  <= len (raw_get raw (ea_layer (snd kv))).
Proof.
  unfold layer_outcome, _process_single_layer.
  set (g0 := raw_get raw (ea_layer (snd kv))).
  destruct (empty g0); [apply Nat.le_0_l|].
  assert (Hlen : forall gdf,
             match filter_field (snd kv) with
             | Some field =>
                 if String.eqb field "" then ret g0
                 else if has_column g0 field
                      then filter_by g0 field (filter_value (snd kv))
                      else ret g0
             | None => ret g0
             end = inr gdf ->
             len gdf <= len g0).
  { intros gdf.
    destruct (filter_field (snd kv)) as [field|];
      [destruct (String.eqb field ""); [|destruct (has_column g0 field)]|];
      try (intros H; injection H as <-; lia).
    unfold filter_by.
    destruct (negb (str_accessor_ok g0 field)); [intros H; discriminate H|].
    destruct (filter_value (snd kv)); [|intros H; discriminate H].
    intros H; injection H as <-. unfold len, with_rows; cbn [rows].
    apply filter_length_le. }
  destruct (match filter_field (snd kv) with
            | Some field =>
                if String.eqb field "" then ret g0
                else if has_column g0 field
                     then filter_by g0 field (filter_value (snd kv))
                     else ret g0
            | None => ret g0
            end) as [e|gdf]; [apply Nat.le_0_l|].
  specialize (Hlen gdf eq_refl). cbn [bind].
  destruct (empty gdf); [apply Nat.le_0_l|].
  destruct (clip_to_buffer E gdf b (Some pb)) as [e|c] eqn:Hclip; [apply Nat.le_0_l|].
  cbn [bind]. unfold save_as_shapefile.
  pose proof (proj2 (proj2 (proj2 (clip_to_buffer_parts _ _ _ _ Hclip)))) as Hc.
  destruct (empty c); cbn [ret fst snd saved_result lr_features]; lia.
Qed.

(** X20. The pipeline invents no feature: in a completed job, no
    configured layer reports more features than the records downloaded for
    the remote layer it is derived from. *)
Theorem job_features_bounded (E : Engine) (W : Env) (postcode : string) (radius : Q)
        (res : JobResult) (ar : FS) :
  process_postcode E W postcode radius = inr (res, ar) ->
  exists location,
    geocode_postcode W postcode = inr location
    /\ forall k cfg lr,
        dict_get ROFSW_LAYERS k = Some cfg ->
        dict_get (layers res) k = Some lr ->
        lr_features lr
        <= len (fetch_one E W
                          (snd (create_buffer_bbox E (loc_easting location)
                                                   (loc_northing location) radius))
                          (ea_layer cfg)).
Proof.
  intros Hjob.
  destruct (process_postcode_inr _ _ _ _ Hjob)
    as (location & layers0 & fs0 & Hgeo & Hrest).
  exists location. split; [exact Hgeo|].
  cbv zeta in Hrest; destruct Hrest as [Hrisk Hpack].
  apply risk_phase_inr in Hrisk.
  destruct Hrisk as (lr1 & lr2 & lr3 & f1 & f2 & Hl0 & _ & _ & _ & Hplain).
  match type of Hpack with
  | _ = package ?E ?W ?l ?r ?b1 ?b2 ?b ?pb ?j ?s ?rw ?st0 =>
      pose proof (package_layers E W l r b1 b2 b pb j s rw layers0 fs0) as Hlayers
  end.
  rewrite <- Hpack in Hlayers. cbv zeta in Hlayers. cbn [fst] in Hlayers.
  destruct Hlayers as (Hdepth & Hbands & _).
  rewrite raw_get_fetch_all in Hplain by (rewrite unique_layers_eq; simpl; tauto).
  intros k cfg lr Hcfg Hget.
  pose proof (dict_get_In_keys _ _ Hcfg) as Hin. simpl in Hin.
  repeat (destruct Hin as [<-|Hin];
          [cbn in Hcfg; injection Hcfg as <-;
           match type of Hget with
           | dict_get _ ?key = _ =>
               match goal with
               | |- _ <= len (fetch_one _ _ _ (ea_layer ?c)) =>
                   first
                     [ rewrite (Hbands key ltac:(simpl; tauto)), Hl0 in Hget;
                       cbn in Hget; injection Hget as Heq;
                       apply (Hplain lr); rewrite <- Heq; simpl; tauto
                     | pose proof (Hdepth (key, c) ltac:(rewrite depth_layers_eq;
                                                         simpl; tauto)) as Hd;
                       cbn [fst] in Hd; rewrite Hd in Hget; injection Hget as <-;
                       eapply Nat.le_trans; [apply layer_outcome_bound|];
                       cbn [snd ea_layer];
                       rewrite raw_get_fetch_all
                         by (rewrite unique_layers_eq; simpl; tauto);
                       apply Nat.le_refl ]
               end
           end|]).
  contradiction.
Qed.

Lemma job_features_bounded_witness :
  process_postcode Planar.engine Scenario.env_up "SW1A 1AA" 500
  = inr (fst Scenario.job_up, snd Scenario.job_up)
  /\ exists location,
      geocode_postcode Scenario.env_up "SW1A 1AA" = inr location
      /\ forall k cfg lr,
          dict_get ROFSW_LAYERS k = Some cfg ->
          dict_get (layers (fst Scenario.job_up)) k = Some lr ->
          lr_features lr
          <= len (fetch_one Planar.engine Scenario.env_up
                            (snd (create_buffer_bbox Planar.engine
                                    (loc_easting location) (loc_northing location)
                                    500))
                            (ea_layer cfg)).
Proof.
  assert (Hjob : process_postcode Planar.engine Scenario.env_up "SW1A 1AA" 500
                 = inr (fst Scenario.job_up, snd Scenario.job_up))
    by (vm_compute; reflexivity).
  split; [exact Hjob|].
  exact (@job_features_bounded Planar.engine Scenario.env_up "SW1A 1AA" 500
           (fst Scenario.job_up) (snd Scenario.job_up) Hjob).
Defined.
